(** * install-citc.py: the Cluster-in-the-Cloud installer

    A shallow embedding of [src/install-citc.py] and the properties of its
    provisioning workflow.  The script is a sequence of calls to the
    operating system and to external tools; it is modelled as a program in
    a state-and-exception monad over a small file system, a table of
    answers for everything the script does not control (the [World]) and a
    log of the calls it makes.  The script is read as a Python 3 program;
    paths, text files and the encoding of text are those of a POSIX system
    with a UTF-8 locale, and the name of the platform is an input. *)

From Stdlib Require Import String Ascii List NArith ZArith Bool Arith Lia.
Import ListNotations.
Open Scope list_scope.
Open Scope string_scope.

(** ** Python string operations used by the script

    A [bytes] value is the string of its bytes.  A [str] value is
    represented by its UTF-8 encoding, and a command-line argument, which
    Python decodes with [surrogateescape], by the bytes that were typed:
    it can be encoded again exactly when these bytes are well-formed
    UTF-8.  What the script looks for and replaces is ASCII text, for
    which a test on the encoding is the test on the text. *)

Module PyStr.

(** [needle in hay] *)
Fixpoint contains (needle hay : string) : bool :=
  if prefix needle hay then true
  else match hay with
       | EmptyString => false
       | String _ rest => contains needle rest
       end.

(** [s.startswith(p)] *)
Definition startswith (p s : string) : bool := prefix p s.

(** [s.replace(old, new)] for a non-empty [old]: the occurrences are taken
    from the left and do not overlap.  [skip] counts the characters of an
    occurrence that are still to be dropped. *)
Fixpoint replace_from (skip : nat) (old new s : string) : string :=
  match s with
  | EmptyString => EmptyString
  | String c rest =>
      match skip with
      | S k => replace_from k old new rest
      | O =>
          if prefix old s
          then new ++ replace_from (pred (String.length old)) old new rest
          else String c (replace_from 0 old new rest)
      end
  end.

Definition replace (old new s : string) : string := replace_from 0 old new s.

(** The white space [str.strip()] removes is every character for which
    [str.isspace()] holds.  Below U+0080 these are tab, line feed, vertical
    tab, form feed, carriage return, the four separators 0x1c-0x1f and the
    space; each is one byte. *)
Definition is_space (c : ascii) : bool :=
  let n := nat_of_ascii c in
  (((9 <=? n) && (n <=? 13)) || ((28 <=? n) && (n <=? 32)))%nat.

Definition code (c : ascii) : N := N_of_ascii c.

Definition between (lo hi n : N) : bool := ((lo <=? n) && (n <=? hi))%N.

(** U+0085 and U+00A0, encoded in two bytes. *)
Definition is_space2 (c0 c1 : ascii) : bool :=
  ((code c0 =? 194) && ((code c1 =? 133) || (code c1 =? 160)))%N.

(** U+1680, U+2000 to U+200A, U+2028, U+2029, U+202F, U+205F and U+3000,
    encoded in three bytes. *)
Definition is_space3 (c0 c1 c2 : ascii) : bool :=
  ((code c0 =? 225) && (code c1 =? 154) && (code c2 =? 128)
   || (code c0 =? 226) && (code c1 =? 128)
      && (between 128 138 (code c2) || (code c2 =? 168) || (code c2 =? 169)
          || (code c2 =? 175))
   || (code c0 =? 226) && (code c1 =? 129) && (code c2 =? 159)
   || (code c0 =? 227) && (code c1 =? 128) && (code c2 =? 128))%N.

Fixpoint lstrip_by (drop : ascii -> bool) (s : string) : string :=
  match s with
  | EmptyString => EmptyString
  | String c rest => if drop c then lstrip_by drop rest else s
  end.

Fixpoint rstrip_by (drop : ascii -> bool) (s : string) : string :=
  match s with
  | EmptyString => EmptyString
  | String c rest =>
      match rstrip_by drop rest with
      | EmptyString => if drop c then EmptyString else String c EmptyString
      | kept => String c kept
      end
  end.

Definition strip_by (drop : ascii -> bool) (s : string) : string :=
  rstrip_by drop (lstrip_by drop s).

(** Dropping white space from the left of a text; [sp2] and [sp3] tell the
    encodings of two and three bytes. *)
Fixpoint lstrip_text (sp2 : ascii -> ascii -> bool)
    (sp3 : ascii -> ascii -> ascii -> bool) (s : string) : string :=
  match s with
  | EmptyString => EmptyString
  | String c0 r0 =>
      if is_space c0 then lstrip_text sp2 sp3 r0
      else
        match r0 with
        | EmptyString => s
        | String c1 r1 =>
            if sp2 c0 c1 then lstrip_text sp2 sp3 r1
            else
              match r1 with
              | EmptyString => s
              | String c2 r2 =>
                  if sp3 c0 c1 c2 then lstrip_text sp2 sp3 r2 else s
              end
        end
  end.

Fixpoint reverse (s : string) : string :=
  match s with
  | EmptyString => EmptyString
  | String c rest => reverse rest ++ String c EmptyString
  end.

Definition lstrip (s : string) : string := lstrip_text is_space2 is_space3 s.

(** From the right the encodings are met last byte first. *)
Definition rstrip (s : string) : string :=
  reverse (lstrip_text (fun c1 c0 => is_space2 c0 c1)
             (fun c2 c1 c0 => is_space3 c0 c1 c2) (reverse s)).

(** [s.strip()] for a text [s]. *)
Definition strip (s : string) : string := rstrip (lstrip s).

(** [s.strip(q)] where [q] is the one-character string holding a double
    quote. *)
Definition dquote : ascii := ascii_of_nat 34.

Definition strip_quote (s : string) : string :=
  strip_by (Ascii.eqb dquote) s.

(** ["c" * n] *)
Fixpoint times (c : ascii) (n : nat) : string :=
  match n with
  | O => EmptyString
  | S k => String c (times c k)
  end.

(** [s.split(sep)] for a one-character separator. *)
Fixpoint split (sep : ascii) (s : string) : list string :=
  match s with
  | EmptyString => [EmptyString]
  | String c rest =>
      if Ascii.eqb c sep then EmptyString :: split sep rest
      else match split sep rest with
           | h :: t => String c h :: t
           | [] => [String c EmptyString]
           end
  end.

(** Truth value of an optional command-line string: [None] and the empty
    string are both false. *)
Definition truthy (o : option string) : bool :=
  match o with
  | Some (String _ _) => true
  | _ => false
  end.

Definition value (o : option string) : string :=
  match o with Some s => s | None => EmptyString end.

(** Well-formed UTF-8, as [bytes.decode()] and a text file opened with the
    UTF-8 locale require it: no byte that cannot start a character, no
    truncated or overlong form, no surrogate, nothing above U+10FFFF. *)
Definition continuation (n : N) : bool := between 128 191 n.

Definition two_bytes (b0 b1 : N) : bool :=
  between 194 223 b0 && continuation b1.

Definition three_bytes (b0 b1 b2 : N) : bool :=
  (continuation b2
   && ((b0 =? 224) && between 160 191 b1
       || between 225 236 b0 && continuation b1
       || (b0 =? 237) && between 128 159 b1
       || between 238 239 b0 && continuation b1))%N.

Definition four_bytes (b0 b1 b2 b3 : N) : bool :=
  (continuation b2 && continuation b3
   && ((b0 =? 240) && between 144 191 b1
       || between 241 243 b0 && continuation b1
       || (b0 =? 244) && between 128 143 b1))%N.

Fixpoint utf8_valid (s : string) : bool :=
  match s with
  | EmptyString => true
  | String c0 r0 =>
      if (code c0 <? 128)%N then utf8_valid r0
      else
        match r0 with
        | EmptyString => false
        | String c1 r1 =>
            if two_bytes (code c0) (code c1) then utf8_valid r1
            else
              match r1 with
              | EmptyString => false
              | String c2 r2 =>
                  if three_bytes (code c0) (code c1) (code c2)
                  then utf8_valid r2
                  else
                    match r2 with
                    | EmptyString => false
                    | String c3 r3 =>
                        four_bytes (code c0) (code c1) (code c2) (code c3)
                        && utf8_valid r3
                    end
              end
        end
  end.

(** What reading in text mode does to the line ends: a carriage return,
    with the line feed that follows it if there is one, becomes a line
    feed. *)
Fixpoint universal_newlines (s : string) : string :=
  match s with
  | EmptyString => EmptyString
  | String c rest =>
      if (code c =? 13)%N
      then String (ascii_of_nat 10)
             match rest with
             | String c' rest' =>
                 if (code c' =? 10)%N then universal_newlines rest'
                 else universal_newlines rest
             | EmptyString => EmptyString
             end
      else String c (universal_newlines rest)
  end.

(** [open(p).read()] on the bytes of the file: the text, or nothing when
    the bytes do not decode. *)
Definition read_text (data : string) : option string :=
  if utf8_valid data then Some (universal_newlines data) else None.

End PyStr.

Fixpoint free_of (c : ascii) (s : string) : bool :=
  match s with
  | EmptyString => true
  | String x rest => negb (Ascii.eqb x c) && free_of c rest
  end.

(** ** The file system the script works in

    A tree of directories.  Paths are lists of names counted from the
    root of the tree. *)

Module FS.

Definition path := list string.

#[warnings="-register-all"]
Inductive node : Type :=
| File (text : string)
| Archive (top : path) (tree : node)
| Dir (entries : list (string * node)).

Definition entries := list (string * node).

Fixpoint get (k : string) (es : entries) : option node :=
  match es with
  | [] => None
  | (k', n) :: rest => if String.eqb k k' then Some n else get k rest
  end.

Fixpoint put (k : string) (n : node) (es : entries) : entries :=
  match es with
  | [] => [(k, n)]
  | (k', n') :: rest =>
      if String.eqb k k' then (k, n) :: rest else (k', n') :: put k n rest
  end.

Fixpoint del (k : string) (es : entries) : entries :=
  match es with
  | [] => []
  | (k', n') :: rest =>
      if String.eqb k k' then del k rest else (k', n') :: del k rest
  end.

Fixpoint lookup (n : node) (p : path) : option node :=
  match p with
  | [] => Some n
  | k :: p' =>
      match n with
      | Dir es =>
          match get k es with
          | Some c => lookup c p'
          | None => None
          end
      | _ => None
      end
  end.

(** [modify n p v] sets ([v = Some c]) or deletes ([v = None]) the entry at
    [p]; the directory that holds the entry must exist. *)
Fixpoint modify (n : node) (p : path) (v : option node) : option node :=
  match p with
  | [] => None
  | k :: p' =>
      match n with
      | Dir es =>
          match p' with
          | [] =>
              Some (Dir (match v with
                         | Some c => put k c es
                         | None => del k es
                         end))
          | _ :: _ =>
              match get k es with
              | Some c =>
                  match modify c p' v with
                  | Some c' => Some (Dir (put k c' es))
                  | None => None
                  end
              | None => None
              end
          end
      | _ => None
      end
  end.

(** Unpacking one member of a tar or zip archive at [p]: missing
    directories on the way are created, an existing directory is kept, a
    file is replaced. *)
Fixpoint unpack (n : node) (p : path) (m : node) : option node :=
  match p with
  | [] =>
      match m, n with
      | Dir _, Dir _ => Some n
      | Dir _, _ => None
      | _, Dir _ => None
      | _, _ => Some m
      end
  | k :: p' =>
      match n with
      | Dir es =>
          let child :=
            match get k es with
            | Some c => c
            | None => match p' with [] => m | _ :: _ => Dir [] end
            end in
          match unpack child p' m with
          | Some c' => Some (Dir (put k c' es))
          | None => None
          end
      | _ => None
      end
  end.

Fixpoint unpack_all (n : node) (base : path) (ms : list (path * node))
  : option node :=
  match ms with
  | [] => Some n
  | (p, m) :: rest =>
      match unpack n (base ++ p)%list m with
      | Some n' => unpack_all n' base rest
      | None => None
      end
  end.

Definition is_dir (o : option node) : bool :=
  match o with Some (Dir _) => true | _ => false end.

Definition is_file (o : option node) : bool :=
  match o with Some (File _) => true | Some (Archive _ _) => true | _ => false end.

Definition is_empty_dir (o : option node) : bool :=
  match o with Some (Dir []) => true | _ => false end.

(** [os.rename(src, dst)] on POSIX: the source must exist; a destination
    that exists is replaced only when it is a file and so is the source,
    or an empty directory and the source is a directory. *)
Definition rename (root : node) (src dst : path) : option node :=
  match lookup root src with
  | None => None
  | Some n =>
      let target := lookup root dst in
      let allowed :=
        match target with
        | None => true
        | Some _ =>
            if is_dir (Some n) then is_empty_dir target else is_file target
        end in
      if allowed then
        match modify root src None with
        | Some root' => modify root' dst (Some n)
        | None => None
        end
      else None
  end.

(** Resolving a path string: empty and [.] components are dropped, [..]
    goes up; a string that begins with a slash is resolved from the root,
    any other from the current directory.  The components are taken as
    text, which is what the system does when the directories passed
    through exist; the names the script makes from an output of the tool
    are therefore taken without a slash where this matters ([plain]). *)
Definition slash : ascii := ascii_of_nat 47.

Definition enter (cwd : path) (c : string) : path :=
  if String.eqb c "" then cwd
  else if String.eqb c "." then cwd
  else if String.eqb c ".." then removelast cwd
  else (cwd ++ [c])%list.

Definition resolve (cwd : path) (s : string) : path :=
  fold_left enter (PyStr.split slash s)
    (if PyStr.startswith "/" s then [] else cwd).

(** A component that names an entry. *)
Definition is_name (c : string) : bool :=
  free_of slash c && negb (String.eqb c "") && negb (String.eqb c ".")
  && negb (String.eqb c "..").

(** The absolute path string of a path, as [os.getcwd()] and
    [os.path.abspath] give it.  Only a path made of names has one. *)
Definition render (p : path) : option string :=
  if forallb is_name p
  then Some match p with
            | [] => "/"
            | _ :: _ => fold_right (fun c rest => "/" ++ c ++ rest) "" p
            end
  else None.

End FS.

(** ** Outcomes, calls and the world outside the script *)

Inductive exn : Type :=
| CalledProcessError (returncode : Z) (output : string)
| OSError (what : string)
| URLError (url : string)
| ReadError (file : string)
| BadZipFile (file : string)
| NotImplementedError (message : string)
| UnicodeDecodeError (data : string)
| UnicodeEncodeError (text : string).

(** How a piece of the script ends: normally, with an exception that
    nothing caught, with [exit(code)], or still looping when the fuel of
    the model ran out. *)
Inductive outcome (A : Type) : Type :=
| Ok (a : A)
| Raised (e : exn)
| Exited (code : Z)
| Diverged.

Arguments Ok {A} a.
Arguments Raised {A} e.
Arguments Exited {A} code.
Arguments Diverged {A}.

(** The calls the script makes, in the order it makes them. *)
Inductive event : Type :=
| Print (line : string)
| Usage (message : string)
| Exec (argv : list string)
| Urlretrieve (url : string)
| ExtractAll (file : string)
| Rmtree (p : string)
| Rename (src dst : string)
| Chdir (p : string)
| Chmod (p : string)
| ReadFile (p : string)
| WriteFile (p : string) (text : string)
| MakeArchive (base_name format root_dir base_dir : string)
| Remove (p : string)
| Sleep (seconds : nat).

(** A downloaded file: the name [urlretrieve] gives it (a temporary file,
    kept outside the modelled tree) and, when it is an archive that can be
    unpacked, its members; when it is not, what opening or unpacking it
    raises ([tarfile.ReadError], [zipfile.BadZipFile], or
    [NotImplementedError] for a compression method that is not
    supported). *)
Record download : Type := {
  local_name : string;
  members : option (list (FS.path * FS.node));
  refusal : exn
}.

(** Everything the script does not control.  A started process is
    identified by the number of processes started before it and by its
    argument vector; it answers with an exit status and its captured
    output, and may change the file system. *)
Record World : Type := {
  platform : string;
  spawn : nat -> list string -> option (Z * string);
  effect : nat -> FS.path -> list string -> FS.node -> FS.node;
  fetch : string -> option download
}.

Record state : Type := {
  fs : FS.node;
  cwd : FS.path;
  tick : nat
}.

Definition M (A : Type) : Type := state -> outcome A * state * list event.

Definition ret {A} (a : A) : M A := fun s => (Ok a, s, []).

Definition bind {A B} (m : M A) (f : A -> M B) : M B :=
  fun s =>
    match m s with
    | (Ok a, s1, t1) =>
        match f a s1 with
        | (r, s2, t2) => (r, s2, (t1 ++ t2)%list)
        end
    | (Raised e, s1, t1) => (Raised e, s1, t1)
    | (Exited c, s1, t1) => (Exited c, s1, t1)
    | (Diverged, s1, t1) => (Diverged, s1, t1)
    end.

Notation "x <- m ;; k" := (bind m (fun x => k))
  (at level 61, m at next level, right associativity).
Notation "m ;; k" := (bind m (fun _ => k))
  (at level 61, right associativity).

Definition raise {A} (e : exn) : M A := fun s => (Raised e, s, []).

Definition exit {A} (code : Z) : M A := fun s => (Exited code, s, []).

Definition emit (e : event) : M unit := fun s => (Ok tt, s, [e]).

(** [if c: body] with no [else]. *)
Definition when (c : bool) (body : M unit) : M unit :=
  if c then body else ret tt.

(** [try: body / except CalledProcessError as e: handler]. *)
Definition try_except_called {A} (body : M A) (handler : Z -> string -> M A)
  : M A :=
  fun s =>
    match body s with
    | (Raised (CalledProcessError rc out), s1, t1) =>
        match handler rc out s1 with
        | (r, s2, t2) => (r, s2, (t1 ++ t2)%list)
        end
    | other => other
    end.

Definition result {A} (x : outcome A * state * list event) : outcome A :=
  fst (fst x).
Definition final {A} (x : outcome A * state * list event) : state :=
  snd (fst x).
Definition events {A} (x : outcome A * state * list event) : list event :=
  snd x.

Definition diverge {A} : M A := fun s => (Diverged, s, []).

(** The line break and the double quote, as strings. *)
Definition nl : string := String (ascii_of_nat 10) EmptyString.

Definition dq : string := String PyStr.dquote EmptyString.

Fixpoint last_char (a : string) : option ascii :=
  match a with
  | EmptyString => None
  | String c EmptyString => Some c
  | String _ rest => last_char rest
  end.

(** [os.path.join(a, b)] *)
Definition path_join (a b : string) : string :=
  if PyStr.startswith "/" b then b
  else match last_char a with
       | None => b
       | Some c => if Ascii.eqb c FS.slash then a ++ b else a ++ "/" ++ b
       end.

(** ** The library and system calls of the script *)

Section Calls.

Variable W : World.

Definition set_fs (s : state) (t : FS.node) : state :=
  {| fs := t; cwd := cwd s; tick := tick s |}.

Definition print (line : string) : M unit := emit (Print line).

Definition sleep (seconds : nat) : M unit := emit (Sleep seconds).

Definition sys_platform : M string := ret (platform W).

(** Starting a process and waiting for it.  A program that cannot be
    started raises [OSError]; one that is started is taken to end. *)
Definition run_process (argv : list string) : M (Z * string) :=
  fun s =>
    match spawn W (tick s) argv with
    | None => (Raised (OSError (hd "" argv)), s, [Exec argv])
    | Some r =>
        (Ok r,
         {| fs := effect W (tick s) (cwd s) argv (fs s);
            cwd := cwd s;
            tick := S (tick s) |},
         [Exec argv])
    end.

(** [subprocess.call] *)
Definition call (argv : list string) : M Z :=
  r <- run_process argv ;; ret (fst r).

(** [subprocess.check_call] *)
Definition check_call (argv : list string) : M unit :=
  r <- run_process argv ;;
  if Z.eqb (fst r) 0 then ret tt
  else raise (CalledProcessError (fst r) EmptyString).

(** [subprocess.check_output] *)
Definition check_output (argv : list string) : M string :=
  r <- run_process argv ;;
  if Z.eqb (fst r) 0 then ret (snd r)
  else raise (CalledProcessError (fst r) (snd r)).

(** [urlretrieve(url)] *)
Definition urlretrieve (url : string) : M download :=
  fun s =>
    match fetch W url with
    | Some d => (Ok d, s, [Urlretrieve url])
    | None => (Raised (URLError url), s, [Urlretrieve url])
    end.

(** [tarfile.open(f).extractall()] and [ZipFile(f).extractall()]: the
    members are unpacked into the current directory. *)
Definition extractall (d : download) : M unit :=
  fun s =>
    match members d with
    | None => (Raised (refusal d), s, [ExtractAll (local_name d)])
    | Some ms =>
        match FS.unpack_all (fs s) (cwd s) ms with
        | Some t => (Ok tt, set_fs s t, [ExtractAll (local_name d)])
        | None => (Raised (OSError (local_name d)), s, [ExtractAll (local_name d)])
        end
    end.

(** [shutil.rmtree(p, ignore_errors)] *)
Definition rmtree (p : string) (ignore_errors : bool) : M unit :=
  fun s =>
    let q := FS.resolve (cwd s) p in
    let removed :=
      if FS.is_dir (FS.lookup (fs s) q) then FS.modify (fs s) q None
      else None in
    match removed with
    | Some t => (Ok tt, set_fs s t, [Rmtree p])
    | None =>
        if ignore_errors then (Ok tt, s, [Rmtree p])
        else (Raised (OSError p), s, [Rmtree p])
    end.

(** [os.rename(src, dst)] *)
Definition rename (src dst : string) : M unit :=
  fun s =>
    match FS.rename (fs s) (FS.resolve (cwd s) src) (FS.resolve (cwd s) dst) with
    | Some t => (Ok tt, set_fs s t, [Rename src dst])
    | None => (Raised (OSError src), s, [Rename src dst])
    end.

(** [os.chdir(p)] *)
Definition chdir (p : string) : M unit :=
  fun s =>
    let q := FS.resolve (cwd s) p in
    if FS.is_dir (FS.lookup (fs s) q)
    then (Ok tt, {| fs := fs s; cwd := q; tick := tick s |}, [Chdir p])
    else (Raised (OSError p), s, [Chdir p]).

(** [os.path.isfile(p)] *)
Definition isfile (p : string) : M bool :=
  fun s => (Ok (FS.is_file (FS.lookup (fs s) (FS.resolve (cwd s) p))), s, []).

(** [data.decode()] *)
Definition decode (data : string) : M string :=
  if PyStr.utf8_valid data then ret data
  else raise (UnicodeDecodeError data).

(** [open(p).read()]: the file is read as text, in the UTF-8 locale. *)
Definition read_file (p : string) : M string :=
  fun s =>
    match FS.lookup (fs s) (FS.resolve (cwd s) p) with
    | Some (FS.File data) =>
        match PyStr.read_text data with
        | Some text => (Ok text, s, [ReadFile p])
        | None => (Raised (UnicodeDecodeError data), s, [ReadFile p])
        end
    | _ => (Raised (OSError p), s, [ReadFile p])
    end.

(** [with open(p, "w") as f: f.write(text)]: opening creates the file or
    empties the one that is there; the text is then encoded and written.
    A text that cannot be encoded raises after the file has been emptied. *)
Definition write_file (p text : string) : M unit :=
  fun s =>
    let q := FS.resolve (cwd s) p in
    let opened :=
      if FS.is_dir (FS.lookup (fs s) q) then None
      else FS.modify (fs s) q (Some (FS.File EmptyString)) in
    match opened with
    | None => (Raised (OSError p), s, [WriteFile p text])
    | Some t0 =>
        if PyStr.utf8_valid text then
          match FS.modify t0 q (Some (FS.File text)) with
          | Some t => (Ok tt, set_fs s t, [WriteFile p text])
          | None => (Raised (OSError p), set_fs s t0, [WriteFile p text])
          end
        else (Raised (UnicodeEncodeError text), set_fs s t0, [WriteFile p text])
    end.

(** [os.chmod(p, mode)]; permission bits are not part of the model. *)
Definition chmod (p : string) : M unit :=
  fun s =>
    match FS.lookup (fs s) (FS.resolve (cwd s) p) with
    | Some _ => (Ok tt, s, [Chmod p])
    | None => (Raised (OSError p), s, [Chmod p])
    end.

(** [shutil.make_archive(base_name, "gztar", root_dir, base_dir)] with a
    [root_dir]: the file [base_name.tar.gz] is created in the current
    directory, holding the tree at [base_dir] under [root_dir], and its
    absolute path, [os.path.abspath(base_name) + ".tar.gz"], is returned.
    The absolute path is made from [os.getcwd()], which fails in a working
    directory that has no path. *)
Definition make_archive (base_name format root_dir base_dir : string)
  : M string :=
  fun s =>
    let log := [MakeArchive base_name format root_dir base_dir] in
    let name := base_name ++ ".tar.gz" in
    let root := FS.resolve (cwd s) root_dir in
    if negb (String.eqb format "gztar") then (Raised (OSError format), s, log)
    else
      match FS.render (FS.resolve (cwd s) name) with
      | None => (Raised (OSError "."), s, log)
      | Some full =>
          match FS.lookup (fs s) (FS.resolve root base_dir) with
          | None => (Raised (OSError base_dir), s, log)
          | Some tree =>
              let made :=
                if FS.is_dir (FS.lookup (fs s) (FS.resolve (cwd s) name))
                then None
                else FS.modify (fs s) (FS.resolve (cwd s) name)
                       (Some (FS.Archive (FS.resolve [] base_dir) tree)) in
              match made with
              | Some t => (Ok full, set_fs s t, log)
              | None => (Raised (OSError name), s, log)
              end
          end
      end.

(** [os.remove(p)] *)
Definition remove (p : string) : M unit :=
  fun s =>
    let q := FS.resolve (cwd s) p in
    let removed :=
      if FS.is_file (FS.lookup (fs s) q) then FS.modify (fs s) q None
      else None in
    match removed with
    | Some t => (Ok tt, set_fs s t, [Remove p])
    | None => (Raised (OSError p), s, [Remove p])
    end.

End Calls.

(** ** The script *)

(** The command line as typed, when it has the shape the parser expects:
    the positional provider and the options, each absent ([None]) or given
    with a value.  A line with [--help], an unknown option or an option
    without its value ends inside [argparse] and is not represented. *)
Record cli : Type := {
  cli_csp : string;
  cli_dry_run : bool;
  cli_region : option string;
  cli_availability_zone : option string;
  cli_profile : option string;
  cli_terraform_repo : option string;
  cli_terraform_branch : option string;
  cli_ansible_repo : option string;
  cli_ansible_branch : option string
}.

(** The namespace [parser.parse_args()] returns. *)
Record args : Type := {
  csp : string;
  dry_run : bool;
  region : option string;
  availability_zone : option string;
  profile : option string;
  terraform_repo : string;
  terraform_branch : string;
  ansible_repo : option string;
  ansible_branch : option string
}.

Definition choices : list string := ["aws"].

Definition default (d : string) (o : option string) : string :=
  match o with Some v => v | None => d end.

(** Lines 23-33.  Of [argparse] the model keeps the defaults and the check
    of the positional argument against its [choices]: a value outside them
    prints the usage message and exits with status 2. *)
Definition parse_args (c : cli) : M args :=
  if existsb (String.eqb (cli_csp c)) choices
  then ret {| csp := cli_csp c;
              dry_run := cli_dry_run c;
              region := cli_region c;
              availability_zone := cli_availability_zone c;
              profile := cli_profile c;
              terraform_repo :=
                default "clusterinthecloud/terraform" (cli_terraform_repo c);
              terraform_branch := default "master" (cli_terraform_branch c);
              ansible_repo := cli_ansible_repo c;
              ansible_branch := cli_ansible_branch c |}
  else emit (Usage ("argument csp: invalid choice: " ++ cli_csp c)) ;; exit 2.

Section Script.

Variable W : World.

(** Lines 39-43: the argument vector of the credential probe. *)
Definition check_command (a : args) : list string :=
  let c := ["aws"; "--dry-run"; "ec2"; "describe-images"] in
  let c := if PyStr.truthy (profile a)
           then (c ++ ["--profile"; PyStr.value (profile a)])%list else c in
  let c := if PyStr.truthy (region a)
           then (c ++ ["--region"; PyStr.value (region a)])%list else c in
  c.

(** Lines 37-50.  The handler decodes the captured output each time it
    uses it. *)
Definition preflight (a : args) : M unit :=
  when (negb (dry_run a))
    (try_except_called
       (check_output W (check_command a) ;; ret tt)
       (fun _ output =>
          text <- decode output ;;
          when (PyStr.contains "RequestExpired" text)
            (print "AWS credentials have expired:") ;;
          text <- decode output ;;
          when (negb (PyStr.contains "DryRunOperation" text))
            (text <- decode output ;; print text ;; exit 1))).

(** Lines 52-58. *)
Definition fetch_infra (a : args) : M unit :=
  print "Downloading CitC Terraform configuration" ;;
  tf_repo_tar <- urlretrieve W
    ("https://github.com/" ++ terraform_repo a ++ "/archive/"
       ++ terraform_branch a ++ ".tar.gz") ;;
  extractall tf_repo_tar ;;
  rmtree "citc-terraform" true ;;
  rename ("terraform-" ++ terraform_branch a) "citc-terraform" ;;
  chdir "citc-terraform".

(** Lines 119-126. *)
Definition tf_platform : M string :=
  p <- sys_platform W ;;
  if PyStr.startswith "linux" p then ret "linux_amd64"
  else if String.eqb p "darwin" then ret "darwin_amd64"
  else if String.eqb p "win32"
  then raise (NotImplementedError "Windows is not supported at the moment")
  else raise (NotImplementedError ("Platform " ++ p ++ " is not supported")).

(** Lines 128-129. *)
Definition tf_url (version p : string) : string :=
  "https://releases.hashicorp.com/terraform/" ++ version ++ "/terraform_"
    ++ version ++ "_" ++ p ++ ".zip".

(** Lines 116-134. *)
Definition download_terraform (version : string) : M string :=
  p <- tf_platform ;;
  print "Downloading Terraform binary" ;;
  tf_zip <- urlretrieve W (tf_url version p) ;;
  extractall tf_zip ;;
  chmod "terraform" ;;
  ret "./terraform".

Definition keygen_command : list string :=
  ["ssh-keygen"; "-t"; "ed25519"; "-f"; "citc-key"; "-N"; ""].

(** Lines 63-64. *)
Definition ensure_key : M unit :=
  present <- isfile "citc-key" ;;
  when (negb present) (check_call W keygen_command).

Definition tf (terraform : string) (a : args) (rest : list string)
  : list string :=
  terraform :: ("-chdir=" ++ csp a) :: rest.

(** Lines 67-68. *)
Definition init_validate (terraform : string) (a : args) : M unit :=
  check_call W (tf terraform a ["init"]) ;;
  check_call W (tf terraform a ["validate"]).

Definition assignment (name v : string) : string :=
  nl ++ name ++ " = " ++ dq ++ v ++ dq.

(** Lines 155-166. *)
Definition aws_config_file (config : string) (a : args) : M string :=
  let config := PyStr.replace "~/.ssh/aws-key" "citc-key" config in
  pub_key <- read_file "citc-key.pub" ;;
  let pub_key_text := PyStr.strip pub_key in
  let config :=
    PyStr.replace "admin_public_keys = <<EOF"
      ("admin_public_keys = <<EOF" ++ nl ++ pub_key_text) config in
  let config := if PyStr.truthy (region a)
                then config ++ assignment "region" (PyStr.value (region a))
                else config in
  let config := if PyStr.truthy (availability_zone a)
                then config ++ assignment "availability_zone"
                                 (PyStr.value (availability_zone a))
                else config in
  let config := if PyStr.truthy (profile a)
                then config ++ assignment "profile" (PyStr.value (profile a))
                else config in
  ret config.

(** Lines 137-152. *)
Definition config_file (provider : string) (a : args) : M unit :=
  config <- read_file (path_join provider "terraform.tfvars") ;;
  config <- (if String.eqb provider "aws" then aws_config_file config a
             else raise (NotImplementedError
                           "Other providers are not supported yet")) ;;
  let config := if PyStr.truthy (ansible_repo a)
                then config ++ assignment "ansible_repo"
                                 (PyStr.value (ansible_repo a))
                else config in
  let config := if PyStr.truthy (ansible_branch a)
                then config ++ assignment "ansible_branch"
                                 (PyStr.value (ansible_branch a))
                else config in
  write_file (path_join provider "terraform.tfvars") config.

Definition output_command (terraform : string) (a : args) (name : string)
  : list string :=
  tf terraform a
    ["output"; "-no-color"; "-raw"; "-state=terraform.tfstate"; name].

(** [check_output(...).decode().strip().strip(q)] of lines 78 and 79. *)
Definition read_output (terraform : string) (a : args) (name : string)
  : M string :=
  out <- check_output W (output_command terraform a name) ;;
  text <- decode out ;;
  ret (PyStr.strip_quote (PyStr.strip text)).

(** Lines 74-83: the address and the identifier of the cluster. *)
Definition create_cluster (terraform : string) (a : args)
  : M (string * string) :=
  if negb (dry_run a) then
    check_call W (tf terraform a ["apply"; "-auto-approve"]) ;;
    ip <- read_output terraform a "ManagementPublicIP" ;;
    cluster_id <- read_output terraform a "cluster_id" ;;
    ret (ip, cluster_id)
  else
    print "... pretending to create the cluster ..." ;;
    ret ("1.1.1.1", "test-cluster").

Definition scp_command (key_path tf_zip ip : string) : list string :=
  ["scp"; "-i"; key_path; "-o"; "StrictHostKeyChecking no";
   "-o"; "IdentitiesOnly=yes"; tf_zip; "citc@" ++ ip ++ ":."].

(** Lines 95-97: the [while] loop, unrolled at most [fuel] times. *)
Fixpoint upload (fuel : nat) (key_path tf_zip ip : string) : M unit :=
  match fuel with
  | O => diverge
  | S k =>
      rc <- call W (scp_command key_path tf_zip ip) ;;
      if negb (Z.eqb rc 0) then
        print "Trying to upload Terraform state..." ;;
        sleep 10 ;;
        upload k key_path tf_zip ip
      else ret tt
  end.

(** Lines 93-100. *)
Definition transfer (fuel : nat) (a : args) (new_dir_name key_path ip : string)
  : M unit :=
  tf_zip <- make_archive "citc-terraform" "gztar" "." new_dir_name ;;
  (if negb (dry_run a) then upload fuel key_path tf_zip ip
   else print ("... pretending to upload the config " ++ tf_zip
                 ++ " to the cluster ...")) ;;
  remove tf_zip.

(** Lines 86-92: the working directory gets its final name and loses the
    provider's [.terraform] directory.  The new name and the key path are
    what the rest of the run needs. *)
Definition stage (a : args) (cluster_id : string) : M (string * string) :=
  chdir ".." ;;
  let new_dir_name := "citc-terraform-" ++ cluster_id in
  rename "citc-terraform" new_dir_name ;;
  let key_path := new_dir_name ++ "/citc-key" in
  rmtree (path_join (path_join new_dir_name (csp a)) ".terraform") false ;;
  ret (new_dir_name, key_path).

(** Lines 86-100. *)
Definition handoff (fuel : nat) (a : args) (ip cluster_id : string)
  : M string :=
  names <- stage a cluster_id ;;
  transfer fuel a (fst names) (snd names) ip ;;
  ret (snd names).

(** Lines 102-113. *)
Definition summary (a : args) (key_path ip : string) : M unit :=
  print "" ;;
  print (PyStr.times "#" 80) ;;
  print "" ;;
  print ("The file '" ++ key_path
           ++ "' will allow you to log into the new cluster") ;;
  print "Make sure you save this key as it is needed to destroy the cluster later." ;;
  print "" ;;
  print ("The IP address of the cluster is " ++ ip) ;;
  print "Connect with:" ;;
  print ("  ssh -i " ++ key_path ++ " citc@" ++ ip) ;;
  print "" ;;
  print "You can destroy the cluster with:" ;;
  print ("  python destroy-citc.py " ++ csp a ++ " " ++ ip ++ " " ++ key_path).

(** Lines 22-113. *)
Definition main (fuel : nat) (c : cli) : M unit :=
  a <- parse_args c ;;
  print "Installing Cluster in the Cloud on AWS" ;;
  preflight a ;;
  fetch_infra a ;;
  terraform <- download_terraform "1.0.3" ;;
  ensure_key ;;
  init_validate terraform a ;;
  config_file (csp a) a ;;
  outputs <- create_cluster terraform a ;;
  key_path <- handoff fuel a (fst outputs) (snd outputs) ;;
  summary a key_path (fst outputs).

End Script.

(** ** A concrete world to run the script in

    The tools behave as documented: [ssh-keygen] writes the key pair,
    [terraform init] creates the provider's [.terraform] directory, the
    probe answers with the dry-run marker, GitHub serves an archive whose
    single top directory is [top], and [scp] fails [failures] times before
    it succeeds (in a full run seven processes are started before the
    first [scp], so its attempts are the processes 7, 8, ...). *)

Module Demo.

(** The string of the given bytes. *)
Definition bytes (l : list nat) : string :=
  fold_right (fun n rest => String (ascii_of_nat n) rest) EmptyString l.

Definition tfvars : string :=
  "admin_public_keys = <<EOF" ++ nl ++ "EOF" ++ nl
    ++ "private_key_path = " ++ dq ++ "~/.ssh/aws-key" ++ dq.

Definition repo_archive (top : string) : download :=
  {| local_name := "/tmp/repo.tar.gz";
     members := Some [ ([top], FS.Dir []);
                       ([top; "aws"], FS.Dir []);
                       ([top; "aws"; "terraform.tfvars"], FS.File tfvars) ];
     refusal := ReadError "/tmp/repo.tar.gz" |}.

Definition tool_archive : download :=
  {| local_name := "/tmp/terraform.zip";
     members := Some [ (["terraform"], FS.File "ELF") ];
     refusal := BadZipFile "/tmp/terraform.zip" |}.

Definition add (ms : list (FS.path * FS.node)) (base : FS.path) (t : FS.node)
  : FS.node :=
  match FS.unpack_all t base ms with Some t' => t' | None => t end.

Definition probe_answer : string :=
  "An error occurred (DryRunOperation) when calling the DescribeImages operation".

Definition mentions (word : string) (argv : list string) : bool :=
  existsb (String.eqb word) argv.

Definition world (os top ip_out id_out : string) (failures : nat) : World :=
  {| platform := os;
     spawn := fun t argv =>
       match argv with
       | "aws" :: _ =>
           Some (255%Z, probe_answer)
       | "scp" :: _ => Some (if (t <? 7 + failures)%nat then 1%Z else 0%Z, "")
       | _ =>
           if mentions "ManagementPublicIP" argv then Some (0%Z, ip_out)
           else if mentions "cluster_id" argv then Some (0%Z, id_out)
           else Some (0%Z, "")
       end;
     effect := fun _ dir argv t =>
       match argv with
       | "ssh-keygen" :: _ =>
           add [ (["citc-key"], FS.File "PRIVATE");
                 (["citc-key.pub"], FS.File ("ssh-ed25519 AAAA" ++ nl)) ] dir t
       | _ =>
           if mentions "init" argv
           then add [ (["aws"; ".terraform"], FS.Dir []);
                      (["aws"; ".terraform"; "providers"], FS.File "x") ] dir t
           else t
       end;
     fetch := fun url =>
       if PyStr.startswith "https://github.com/" url
       then Some (repo_archive top) else Some tool_archive |}.

Definition start (t : FS.node) : state := {| fs := t; cwd := []; tick := 0 |}.

Definition request (provider : string) (dry : bool) : cli :=
  {| cli_csp := provider;
     cli_dry_run := dry;
     cli_region := None;
     cli_availability_zone := None;
     cli_profile := None;
     cli_terraform_repo := None;
     cli_terraform_branch := None;
     cli_ansible_repo := None;
     cli_ansible_branch := None |}.

Definition arguments (dry : bool) : args :=
  {| csp := "aws";
     dry_run := dry;
     region := None;
     availability_zone := None;
     profile := None;
     terraform_repo := "clusterinthecloud/terraform";
     terraform_branch := "master";
     ansible_repo := None;
     ansible_branch := None |}.

Definition located (r z p : option string) (a : args) : args :=
  {| csp := csp a;
     dry_run := dry_run a;
     region := r;
     availability_zone := z;
     profile := p;
     terraform_repo := terraform_repo a;
     terraform_branch := terraform_branch a;
     ansible_repo := ansible_repo a;
     ansible_branch := ansible_branch a |}.

Definition request_for (repo : string) (dry : bool) : cli :=
  {| cli_csp := "aws";
     cli_dry_run := dry;
     cli_region := None;
     cli_availability_zone := None;
     cli_profile := None;
     cli_terraform_repo := Some repo;
     cli_terraform_branch := None;
     cli_ansible_repo := None;
     cli_ansible_branch := None |}.

(** The same arguments for another repository. *)
Definition from_repo (repo : string) (a : args) : args :=
  {| csp := csp a;
     dry_run := dry_run a;
     region := region a;
     availability_zone := availability_zone a;
     profile := profile a;
     terraform_repo := repo;
     terraform_branch := terraform_branch a;
     ansible_repo := ansible_repo a;
     ansible_branch := ansible_branch a |}.

(** The directory [/home], empty. *)
Definition home : state :=
  {| fs := FS.Dir [("home", FS.Dir [])]; cwd := ["home"]; tick := 0 |}.

(** A working directory that holds the public key. *)
Definition with_key : state :=
  start (FS.Dir [("citc-key.pub", FS.File ("ssh-ed25519 AAAA" ++ nl))]).

End Demo.

(** ** Reading the log *)

Definition urls (t : list event) : list string :=
  flat_map (fun e => match e with Urlretrieve u => [u] | _ => [] end) t.

Definition commands (t : list event) : list (list string) :=
  flat_map (fun e => match e with Exec argv => [argv] | _ => [] end) t.

(** The archive name the fetcher uses for a host platform. *)
Definition supported_archive (os : string) : option string :=
  if PyStr.startswith "linux" os then Some "linux_amd64"
  else if String.eqb os "darwin" then Some "darwin_amd64"
  else None.

(** The notice printed when the probe reports expired credentials. *)
Definition expired_notice : event := Print "AWS credentials have expired:".

(** ** Config Renderer: what the rendered text is made of *)

Definition newline : ascii := ascii_of_nat 10.

(** The lines of a text. *)
Definition lines (text : string) : list string := PyStr.split newline text.

(** The template after the two replacements of [aws_config_file]. *)
Definition substituted (config pub_key : string) : string :=
  PyStr.replace "admin_public_keys = <<EOF"
    ("admin_public_keys = <<EOF" ++ nl ++ PyStr.strip pub_key)
    (PyStr.replace "~/.ssh/aws-key" "citc-key" config).

(** What an optional variable adds: nothing when the option is absent or
    empty, one assignment line otherwise. *)
Definition optional_assignment (name : string) (o : option string) : string :=
  match o with
  | Some (String c v) => nl ++ name ++ " = " ++ dq ++ String c v ++ dq
  | _ => EmptyString
  end.


(** ** Key pair *)

Definition key_present (s : state) : bool :=
  FS.is_file (FS.lookup (fs s) (FS.resolve (cwd s) "citc-key")).

(** What [ssh-keygen] promises, at the state it is started in: when it
    exits with status 0 the private key file exists. *)
Definition keygen_writes_key (W : World) (s : state) : Prop :=
  forall out,
    spawn W (tick s) keygen_command = Some (0%Z, out) ->
    FS.is_file
      (FS.lookup (effect W (tick s) (cwd s) keygen_command (fs s))
         (FS.resolve (cwd s) "citc-key")) = true.

(** ** State Handoff: the retry loop *)

(** The state after a started process has run. *)
Definition ran (W : World) (argv : list string) (s : state) : state :=
  {| fs := effect W (tick s) (cwd s) argv (fs s);
     cwd := cwd s;
     tick := S (tick s) |}.

(** The state after [k] runs of the same command. *)
Fixpoint attempted (W : World) (argv : list string) (k : nat) (s : state)
  : state :=
  match k with
  | O => s
  | S k' => attempted W argv k' (ran W argv s)
  end.

(** One failed attempt, as the log shows it. *)
Definition retry_cycle (argv : list string) : list event :=
  [Exec argv; Print "Trying to upload Terraform state..."; Sleep 10].

Fixpoint cycles (n : nat) (argv : list string) : list event :=
  match n with
  | O => []
  | S k => (retry_cycle argv ++ cycles k argv)%list
  end.

(** The process started as number [t] runs [argv] and exits non-zero. *)
Definition fails_at (W : World) (t : nat) (argv : list string) : Prop :=
  exists rc out, spawn W t argv = Some (rc, out) /\ rc <> 0%Z.

(** The process started as number [t] runs [argv] and exits zero. *)
Definition succeeds_at (W : World) (t : nat) (argv : list string) : Prop :=
  exists out, spawn W t argv = Some (0%Z, out).

Definition archive_call (dir : string) : event :=
  MakeArchive "citc-terraform" "gztar" "." dir.

(** ** State Handoff: the archive *)

(** A name that is one path component: no slash in it. *)
Definition plain (name : string) : bool := free_of FS.slash name.

(** The name the working directory gets (line 87). *)
Definition new_dir (cluster_id : string) : string :=
  "citc-terraform-" ++ cluster_id.

(** The handoff up to and including the archive call (lines 86-93). *)
Definition stage_and_archive (a : args) (cluster_id : string) : M string :=
  names <- stage a cluster_id ;;
  make_archive "citc-terraform" "gztar" "." (fst names).

(** ** The run in two halves *)

(** Lines 23-83: everything up to the outputs of the cluster. *)
Definition provision (W : World) (c : cli) : M (args * (string * string)) :=
  a <- parse_args c ;;
  print "Installing Cluster in the Cloud on AWS" ;;
  preflight W a ;;
  fetch_infra W a ;;
  terraform <- download_terraform W "1.0.3" ;;
  ensure_key W ;;
  init_validate W terraform a ;;
  config_file (csp a) a ;;
  outputs <- create_cluster W terraform a ;;
  ret (a, outputs).

(** Lines 85-113: the handoff and the summary. *)
Definition finish (W : World) (fuel : nat) (x : args * (string * string))
  : M unit :=
  key_path <- handoff W fuel (fst x) (fst (snd x)) (snd (snd x)) ;;
  summary (fst x) key_path (fst (snd x)).

(** Every call a program logs satisfies [P], however the program ends. *)
Definition emits_only {A} (P : event -> Prop) (m : M A) : Prop :=
  forall s, Forall P (events (m s)).

(** Every call a program logs satisfies [P], and when it ends normally
    its value satisfies [Q]. *)
Definition hoare {A} (P : event -> Prop) (m : M A) (Q : A -> Prop) : Prop :=
  forall s, Forall P (events (m s))
            /\ forall a, result (m s) = Ok a -> Q a.

(** The calls that belong to State Handoff. *)
Definition handoff_call (e : event) : bool :=
  match e with
  | MakeArchive _ _ _ _ => true
  | Remove _ => true
  | Exec ("scp" :: _) => true
  | _ => false
  end.

(** ** Dry run *)

Fixpoint same_command (a b : list string) : bool :=
  match a, b with
  | [], [] => true
  | x :: a', y :: b' => String.eqb x y && same_command a' b'
  | _, _ => false
  end.

(** The processes a dry run may start. *)
Definition dry_run_commands : list (list string) :=
  [ keygen_command;
    ["./terraform"; "-chdir=aws"; "init"];
    ["./terraform"; "-chdir=aws"; "validate"] ].

Definition dry_call (e : event) : bool :=
  match e with
  | Exec argv => existsb (same_command argv) dry_run_commands
  | _ => true
  end.

(** The lines of the summary (lines 102-113). *)
Definition summary_lines (provider key_path ip : string) : list event :=
  [ Print "";
    Print (PyStr.times "#" 80);
    Print "";
    Print ("The file '" ++ key_path
             ++ "' will allow you to log into the new cluster");
    Print "Make sure you save this key as it is needed to destroy the cluster later.";
    Print "";
    Print ("The IP address of the cluster is " ++ ip);
    Print "Connect with:";
    Print ("  ssh -i " ++ key_path ++ " citc@" ++ ip);
    Print "";
    Print "You can destroy the cluster with:";
    Print ("  python destroy-citc.py " ++ provider ++ " " ++ ip ++ " " ++ key_path) ].

(** A program that always ends, normally or with an error. *)
Definition terminates {A} (m : M A) : Prop :=
  forall s, result (m s) <> Diverged.

(** ** Fetching the infrastructure repository *)

(** The name component of an [owner/name] repository. *)
Definition repo_name (repo : string) : string :=
  last (PyStr.split FS.slash repo) EmptyString.

(** The directory GitHub puts at the top of the archive of a branch whose
    name has no slash. *)
Definition github_top (a : args) : string :=
  repo_name (terraform_repo a) ++ "-" ++ terraform_branch a.

(** Every member of the archive lies under the directory [top]. *)
Definition under_top (top : string) (ms : list (FS.path * FS.node)) : bool :=
  forallb (fun m => match fst m with
                    | k :: _ => String.eqb k top
                    | [] => false
                    end) ms.

Definition archive_url (a : args) : string :=
  "https://github.com/" ++ terraform_repo a ++ "/archive/"
    ++ terraform_branch a ++ ".tar.gz".

(** The directory name line 57 expects. *)
Definition expected_dir (a : args) : string :=
  "terraform-" ++ terraform_branch a.

(** ** Config Renderer: the file as a whole *)


(** ** The order of the provisioning steps *)

Definition init_argv : list string := ["./terraform"; "-chdir=aws"; "init"].

Definition validate_argv : list string :=
  ["./terraform"; "-chdir=aws"; "validate"].

Definition apply_argv : list string :=
  ["./terraform"; "-chdir=aws"; "apply"; "-auto-approve"].

(** Lines 23-71: everything before the cluster is created. *)
Definition before_apply (W : World) (c : cli) : M (args * string) :=
  a <- parse_args c ;;
  print "Installing Cluster in the Cloud on AWS" ;;
  preflight W a ;;
  fetch_infra W a ;;
  terraform <- download_terraform W "1.0.3" ;;
  ensure_key W ;;
  init_validate W terraform a ;;
  config_file (csp a) a ;;
  ret (a, terraform).

(** Lines 73-113: creating the cluster, the handoff and the summary. *)
Definition after_validate (W : World) (fuel : nat) (x : args * string)
  : M unit :=
  outputs <- create_cluster W (snd x) (fst x) ;;
  key_path <- handoff W fuel (fst x) (fst outputs) (snd outputs) ;;
  summary (fst x) key_path (fst outputs).

(** ** How a run can exit *)

(** A program that never ends with [exit]. *)
Definition never_exits {A} (m : M A) : Prop :=
  forall s code, result (m s) <> Exited code.

(** Lines 52-113: the run after the preflight. *)
Definition after_preflight (W : World) (fuel : nat) (a : args) : M unit :=
  fetch_infra W a ;;
  terraform <- download_terraform W "1.0.3" ;;
  ensure_key W ;;
  init_validate W terraform a ;;
  config_file (csp a) a ;;
  outputs <- create_cluster W terraform a ;;
  key_path <- handoff W fuel a (fst outputs) (snd outputs) ;;
  summary a key_path (fst outputs).

(** ** The log of a run that creates a cluster *)

Definition output_argv (name : string) : list string :=
  ["./terraform"; "-chdir=aws"; "output"; "-no-color"; "-raw";
   "-state=terraform.tfstate"; name].

(** The calls that give the working directory its final name (lines
    86-92). *)
Definition staging (cluster_id : string) : list event :=
  [ Chdir "..";
    Rename "citc-terraform" (new_dir cluster_id);
    Rmtree (path_join (path_join (new_dir cluster_id) "aws") ".terraform") ].

(** ** The working directory of the run *)

(** A program that leaves the working directory as it found it, however
    it ends. *)
Definition keeps_cwd {A} (m : M A) : Prop :=
  forall s, cwd (final (m s)) = cwd s.

(** A program that, when it ends normally, has moved the working directory
    by [g]. *)
Definition moves_cwd {A} (g : FS.path -> FS.path) (m : M A) : Prop :=
  forall s a, result (m s) = Ok a -> cwd (final (m s)) = g (cwd s).

(** ** What a run downloads *)

Definition is_download (e : event) : bool :=
  match e with Urlretrieve _ => true | _ => false end.

(** The address of the repository archive for a command line (lines 29,
    30 and 54). *)
Definition repo_url (c : cli) : string :=
  "https://github.com/"
    ++ default "clusterinthecloud/terraform" (cli_terraform_repo c)
    ++ "/archive/" ++ default "master" (cli_terraform_branch c) ++ ".tar.gz".

(** ** Running programs: the laws of the monad and of the calls *)

Ltac break_match :=
  match goal with
  | |- context [match ?x with _ => _ end] => destruct x eqn:?
  end.

Section Laws.

Context {A B : Type}.

Lemma bind_run (m : M A) (f : A -> M B) (s : state) :
  bind m f s =
    match result (m s) with
    | Ok a =>
        (result (f a (final (m s))), final (f a (final (m s))),
         (events (m s) ++ events (f a (final (m s))))%list)
    | Raised e => (Raised e, final (m s), events (m s))
    | Exited c => (Exited c, final (m s), events (m s))
    | Diverged => (Diverged, final (m s), events (m s))
    end.
Proof.
  unfold bind, result, final, events.
  destruct (m s) as [[[a|e|c|] s1] t1]; simpl; try reflexivity.
  destruct (f a s1) as [[r s2] t2]; reflexivity.
Qed.

Lemma events_bind (m : M A) (f : A -> M B) (s : state) :
  events (bind m f s) =
    (events (m s) ++
       match result (m s) with
       | Ok a => events (f a (final (m s)))
       | _ => []
       end)%list.
Proof.
  rewrite bind_run.
  destruct (result (m s)); simpl; try reflexivity;
    now rewrite app_nil_r.
Qed.

Lemma result_bind (m : M A) (f : A -> M B) (s : state) :
  result (bind m f s) =
    match result (m s) with
    | Ok a => result (f a (final (m s)))
    | Raised e => Raised e
    | Exited c => Exited c
    | Diverged => Diverged
    end.
Proof. rewrite bind_run. destruct (result (m s)); reflexivity. Qed.

Lemma final_bind (m : M A) (f : A -> M B) (s : state) :
  final (bind m f s) =
    match result (m s) with
    | Ok a => final (f a (final (m s)))
    | _ => final (m s)
    end.
Proof. rewrite bind_run. destruct (result (m s)); reflexivity. Qed.

Lemma run_eta (m : M A) s : m s = (result (m s), final (m s), events (m s)).
Proof. now destruct (m s) as [[r s1] t1]. Qed.

Lemma bind_step (m : M A) (f : A -> M B) s a s1 t1 :
  m s = (Ok a, s1, t1) ->
  bind m f s = (result (f a s1), final (f a s1), (t1 ++ events (f a s1))%list).
Proof. intros H. now rewrite bind_run, H. Qed.

Lemma bind_stop (m : M A) (f : A -> M B) s e s1 t1 :
  m s = (Raised e, s1, t1) -> bind m f s = (Raised e, s1, t1).
Proof. intros H. now rewrite bind_run, H. Qed.

End Laws.

(** What each call writes to the log does not depend on how it ends. *)
Section CallLogs.

Variable W : World.
Variable s : state.

Lemma events_emit e : events (emit e s) = [e].
Proof. reflexivity. Qed.

Lemma events_print line : events (print line s) = [Print line].
Proof. reflexivity. Qed.

Lemma result_print line : result (print line s) = Ok tt.
Proof. reflexivity. Qed.

Lemma final_print line : final (print line s) = s.
Proof. reflexivity. Qed.

Lemma result_sleep n : result (sleep n s) = Ok tt.
Proof. reflexivity. Qed.

Lemma final_sleep n : final (sleep n s) = s.
Proof. reflexivity. Qed.

Lemma events_sleep n : events (sleep n s) = [Sleep n].
Proof. reflexivity. Qed.

Lemma events_run_process argv : events (run_process W argv s) = [Exec argv].
Proof. unfold run_process. now destruct (spawn W (tick s) argv). Qed.

Lemma events_call argv : events (call W argv s) = [Exec argv].
Proof.
  unfold call. rewrite events_bind, events_run_process.
  now destruct (result (run_process W argv s)).
Qed.

Lemma events_check_call argv : events (check_call W argv s) = [Exec argv].
Proof.
  unfold check_call. rewrite events_bind, events_run_process.
  destruct (result (run_process W argv s)); try reflexivity.
  now destruct (Z.eqb (fst a) 0).
Qed.

Lemma events_check_output argv : events (check_output W argv s) = [Exec argv].
Proof.
  unfold check_output. rewrite events_bind, events_run_process.
  destruct (result (run_process W argv s)); try reflexivity.
  now destruct (Z.eqb (fst a) 0).
Qed.

Lemma events_urlretrieve url : events (urlretrieve W url s) = [Urlretrieve url].
Proof. unfold urlretrieve. now destruct (fetch W url). Qed.

Lemma events_extractall d : events (extractall d s) = [ExtractAll (local_name d)].
Proof. unfold extractall. repeat break_match; reflexivity. Qed.

Lemma events_rmtree p b : events (rmtree p b s) = [Rmtree p].
Proof. unfold rmtree. repeat break_match; reflexivity. Qed.

Lemma events_rename a b : events (rename a b s) = [Rename a b].
Proof. unfold rename. repeat break_match; reflexivity. Qed.

Lemma events_chdir p : events (chdir p s) = [Chdir p].
Proof. unfold chdir. repeat break_match; reflexivity. Qed.

Lemma events_isfile p : events (isfile p s) = [].
Proof. reflexivity. Qed.

Lemma events_read_file p : events (read_file p s) = [ReadFile p].
Proof. unfold read_file. repeat break_match; reflexivity. Qed.

Lemma events_write_file p text : events (write_file p text s) = [WriteFile p text].
Proof. unfold write_file. repeat break_match; reflexivity. Qed.

Lemma events_chmod p : events (chmod p s) = [Chmod p].
Proof. unfold chmod. repeat break_match; reflexivity. Qed.

Lemma events_make_archive b f r d :
  events (make_archive b f r d s) = [MakeArchive b f r d].
Proof. unfold make_archive. repeat break_match; reflexivity. Qed.

Lemma events_remove p : events (remove p s) = [Remove p].
Proof. unfold remove. repeat break_match; reflexivity. Qed.

Lemma events_ret {A} (a : A) : events (ret a s) = [].
Proof. reflexivity. Qed.

Lemma events_raise {A} e : events (@raise A e s) = [].
Proof. reflexivity. Qed.

Lemma events_exit {A} c : events (@exit A c s) = [].
Proof. reflexivity. Qed.

End CallLogs.

Create Rewrite HintDb log.

#[export] Hint Rewrite
  @events_bind events_emit events_print events_sleep events_run_process
  events_call events_check_call events_check_output events_urlretrieve
  events_extractall events_rmtree events_rename events_chdir events_isfile
  events_read_file events_write_file events_chmod events_make_archive
  events_remove @events_ret @events_raise @events_exit
  result_print final_print result_sleep final_sleep : log.

(** ** The string and path operations on examples *)

Example strip_output :
  PyStr.strip_quote (PyStr.strip (" " ++ dq ++ "10.0.0.7" ++ dq ++ nl))
  = "10.0.0.7".
Proof. reflexivity. Qed.

Example strip_blank_output : PyStr.strip_quote (PyStr.strip (" " ++ nl)) = "".
Proof. reflexivity. Qed.

Example strip_keeps_inner : PyStr.strip (" a b " ++ nl) = "a b".
Proof. reflexivity. Qed.

(** U+00A0, U+0085 and U+2028 are white space for [str.strip()]; U+200B,
    the zero-width space, is not. *)
Example strip_beyond_ascii :
  PyStr.strip (Demo.bytes [194; 160; 97; 226; 128; 168; 194; 133]) = "a"
  /\ PyStr.strip (Demo.bytes [227; 128; 128; 97; 32; 98; 225; 154; 128; 10])
     = "a b"
  /\ PyStr.strip (Demo.bytes [97; 226; 128; 139])
     = Demo.bytes [97; 226; 128; 139].
Proof. repeat split. Qed.

Example utf8_well_formed :
  forallb PyStr.utf8_valid
    [ ""; "plain"; Demo.bytes [195; 169]; Demo.bytes [224; 160; 128];
      Demo.bytes [237; 159; 191]; Demo.bytes [239; 191; 191];
      Demo.bytes [240; 144; 128; 128]; Demo.bytes [244; 143; 191; 191] ]
  = true.
Proof. reflexivity. Qed.

(** A stray continuation byte, a truncated character, overlong forms, a
    surrogate and a code point above U+10FFFF do not decode. *)
Example utf8_ill_formed :
  existsb PyStr.utf8_valid
    [ Demo.bytes [128]; Demo.bytes [194]; Demo.bytes [255];
      Demo.bytes [192; 128]; Demo.bytes [193; 191];
      Demo.bytes [224; 159; 191]; Demo.bytes [240; 143; 191; 191];
      Demo.bytes [237; 160; 128]; Demo.bytes [244; 144; 128; 128];
      Demo.bytes [97; 226; 128] ]
  = false.
Proof. reflexivity. Qed.

Example read_text_line_ends :
  PyStr.read_text (Demo.bytes [97; 13; 10; 98; 13; 99; 10; 13; 10; 13])
  = Some (Demo.bytes [97; 10; 98; 10; 99; 10; 10; 10])
  /\ PyStr.read_text (Demo.bytes [97; 255]) = None.
Proof. split; reflexivity. Qed.

Example contains_marker :
  PyStr.contains "DryRunOperation" Demo.probe_answer = true
  /\ PyStr.contains "RequestExpired" Demo.probe_answer = false.
Proof. split; reflexivity. Qed.

Example replace_all_occurrences : PyStr.replace "ab" "x" "abcabab" = "xcxx".
Proof. reflexivity. Qed.

Example replace_no_overlap : PyStr.replace "aa" "b" "aaa" = "ba".
Proof. reflexivity. Qed.

Example replace_key_path :
  PyStr.replace "~/.ssh/aws-key" "citc-key" "key = ~/.ssh/aws-key.pub"
  = "key = citc-key.pub".
Proof. reflexivity. Qed.

Example split_lines : lines ("a" ++ nl ++ "b" ++ nl) = ["a"; "b"; ""].
Proof. reflexivity. Qed.

Example join_three :
  path_join (path_join "citc-terraform-abc" "aws") ".terraform"
  = "citc-terraform-abc/aws/.terraform".
Proof. reflexivity. Qed.

Example resolve_examples :
  FS.resolve ["citc-terraform"] ".." = []
  /\ FS.resolve [] "aws/terraform.tfvars" = ["aws"; "terraform.tfvars"]
  /\ FS.resolve ["a"] "./b" = ["a"; "b"].
Proof. repeat split; reflexivity. Qed.

Example resolve_absolute :
  FS.resolve ["home"; "work"] "/tmp/x" = ["tmp"; "x"]
  /\ FS.resolve ["home"] "/" = [].
Proof. split; reflexivity. Qed.

Example render_examples :
  FS.render ["home"; "citc-terraform.tar.gz"] = Some "/home/citc-terraform.tar.gz"
  /\ FS.render [] = Some "/"
  /\ FS.render ["a/b"] = None.
Proof. repeat split. Qed.

Example repo_name_example : repo_name "clusterinthecloud/terraform" = "terraform".
Proof. reflexivity. Qed.

Example rename_onto_full_directory :
  FS.rename (FS.Dir [("a", FS.Dir []); ("b", FS.Dir [("x", FS.File "")])])
    ["a"] ["b"] = None.
Proof. reflexivity. Qed.

(** ** Tool Fetcher *)

Lemma tf_platform_spec W s :
  tf_platform W s =
    match supported_archive (platform W) with
    | Some p => (Ok p, s, [])
    | None =>
        (Raised (NotImplementedError
                   (if String.eqb (platform W) "win32"
                    then "Windows is not supported at the moment"
                    else "Platform " ++ platform W ++ " is not supported")),
         s, [])
    end.
Proof.
  unfold tf_platform, supported_archive, sys_platform, bind, ret, raise.
  destruct (PyStr.startswith "linux" (platform W)); [reflexivity|].
  destruct (String.eqb (platform W) "darwin"); [reflexivity|].
  destruct (String.eqb (platform W) "win32"); reflexivity.
Qed.

Lemma tf_platform_names W s p :
  result (tf_platform W s) = Ok p -> p = "linux_amd64" \/ p = "darwin_amd64".
Proof.
  rewrite tf_platform_spec. unfold supported_archive.
  destruct (PyStr.startswith "linux" (platform W)).
  - intros H; injection H; auto.
  - destruct (String.eqb (platform W) "darwin").
    + intros H; injection H; auto.
    + discriminate.
Qed.

Lemma download_terraform_by_archive W version s :
  match supported_archive (platform W) with
  | Some p =>
      urls (events (download_terraform W version s)) = [tf_url version p]
  | None =>
      events (download_terraform W version s) = []
      /\ exists msg,
          result (download_terraform W version s)
          = Raised (NotImplementedError msg)
  end.
Proof.
  unfold download_terraform.
  destruct (supported_archive (platform W)) as [p|] eqn:Hp.
  - autorewrite with log. rewrite tf_platform_spec, Hp. simpl.
    autorewrite with log.
    repeat (break_match; autorewrite with log; simpl); reflexivity.
  - rewrite events_bind, result_bind, tf_platform_spec, Hp. simpl.
    split; [reflexivity | eexists; reflexivity].
Qed.

(** C6 (amended): the Tool Fetcher maps the host platform to an archive
    name for exactly two families, the platforms whose name starts with
    [linux] and [darwin], and asks for exactly one URL, built from the
    version and that archive name; on every other platform, [win32]
    included, it raises [NotImplementedError] before any call is made, so
    nothing is downloaded. *)
Theorem download_terraform_platforms W version s :
  let r := download_terraform W version s in
  match PyStr.startswith "linux" (platform W), String.eqb (platform W) "darwin" with
  | true, _ => urls (events r) = [tf_url version "linux_amd64"]
  | false, true => urls (events r) = [tf_url version "darwin_amd64"]
  | false, false =>
      events r = []
      /\ result r
         = Raised (NotImplementedError
                     (if String.eqb (platform W) "win32"
                      then "Windows is not supported at the moment"
                      else "Platform " ++ platform W ++ " is not supported"))
  end.
Proof.
  intros r. unfold r.
  pose proof (download_terraform_by_archive W version s) as H.
  unfold supported_archive in H.
  destruct (PyStr.startswith "linux" (platform W)) eqn:Hl; [exact H|].
  destruct (String.eqb (platform W) "darwin") eqn:Hd; [exact H|].
  destruct H as [He _]. split; [exact He|].
  unfold download_terraform. rewrite result_bind, tf_platform_spec.
  unfold supported_archive. rewrite Hl, Hd. reflexivity.
Qed.

(** C6 (as stated) fails: on [win32], the third platform the code names,
    no archive name is produced and the fetcher raises; and no three
    platforms get three different archive names. *)
Lemma download_terraform_not_three_families :
  (forall s,
      download_terraform (Demo.world "win32" "terraform-master" "" "" 0) "1.0.3" s
      = (Raised (NotImplementedError "Windows is not supported at the moment"),
         s, []))
  /\ ~ (exists W1 W2 W3 s p1 p2 p3,
           result (tf_platform W1 s) = Ok p1
           /\ result (tf_platform W2 s) = Ok p2
           /\ result (tf_platform W3 s) = Ok p3
           /\ p1 <> p2 /\ p1 <> p3 /\ p2 <> p3).
Proof.
  split.
  - reflexivity.
  - intros (W1 & W2 & W3 & s & p1 & p2 & p3 & H1 & H2 & H3 & N12 & N13 & N23).
    apply tf_platform_names in H1, H2, H3.
    destruct H1, H2, H3; subst; congruence.
Qed.

(** ** Provider selection *)

Lemma parse_args_rejects c s :
  cli_csp c <> "aws" ->
  parse_args c s
  = (Exited 2, s, [Usage ("argument csp: invalid choice: " ++ cli_csp c)]).
Proof.
  intros H. unfold parse_args, choices. simpl.
  destruct (String.eqb_spec (cli_csp c) "aws") as [E|_]; [contradiction|].
  reflexivity.
Qed.

(** C9: a request whose provider is not [aws], the only supported value,
    ends at once with exit status 2: the usage message is the only thing
    the run does, so no URL is fetched (neither the repository nor the
    tool) and no process (the probe included) is started. *)
Theorem unsupported_provider_fails_first W fuel c s :
  cli_csp c <> "aws" ->
  result (main W fuel c s) = Exited 2
  /\ final (main W fuel c s) = s
  /\ events (main W fuel c s)
     = [Usage ("argument csp: invalid choice: " ++ cli_csp c)]
  /\ urls (events (main W fuel c s)) = []
  /\ commands (events (main W fuel c s)) = [].
Proof.
  intros H. unfold main. rewrite bind_run, (parse_args_rejects c s H).
  simpl. repeat split; reflexivity.
Qed.

Lemma unsupported_provider_fails_first_witness :
  let W := Demo.world "linux" "terraform-master" "1.2.3.4" "abc" 0 in
  let c := Demo.request "gcp" false in
  let s := Demo.start (FS.Dir []) in
  cli_csp c <> "aws"
  /\ result (main W 3 c s) = Exited 2
  /\ events (main W 3 c s) = [Usage "argument csp: invalid choice: gcp"].
Proof.
  intros W c s.
  assert (H : cli_csp c <> "aws") by discriminate.
  destruct (unsupported_provider_fails_first W 3 c s H) as (R & _ & E & _).
  split; [exact H | split; [exact R | exact E]].
Defined.

(** ** Credential preflight *)

Lemma check_output_fails W argv s rc out :
  spawn W (tick s) argv = Some (rc, out) ->
  rc <> 0%Z ->
  check_output W argv s
  = (Raised (CalledProcessError rc out),
     {| fs := effect W (tick s) (cwd s) argv (fs s);
        cwd := cwd s; tick := S (tick s) |},
     [Exec argv]).
Proof.
  intros H N. unfold check_output, bind, run_process. rewrite H. simpl.
  destruct (Z.eqb_spec rc 0); [contradiction | reflexivity].
Qed.

(** C4 (amended): the preflight of a run that is not a dry run, when the
    probe exits with a failure.  For an output that decodes as UTF-8: with
    the dry-run marker in it the run goes on; without it the output is
    printed and the run exits with status 1; and when it holds the
    expired-credentials marker, the notice about expired credentials is
    printed first, right after the probe, before that generic treatment.
    An output that does not decode raises [UnicodeDecodeError] in the
    handler, at its first use, and nothing is printed. *)
Theorem preflight_outcomes W a s rc out :
  dry_run a = false ->
  spawn W (tick s) (check_command a) = Some (rc, out) ->
  rc <> 0%Z ->
  let r := preflight W a s in
  let generic :=
    if PyStr.contains "DryRunOperation" out then [] else [Print out] in
  (PyStr.utf8_valid out = true ->
   (PyStr.contains "DryRunOperation" out = true -> result r = Ok tt)
   /\ (PyStr.contains "DryRunOperation" out = false ->
       result r = Exited 1
       /\ exists before, events r = (before ++ [Print out])%list)
   /\ (PyStr.contains "RequestExpired" out = true ->
       events r = Exec (check_command a) :: expired_notice :: generic)
   /\ (PyStr.contains "RequestExpired" out = false ->
       events r = Exec (check_command a) :: generic))
  /\ (PyStr.utf8_valid out = false ->
      result r = Raised (UnicodeDecodeError out)
      /\ events r = [Exec (check_command a)]).
Proof.
  intros Hdry Hspawn Hrc. unfold preflight. rewrite Hdry. cbn [negb when].
  assert (Hbody : (check_output W (check_command a) ;; ret tt) s
                  = (Raised (CalledProcessError rc out),
                     {| fs := effect W (tick s) (cwd s) (check_command a) (fs s);
                        cwd := cwd s; tick := S (tick s) |},
                     [Exec (check_command a)])).
  { rewrite bind_run, (check_output_fails W _ s rc out Hspawn Hrc).
    reflexivity. }
  unfold try_except_called. rewrite Hbody.
  unfold when, expired_notice, decode.
  destruct (PyStr.utf8_valid out).
  - split; [intros _ | discriminate].
    unfold bind, ret, print, emit, exit.
    destruct (PyStr.contains "DryRunOperation" out);
      destruct (PyStr.contains "RequestExpired" out); simpl;
      repeat split; intros; try discriminate; try reflexivity.
    + exists [Exec (check_command a); Print "AWS credentials have expired:"].
      reflexivity.
    + exists [Exec (check_command a)]. reflexivity.
  - split; [discriminate | intros _]. simpl. split; reflexivity.
Qed.

Lemma preflight_outcomes_witness :
  let W := Demo.world "linux" "terraform-master" "1.2.3.4" "abc" 0 in
  let a := Demo.arguments false in
  let s := Demo.start (FS.Dir []) in
  dry_run a = false
  /\ spawn W (tick s) (check_command a) = Some (255%Z, Demo.probe_answer)
  /\ PyStr.utf8_valid Demo.probe_answer = true
  /\ result (preflight W a s) = Ok tt
  /\ events (preflight W a s) = [Exec (check_command a)].
Proof.
  intros W a s.
  assert (N : 255%Z <> 0%Z) by discriminate.
  destruct (preflight_outcomes W a s 255%Z Demo.probe_answer
              eq_refl eq_refl N) as (Hv & _).
  destruct (Hv eq_refl) as (H1 & _ & _ & H4).
  split; [reflexivity | split; [reflexivity | split; [reflexivity | split]]].
  - apply H1. reflexivity.
  - apply H4. reflexivity.
Defined.

(** C4 (as stated) fails: a failure output without the dry-run marker that
    is not well-formed UTF-8, here the one byte 0xff, is not printed; the
    handler raises when it decodes it. *)
Lemma undecodable_probe_output :
  let out := String (ascii_of_nat 255) EmptyString in
  let W := {| platform := "linux";
              spawn := fun _ _ => Some (255%Z, out);
              effect := fun _ _ _ t => t;
              fetch := fun _ => None |} in
  let a := Demo.arguments false in
  let s := Demo.start (FS.Dir []) in
  dry_run a = false
  /\ spawn W (tick s) (check_command a) = Some (255%Z, out)
  /\ PyStr.contains "DryRunOperation" out = false
  /\ result (preflight W a s) = Raised (UnicodeDecodeError out)
  /\ events (preflight W a s) = [Exec (check_command a)]
  /\ result (preflight W a s) <> Exited 1
  /\ ~ In (Print out) (events (preflight W a s)).
Proof.
  vm_compute. repeat split; try reflexivity; try discriminate.
  intros [H|[]]. discriminate H.
Qed.

(** ** Config Renderer *)

Lemma split_nonempty sep s : PyStr.split sep s <> [].
Proof.
  destruct s as [|c r]; simpl; [discriminate|].
  destruct (Ascii.eqb c sep); [discriminate|].
  destruct (PyStr.split sep r); discriminate.
Qed.

Lemma split_app_sep sep a b :
  PyStr.split sep (a ++ String sep b)
  = (PyStr.split sep a ++ PyStr.split sep b)%list.
Proof.
  induction a as [|c a IH]; simpl.
  - now rewrite Ascii.eqb_refl.
  - destruct (Ascii.eqb c sep); [now rewrite IH|].
    rewrite IH.
    destruct (PyStr.split sep a) as [|h t] eqn:E; [|reflexivity].
    now apply split_nonempty in E.
Qed.

Lemma split_free sep s : free_of sep s = true -> PyStr.split sep s = [s].
Proof.
  induction s as [|c r IH]; simpl; [reflexivity|].
  intros H. apply andb_prop in H as [Hc Hr].
  apply negb_true_iff in Hc. rewrite Hc, (IH Hr). reflexivity.
Qed.


Lemma string_app_assoc (a b c : string) : (a ++ b) ++ c = a ++ b ++ c.
Proof. induction a as [|x a IH]; simpl; [reflexivity | now rewrite IH]. Qed.

Lemma string_app_nil_r (a : string) : a ++ "" = a.
Proof. induction a as [|x a IH]; simpl; [reflexivity | now rewrite IH]. Qed.


Lemma truthy_assignment text name o :
  (if PyStr.truthy o then text ++ assignment name (PyStr.value o) else text)
  = text ++ optional_assignment name o.
Proof.
  destruct o as [[|c v]|]; simpl; try now rewrite string_app_nil_r.
  reflexivity.
Qed.




(** ** Key pair *)

Lemma ensure_key_present W s :
  key_present s = true -> ensure_key W s = (Ok tt, s, []).
Proof.
  intros H. unfold ensure_key, bind, isfile. fold (key_present s).
  rewrite H. reflexivity.
Qed.

Lemma ensure_key_absent W s :
  key_present s = false -> ensure_key W s = check_call W keygen_command s.
Proof.
  intros H. unfold ensure_key, bind, isfile. fold (key_present s).
  rewrite H. simpl. destruct (check_call W keygen_command s) as [[[]]];
    simpl; reflexivity.
Qed.

(** C8: ensuring the key pair is idempotent, for an [ssh-keygen] that
    has written the key file when it exits zero.  When the key file is
    there the step starts no process and leaves the state as it is.  When
    it is not, the step starts [ssh-keygen], once: if [ssh-keygen] exits
    zero the step ends normally in the state [ssh-keygen] left, in which
    the key is there; if it exits non-zero or cannot be started, the step
    raises.  Running the step twice does what running it once does, to the
    result, the state and the log. *)
Theorem ensure_key_idempotent W s :
  keygen_writes_key W s ->
  (key_present s = true -> ensure_key W s = (Ok tt, s, []))
  /\ (key_present s = false ->
      (forall out,
          spawn W (tick s) keygen_command = Some (0%Z, out) ->
          ensure_key W s
          = (Ok tt, ran W keygen_command s, [Exec keygen_command])
          /\ key_present (ran W keygen_command s) = true)
      /\ (forall rc out,
             spawn W (tick s) keygen_command = Some (rc, out) ->
             rc <> 0%Z ->
             ensure_key W s
             = (Raised (CalledProcessError rc ""), ran W keygen_command s,
                [Exec keygen_command]))
      /\ (spawn W (tick s) keygen_command = None ->
          ensure_key W s
          = (Raised (OSError "ssh-keygen"), s, [Exec keygen_command])))
  /\ (ensure_key W ;; ensure_key W) s = ensure_key W s.
Proof.
  intros Hkeygen. split; [apply ensure_key_present|]. split.
  - intros H. rewrite (ensure_key_absent W s H).
    unfold check_call, bind, run_process. split; [|split].
    + intros out Hs. rewrite Hs. split; [reflexivity|].
      exact (Hkeygen out Hs).
    + intros rc out Hs Hrc. rewrite Hs. cbn [fst snd].
      destruct (Z.eqb_spec rc 0); [contradiction | reflexivity].
    + intros Hs. rewrite Hs. reflexivity.
  - destruct (key_present s) eqn:Hp.
    + unfold bind. rewrite (ensure_key_present W s Hp).
      rewrite (ensure_key_present W s Hp). reflexivity.
    + unfold bind at 1. rewrite (ensure_key_absent W s Hp).
      unfold check_call, bind, run_process.
      destruct (spawn W (tick s) keygen_command) as [[rc out]|] eqn:Hs;
        [|reflexivity].
      simpl. destruct (Z.eqb_spec rc 0) as [->|]; [|reflexivity].
      simpl. rewrite ensure_key_present; [reflexivity|].
      exact (Hkeygen out Hs).
Qed.

Lemma ensure_key_idempotent_witness :
  let W := Demo.world "linux" "terraform-master" "1.2.3.4" "abc" 0 in
  let s := Demo.start (FS.Dir []) in
  keygen_writes_key W s
  /\ key_present s = false
  /\ ensure_key W s = (Ok tt, ran W keygen_command s, [Exec keygen_command])
  /\ key_present (ran W keygen_command s) = true
  /\ (ensure_key W ;; ensure_key W) s = ensure_key W s.
Proof.
  intros W s.
  assert (H : keygen_writes_key W s) by (intros out _; vm_compute; reflexivity).
  destruct (ensure_key_idempotent W s H) as (_ & Hb & Hc).
  destruct (Hb eq_refl) as (Hrun & _).
  destruct (Hrun "" eq_refl) as (Hok & Hkey).
  split; [exact H|]. split; [reflexivity|]. split; [exact Hok|].
  split; [exact Hkey | exact Hc].
Defined.

(** ** State Handoff: the retry loop *)

Lemma call_run W argv s rc out :
  spawn W (tick s) argv = Some (rc, out) ->
  call W argv s = (Ok rc, ran W argv s, [Exec argv]).
Proof.
  intros H. unfold call, bind, run_process. rewrite H. reflexivity.
Qed.

Lemma upload_step_ok W kp zip ip fuel s out :
  spawn W (tick s) (scp_command kp zip ip) = Some (0%Z, out) ->
  upload W (S fuel) kp zip ip s
  = (Ok tt, ran W (scp_command kp zip ip) s, [Exec (scp_command kp zip ip)]).
Proof.
  intros H. cbn [upload]. rewrite bind_run, (call_run W _ s 0%Z out H).
  reflexivity.
Qed.

Lemma upload_step_fail W kp zip ip fuel s rc out :
  spawn W (tick s) (scp_command kp zip ip) = Some (rc, out) ->
  rc <> 0%Z ->
  upload W (S fuel) kp zip ip s
  = (result (upload W fuel kp zip ip (ran W (scp_command kp zip ip) s)),
     final (upload W fuel kp zip ip (ran W (scp_command kp zip ip) s)),
     (retry_cycle (scp_command kp zip ip)
        ++ events (upload W fuel kp zip ip (ran W (scp_command kp zip ip) s)))%list).
Proof.
  intros H N. cbn [upload]. rewrite bind_run, (call_run W _ s rc out H).
  cbn [result final events fst snd].
  destruct (Z.eqb_spec rc 0) as [|_]; [contradiction|]. cbn [negb].
  rewrite !bind_run. cbn [result final events fst snd print sleep emit].
  destruct (upload W fuel kp zip ip (ran W (scp_command kp zip ip) s))
    as [[[] s2] t2]; reflexivity.
Qed.

Lemma upload_succeeds W kp zip ip n :
  forall fuel s,
    (forall i, i < n -> fails_at W (tick s + i) (scp_command kp zip ip)) ->
    succeeds_at W (tick s + n) (scp_command kp zip ip) ->
    n < fuel ->
    upload W fuel kp zip ip s
    = (Ok tt, attempted W (scp_command kp zip ip) (S n) s,
       (cycles n (scp_command kp zip ip) ++ [Exec (scp_command kp zip ip)])%list).
Proof.
  induction n as [|n IH]; intros fuel s Hfail Hok Hfuel;
    destruct fuel as [|fuel]; try lia.
  - destruct Hok as (out & Hok). rewrite Nat.add_0_r in Hok.
    now rewrite (upload_step_ok W kp zip ip fuel s out Hok).
  - destruct (Hfail 0) as (rc & out & Hs & Hrc); [lia|].
    rewrite Nat.add_0_r in Hs.
    rewrite (upload_step_fail W kp zip ip fuel s rc out Hs Hrc).
    rewrite (IH fuel (ran W (scp_command kp zip ip) s)).
    + cbn [result final events fst snd cycles attempted].
      now rewrite <- app_assoc.
    + intros i Hi. simpl. rewrite <- Nat.add_succ_r. apply Hfail. lia.
    + simpl. now rewrite <- Nat.add_succ_r.
    + lia.
Qed.

Lemma upload_keeps_trying W kp zip ip :
  forall fuel s,
    (forall i, i < fuel -> fails_at W (tick s + i) (scp_command kp zip ip)) ->
    upload W fuel kp zip ip s
    = (Diverged, attempted W (scp_command kp zip ip) fuel s,
       cycles fuel (scp_command kp zip ip)).
Proof.
  induction fuel as [|fuel IH]; intros s Hfail; [reflexivity|].
  destruct (Hfail 0) as (rc & out & Hs & Hrc); [lia|].
  rewrite Nat.add_0_r in Hs.
  rewrite (upload_step_fail W kp zip ip fuel s rc out Hs Hrc).
  rewrite (IH (ran W (scp_command kp zip ip) s)); [reflexivity|].
  intros i Hi. simpl. rewrite <- Nat.add_succ_r. apply Hfail. lia.
Qed.

Lemma make_archive_ok b r d s zip :
  result (make_archive b "gztar" r d s) = Ok zip ->
  FS.render (FS.resolve (cwd s) (b ++ ".tar.gz")) = Some zip
  /\ events (make_archive b "gztar" r d s) = [MakeArchive b "gztar" r d]
  /\ tick (final (make_archive b "gztar" r d s)) = tick s
  /\ cwd (final (make_archive b "gztar" r d s)) = cwd s.
Proof.
  rewrite events_make_archive. unfold make_archive. simpl.
  repeat (break_match; simpl); try discriminate.
  all: intros H; injection H as <-; repeat split; reflexivity || assumption.
Qed.

Lemma in_cycles e n argv :
  In e (cycles n argv) ->
  e = Exec argv \/ e = Print "Trying to upload Terraform state..." \/ e = Sleep 10.
Proof.
  induction n as [|n IH]; simpl; [contradiction|].
  intros [<-|[<-|[<-|H]]]; auto.
Qed.

Lemma remove_result p s :
  result (remove p s) = Ok tt \/ result (remove p s) = Raised (OSError p).
Proof. unfold remove. repeat break_match; cbn; auto. Qed.

(** Every way the loop can go: it ends after an attempt that exits zero,
    it is still trying when the fuel is spent, or [scp] could not be
    started at all.  An exit status never ends it with an error. *)
Lemma upload_shape W kp zip ip : forall fuel s,
  (exists k,
      succeeds_at W (tick s + k) (scp_command kp zip ip)
      /\ upload W fuel kp zip ip s
         = (Ok tt, attempted W (scp_command kp zip ip) (S k) s,
            (cycles k (scp_command kp zip ip)
               ++ [Exec (scp_command kp zip ip)])%list))
  \/ (result (upload W fuel kp zip ip s) = Diverged
      /\ events (upload W fuel kp zip ip s) = cycles fuel (scp_command kp zip ip))
  \/ (exists k,
         result (upload W fuel kp zip ip s) = Raised (OSError "scp")
         /\ events (upload W fuel kp zip ip s)
            = (cycles k (scp_command kp zip ip)
                 ++ [Exec (scp_command kp zip ip)])%list).
Proof.
  induction fuel as [|fuel IH]; intros s.
  - right. left. split; reflexivity.
  - destruct (spawn W (tick s) (scp_command kp zip ip)) as [[rc out]|] eqn:Hs.
    + destruct (Z.eqb_spec rc 0) as [->|Hrc].
      * left. exists 0. split.
        -- exists out. now rewrite Nat.add_0_r.
        -- apply (upload_step_ok W kp zip ip fuel s out Hs).
      * rewrite (upload_step_fail W kp zip ip fuel s rc out Hs Hrc).
        cbn [result final events fst snd].
        destruct (IH (ran W (scp_command kp zip ip) s))
          as [(k & Hok & Hrun) | [(Hdiv & Hev) | (k & Hres & Hev)]].
        -- left. exists (S k). split.
           ++ cbn [ran tick] in Hok. now rewrite Nat.add_succ_r.
           ++ rewrite Hrun. cbn [result final events fst snd cycles attempted].
              now rewrite <- app_assoc.
        -- right. left. rewrite Hdiv, Hev. split; reflexivity.
        -- right. right. exists (S k). rewrite Hres, Hev.
           cbn [cycles]. now rewrite <- app_assoc.
    + right. right. exists 0. cbn [upload].
      rewrite result_bind, events_bind, events_call.
      unfold call, run_process. rewrite result_bind. cbn [result fst].
      rewrite Hs. split; reflexivity.
Qed.

(** C2: State Handoff once the archive call has succeeded.  The archive
    is built by the one call that opens the log.  In a run that is not a
    dry run, every copy attempt that exits non-zero is followed by the
    notice, a sleep of 10 seconds and the same command again, and nothing
    is archived again; as long as the attempts fail the run is still in
    the loop, it has not failed, and the archive has not been removed;
    the archive is removed right after the attempt that exits zero, and
    in no other case; no exit status of the copy command ends the run
    with an error.  In a dry run the archive is removed after the notice
    of the pretended upload. *)
Theorem transfer_retries W a dir kp ip s zip fuel n :
  result (make_archive "citc-terraform" "gztar" "." dir s) = Ok zip ->
  let s1 := final (make_archive "citc-terraform" "gztar" "." dir s) in
  let scp := scp_command kp zip ip in
  let r := transfer W fuel a dir kp ip s in
  (dry_run a = false ->
   (forall i, i < n -> fails_at W (tick s + i) scp) ->
   succeeds_at W (tick s + n) scp ->
   n < fuel ->
   events r = (archive_call dir :: cycles n scp ++ [Exec scp; Remove zip])%list
   /\ result r = result (remove zip (attempted W scp (S n) s1)))
  /\ (dry_run a = false ->
      (forall i, i < fuel -> fails_at W (tick s + i) scp) ->
      result r = Diverged
      /\ events r = archive_call dir :: cycles fuel scp)
  /\ (dry_run a = true ->
      events r
      = [archive_call dir;
         Print ("... pretending to upload the config " ++ zip
                  ++ " to the cluster ...");
         Remove zip])
  /\ (dry_run a = false ->
      (forall rc out, result r <> Raised (CalledProcessError rc out))
      /\ (forall code, result r <> Exited code)
      /\ (In (Remove zip) (events r) ->
          exists k,
            succeeds_at W (tick s + k) scp
            /\ events r
               = (archive_call dir :: cycles k scp ++ [Exec scp; Remove zip])%list)).
Proof.
  intros Hzip s1 scp r.
  destruct (make_archive_ok _ _ _ _ _ Hzip) as (Hname & Hev & Htick & _).
  fold s1 in Htick.
  unfold r, transfer. rewrite bind_run, Hzip, Hev. fold s1.
  cbn [result events fst snd].
  split; [|split; [|split]]; intros Hdry; rewrite Hdry; cbn [negb].
  - intros Hfail Hok Hfuel. rewrite bind_run.
    rewrite (upload_succeeds W kp zip ip n fuel s1)
      by (rewrite ?Htick; assumption).
    cbn [result final events fst snd].
    rewrite events_remove, <- app_assoc. split; reflexivity.
  - intros Hfail. rewrite bind_run.
    rewrite (upload_keeps_trying W kp zip ip fuel s1)
      by (rewrite ?Htick; assumption).
    split; reflexivity.
  - rewrite bind_run. cbn [print emit result final events fst snd].
    now rewrite events_remove.
  - rewrite result_bind, events_bind.
    destruct (upload_shape W kp zip ip fuel s1)
      as [(k & Hok & Hrun) | [(Hdiv & Hcyc) | (k & Hres & Hcyc)]].
    + rewrite Hrun. cbn [result final events fst snd].
      rewrite events_remove, <- app_assoc.
      destruct (remove_result zip (attempted W (scp_command kp zip ip) (S k) s1))
        as [-> | ->].
      * split; [discriminate|]. split; [discriminate|].
        intros _. exists k. rewrite <- Htick. split; [exact Hok | reflexivity].
      * split; [discriminate|]. split; [discriminate|].
        intros _. exists k. rewrite <- Htick. split; [exact Hok | reflexivity].
    + rewrite Hdiv, Hcyc, app_nil_r.
      split; [discriminate|]. split; [discriminate|].
      cbn [app In]. intros [H|H]; [discriminate H|].
      apply in_cycles in H as [H|[H|H]]; discriminate H.
    + rewrite Hres, Hcyc, app_nil_r.
      split; [discriminate|]. split; [discriminate|].
      cbn [app In]. intros [H|H]; [discriminate H|].
      apply in_app_or in H as [H|[H|[]]]; [|discriminate H].
      apply in_cycles in H as [H|[H|H]]; discriminate H.
Qed.

Lemma transfer_retries_witness :
  let W := Demo.world "linux" "terraform-master" "1.2.3.4" "abc" 2 in
  let s := {| fs := FS.Dir [("home", FS.Dir [("citc-terraform-abc", FS.Dir [])])];
              cwd := ["home"]; tick := 7 |} in
  let a := Demo.arguments false in
  let kp := "citc-terraform-abc/citc-key" in
  let zip := "/home/citc-terraform.tar.gz" in
  let scp := scp_command kp zip "1.2.3.4" in
  result (make_archive "citc-terraform" "gztar" "." "citc-terraform-abc" s)
  = Ok zip
  /\ fails_at W 7 scp /\ fails_at W 8 scp /\ succeeds_at W 9 scp
  /\ events (transfer W 5 a "citc-terraform-abc" kp "1.2.3.4" s)
     = (archive_call "citc-terraform-abc" :: cycles 2 scp
          ++ [Exec scp; Remove zip])%list
  /\ result (transfer W 5 a "citc-terraform-abc" kp "1.2.3.4" s) = Ok tt.
Proof.
  intros W s a kp zip scp.
  assert (Hzip : result (make_archive "citc-terraform" "gztar" "."
                           "citc-terraform-abc" s) = Ok zip)
    by (vm_compute; reflexivity).
  assert (F7 : fails_at W 7 scp)
    by (exists 1%Z, ""; split; [reflexivity | discriminate]).
  assert (F8 : fails_at W 8 scp)
    by (exists 1%Z, ""; split; [reflexivity | discriminate]).
  assert (S9 : succeeds_at W 9 scp) by (exists ""; reflexivity).
  destruct (transfer_retries W a "citc-terraform-abc" kp "1.2.3.4" s zip 5 2 Hzip)
    as (Hgo & _ & _).
  destruct Hgo as (Hev & Hres).
  - reflexivity.
  - intros i Hi. destruct i as [|[|i]]; [exact F7 | exact F8 | lia].
  - exact S9.
  - lia.
  - split; [exact Hzip|]. split; [exact F7|]. split; [exact F8|].
    split; [exact S9|]. split; [exact Hev|].
    rewrite Hres. vm_compute. reflexivity.
Defined.

(** ** The file system: lookups after updates *)

Module FSFacts.
Import FS.

Lemma get_put_same k c es : get k (put k c es) = Some c.
Proof.
  induction es as [|[k' n'] es IH]; simpl.
  - now rewrite String.eqb_refl.
  - destruct (String.eqb k k') eqn:E; simpl; rewrite ?String.eqb_refl, ?E; auto.
Qed.

Lemma get_put_other k k' c es : k' <> k -> get k' (put k c es) = get k' es.
Proof.
  intros N. induction es as [|[k0 n0] es IH]; simpl.
  - destruct (String.eqb_spec k' k); [contradiction | reflexivity].
  - destruct (String.eqb_spec k k0) as [->|]; simpl.
    + destruct (String.eqb_spec k' k0); [contradiction | reflexivity].
    + destruct (String.eqb k' k0); [reflexivity | exact IH].
Qed.

Lemma get_del_same k es : get k (del k es) = None.
Proof.
  induction es as [|[k' n'] es IH]; simpl; [reflexivity|].
  destruct (String.eqb k k') eqn:E; simpl; rewrite ?E; auto.
Qed.

Lemma get_del_other k k' es : k' <> k -> get k' (del k es) = get k' es.
Proof.
  intros N. induction es as [|[k0 n0] es IH]; simpl; [reflexivity|].
  destruct (String.eqb_spec k k0) as [->|]; simpl.
  - destruct (String.eqb_spec k' k0); [contradiction | exact IH].
  - destruct (String.eqb k' k0); [reflexivity | exact IH].
Qed.

Lemma lookup_app n p q :
  lookup n (p ++ q)%list
  = match lookup n p with Some m => lookup m q | None => None end.
Proof.
  revert n. induction p as [|k p IH]; intros n; simpl; [reflexivity|].
  destruct n as [| |es]; try reflexivity.
  destruct (get k es); [apply IH | reflexivity].
Qed.

(** After a successful update the entry reads back. *)
Lemma lookup_modify_same p : forall n v n',
  modify n p v = Some n' -> lookup n' p = v.
Proof.
  induction p as [|k p IH]; intros n v n' H; simpl in H; [discriminate|].
  destruct n as [| |es]; try discriminate.
  destruct p as [|k2 p].
  - injection H as <-. simpl. destruct v as [c|].
    + now rewrite get_put_same.
    + now rewrite get_del_same.
  - destruct (get k es) as [c|] eqn:G; [|discriminate].
    destruct (modify c (k2 :: p) v) as [c'|] eqn:Hm; [|discriminate].
    injection H as <-.
    change (lookup (Dir (put k c' es)) (k :: k2 :: p))
      with (match get k (put k c' es) with
            | Some c0 => lookup c0 (k2 :: p)
            | None => None
            end).
    rewrite get_put_same. exact (IH c v c' Hm).
Qed.

(** An entry named differently at the top is not touched. *)
Lemma lookup_modify_sibling n k p v n' k' q :
  modify n (k :: p) v = Some n' -> k' <> k ->
  lookup n' (k' :: q) = lookup n (k' :: q).
Proof.
  intros H N. simpl in H. destruct n as [| |es]; try discriminate.
  destruct p as [|k2 p].
  - injection H as <-. simpl. destruct v as [c|].
    + now rewrite get_put_other.
    + now rewrite get_del_other.
  - destruct (get k es) as [c|]; [|discriminate].
    destruct (modify c (k2 :: p) v) as [c'|]; [|discriminate].
    injection H as <-. simpl. now rewrite get_put_other.
Qed.

(** An update below [p] is an update of the subtree at [p]. *)
Lemma modify_under p : forall n q v m,
  p <> [] -> q <> [] ->
  lookup n p = Some m ->
  modify n (p ++ q)%list v
  = match modify m q v with
    | Some m' => modify n p (Some m')
    | None => None
    end.
Proof.
  induction p as [|k p IH]; intros n q v m Hp Hq Hl; [contradiction|].
  destruct q as [|k3 q]; [contradiction|].
  simpl in Hl. destruct n as [| |es]; try discriminate.
  destruct (get k es) as [c|] eqn:G; [|discriminate].
  destruct p as [|k2 p].
  - simpl in Hl. injection Hl as ->.
    change (([k] ++ k3 :: q)%list) with (k :: k3 :: q).
    cbn [modify]. rewrite G.
    destruct (modify m (k3 :: q) v); reflexivity.
  - change (((k :: k2 :: p) ++ k3 :: q)%list)
      with (k :: ((k2 :: p) ++ k3 :: q)%list).
    assert (E : modify (Dir es) (k :: ((k2 :: p) ++ k3 :: q)%list) v
                = match modify c ((k2 :: p) ++ k3 :: q)%list v with
                  | Some c' => Some (Dir (put k c' es))
                  | None => None
                  end).
    { simpl. rewrite G. reflexivity. }
    rewrite E. rewrite (IH c (k3 :: q) v m) by (assumption || discriminate).
    destruct (modify m (k3 :: q) v) as [m'|]; [|reflexivity].
    simpl. rewrite G. reflexivity.
Qed.

End FSFacts.

(** ** Paths *)

Lemma relative_after a b :
  a <> "" ->
  PyStr.startswith "/" (a ++ String FS.slash b) = PyStr.startswith "/" a.
Proof.
  intros N. destruct a as [|c a]; [contradiction|].
  assert (E : forall x, prefix "" x = true) by (intros [|y x]; reflexivity).
  unfold PyStr.startswith. cbn [append prefix].
  destruct (ascii_dec "/" c); [now rewrite !E | reflexivity].
Qed.

Lemma plain_relative name :
  plain name = true -> PyStr.startswith "/" name = false.
Proof.
  destruct name as [|c r]; [reflexivity|].
  unfold plain, PyStr.startswith. cbn [free_of prefix].
  destruct (ascii_dec "/" c) as [<-|]; [discriminate | reflexivity].
Qed.

(** A relative path after a non-empty one goes on from where that one
    leads. *)
Lemma resolve_slash cwd a b :
  a <> "" ->
  PyStr.startswith "/" b = false ->
  FS.resolve cwd (a ++ String FS.slash b) = FS.resolve (FS.resolve cwd a) b.
Proof.
  intros Ha Hb. unfold FS.resolve.
  rewrite split_app_sep, fold_left_app, Hb, (relative_after a b Ha).
  reflexivity.
Qed.

Lemma resolve_plain cwd name :
  plain name = true ->
  String.eqb name "" = false ->
  String.eqb name "." = false ->
  String.eqb name ".." = false ->
  FS.resolve cwd name = (cwd ++ [name])%list.
Proof.
  intros Hp H0 H1 H2. unfold FS.resolve.
  rewrite (plain_relative name Hp), (split_free _ _ Hp). simpl. unfold FS.enter.
  now rewrite H0, H1, H2.
Qed.

(** The absolute path string of a path leads back to it, from anywhere. *)
Lemma enter_name d c : FS.is_name c = true -> FS.enter d c = (d ++ [c])%list.
Proof.
  unfold FS.is_name, FS.enter. intros H.
  apply andb_prop in H as [H H2]. apply andb_prop in H as [H H1].
  apply andb_prop in H as [_ H0].
  apply negb_true_iff in H0, H1, H2. now rewrite H0, H1, H2.
Qed.

Lemma fold_enter_names p : forall d,
  forallb FS.is_name p = true -> fold_left FS.enter p d = (d ++ p)%list.
Proof.
  induction p as [|c p IH]; intros d H; cbn [fold_left].
  - now rewrite app_nil_r.
  - cbn [forallb] in H. apply andb_prop in H as [Hc Hp].
    rewrite (enter_name d c Hc), (IH _ Hp), <- app_assoc. reflexivity.
Qed.

Lemma is_name_plain c : FS.is_name c = true -> free_of FS.slash c = true.
Proof.
  unfold FS.is_name. intros H.
  apply andb_prop in H as [H _]. apply andb_prop in H as [H _].
  now apply andb_prop in H as [H _].
Qed.

Lemma split_rendered p : forall c,
  forallb FS.is_name p = true ->
  free_of FS.slash c = true ->
  PyStr.split FS.slash (c ++ fold_right (fun k rest => "/" ++ k ++ rest) "" p)
  = c :: p.
Proof.
  induction p as [|k p IH]; intros c Hp Hc; cbn [fold_right].
  - rewrite string_app_nil_r. now apply split_free.
  - cbn [forallb] in Hp. apply andb_prop in Hp as [Hk Hp].
    change ("/" ++ k ++ fold_right (fun k rest => "/" ++ k ++ rest) "" p)
      with (String FS.slash
              (k ++ fold_right (fun k rest => "/" ++ k ++ rest) "" p)).
    rewrite split_app_sep, (split_free _ _ Hc).
    now rewrite (IH k Hp (is_name_plain k Hk)).
Qed.

Lemma split_leading sep x :
  PyStr.split sep (String sep x) = EmptyString :: PyStr.split sep x.
Proof. cbn [PyStr.split]. now rewrite Ascii.eqb_refl. Qed.

Lemma resolve_render p text d : FS.render p = Some text -> FS.resolve d text = p.
Proof.
  unfold FS.render. destruct (forallb FS.is_name p) eqn:Hp; [|discriminate].
  intros H. injection H as <-. destruct p as [|k p]; [reflexivity|].
  pose proof Hp as Hkp.
  cbn [forallb] in Hp. apply andb_prop in Hp as [Hk Hp].
  pose proof (split_rendered p k Hp (is_name_plain k Hk)) as Hs.
  cbn [fold_right].
  match goal with
  | |- FS.resolve d (String _ ?x) = _ =>
      set (rest := x) in *;
      change (PyStr.split FS.slash rest = k :: p) in Hs
  end.
  unfold FS.resolve.
  change (PyStr.split FS.slash (String "/" rest))
    with (PyStr.split FS.slash (String FS.slash rest)).
  rewrite split_leading, Hs.
  assert (E : PyStr.startswith "/" (String "/" rest) = true)
    by (unfold PyStr.startswith; cbn [prefix]; destruct rest; reflexivity).
  rewrite E. change (fold_left FS.enter (k :: p) [] = k :: p).
  now rewrite (fold_enter_names (k :: p) [] Hkp).
Qed.

Lemma resolve_up cwd name : FS.resolve (cwd ++ [name])%list ".." = cwd.
Proof. unfold FS.resolve. simpl. unfold FS.enter. simpl. apply removelast_last. Qed.

Lemma resolve_here cwd : FS.resolve cwd "." = cwd.
Proof. reflexivity. Qed.

Lemma last_char_app a c b : last_char (a ++ String c b) = last_char (String c b).
Proof.
  induction a as [|x a IH]; [reflexivity|].
  change ((String x a ++ String c b)) with (String x (a ++ String c b)).
  cbn [last_char]. rewrite IH.
  destruct a; reflexivity.
Qed.

Lemma last_char_free c s : free_of c s = true -> last_char s <> Some c.
Proof.
  induction s as [|x s IH]; simpl; [discriminate|].
  intros H. apply andb_prop in H as [Hx Hs].
  destruct s as [|y s].
  - intros E. injection E as ->. now rewrite Ascii.eqb_refl in Hx.
  - exact (IH Hs).
Qed.

Lemma last_char_nonempty c s : last_char (String c s) <> None.
Proof.
  revert c. induction s as [|y s IH]; intros c; [discriminate|].
  change (last_char (String c (String y s))) with (last_char (String y s)).
  apply IH.
Qed.

Lemma path_join_sep a b c :
  last_char a = Some c ->
  Ascii.eqb c FS.slash = false ->
  PyStr.startswith "/" b = false ->
  path_join a b = a ++ "/" ++ b.
Proof.
  intros Hl Hc Hb. unfold path_join. now rewrite Hb, Hl, Hc.
Qed.

(** The path strings of the handoff, for a cluster identifier that is a
    plain name. *)
Lemma new_dir_resolves up id :
  plain id = true ->
  FS.resolve up (new_dir id) = (up ++ [new_dir id])%list.
Proof.
  intros H. apply resolve_plain; try reflexivity. exact H.
Qed.

Lemma cache_dir_resolves up id :
  plain id = true ->
  FS.resolve up (path_join (path_join (new_dir id) "aws") ".terraform")
  = ((up ++ [new_dir id]) ++ ["aws"; ".terraform"])%list.
Proof.
  intros H.
  assert (J1 : path_join (new_dir id) "aws"
               = new_dir id ++ String FS.slash "aws").
  { destruct (last_char (new_dir id)) as [c|] eqn:L.
    - apply (path_join_sep _ _ c L); [|reflexivity].
      destruct (Ascii.eqb_spec c FS.slash) as [->|]; [|reflexivity].
      exfalso. revert L. apply last_char_free. exact H.
    - exfalso. revert L. apply last_char_nonempty. }
  rewrite J1.
  assert (J2 : path_join (new_dir id ++ String FS.slash "aws") ".terraform"
               = (new_dir id ++ String FS.slash "aws")
                   ++ String FS.slash ".terraform").
  { apply (path_join_sep _ _ "s"%char); try reflexivity.
    rewrite last_char_app. reflexivity. }
  rewrite J2.
  rewrite !resolve_slash by (reflexivity || discriminate).
  rewrite (new_dir_resolves up id H).
  change (FS.resolve (FS.resolve (up ++ [new_dir id])%list "aws") ".terraform")
    with (((up ++ [new_dir id]) ++ ["aws"]) ++ [".terraform"])%list.
  now rewrite <- (app_assoc (up ++ [new_dir id])%list ["aws"] [".terraform"]).
Qed.

(** ** What a successful call leaves behind *)

Lemma bind_ok {A B} (m : M A) (f : A -> M B) s b :
  result (bind m f s) = Ok b ->
  exists a, result (m s) = Ok a
            /\ result (f a (final (m s))) = Ok b
            /\ final (bind m f s) = final (f a (final (m s))).
Proof.
  rewrite result_bind, final_bind.
  destruct (result (m s)) as [a| | |]; try discriminate.
  intros H. exists a. auto.
Qed.

Lemma chdir_ok p s :
  result (chdir p s) = Ok tt ->
  final (chdir p s)
  = {| fs := fs s; cwd := FS.resolve (cwd s) p; tick := tick s |}.
Proof.
  unfold chdir. destruct (FS.is_dir _); [reflexivity | discriminate].
Qed.

Lemma rename_ok src dst s :
  result (rename src dst s) = Ok tt ->
  exists t,
    FS.rename (fs s) (FS.resolve (cwd s) src) (FS.resolve (cwd s) dst) = Some t
    /\ final (rename src dst s) = set_fs s t.
Proof.
  unfold rename. destruct (FS.rename _ _ _) as [t|]; [|discriminate].
  intros _. exists t. auto.
Qed.

Lemma rmtree_ok p s :
  result (rmtree p false s) = Ok tt ->
  exists t,
    FS.is_dir (FS.lookup (fs s) (FS.resolve (cwd s) p)) = true
    /\ FS.modify (fs s) (FS.resolve (cwd s) p) None = Some t
    /\ final (rmtree p false s) = set_fs s t.
Proof.
  unfold rmtree. destruct (FS.is_dir _); [|discriminate].
  destruct (FS.modify _ _ _) as [t|]; [|discriminate].
  intros _. exists t. auto.
Qed.

Lemma make_archive_node b r d s zip :
  result (make_archive b "gztar" r d s) = Ok zip ->
  exists tree t,
    FS.lookup (fs s) (FS.resolve (FS.resolve (cwd s) r) d) = Some tree
    /\ FS.modify (fs s) (FS.resolve (cwd s) (b ++ ".tar.gz"))
         (Some (FS.Archive (FS.resolve [] d) tree)) = Some t
    /\ final (make_archive b "gztar" r d s) = set_fs s t.
Proof.
  unfold make_archive.
  change (String.eqb "gztar" "gztar") with true. cbn [negb].
  destruct (FS.render _) as [full|]; [|discriminate].
  destruct (FS.lookup _ _) as [tree|]; [|discriminate].
  destruct (FS.is_dir _); [discriminate|].
  destruct (FS.modify _ _ _) as [t|] eqn:Hm; [|discriminate].
  intros _. exists tree, t. auto.
Qed.

Lemma rename_moves root src dst n t :
  FS.lookup root src = Some n ->
  FS.rename root src dst = Some t ->
  FS.lookup t dst = Some n.
Proof.
  intros Hn. unfold FS.rename. rewrite Hn.
  match goal with |- context [if ?c then _ else _] => destruct c end;
    [|discriminate].
  destruct (FS.modify root src None) as [r1|]; [|discriminate].
  apply FSFacts.lookup_modify_same.
Qed.

(** ** State Handoff: the archive *)

Lemma stage_ok a id s up work names :
  csp a = "aws" ->
  plain id = true ->
  cwd s = (up ++ ["citc-terraform"])%list ->
  FS.lookup (fs s) (cwd s) = Some work ->
  result (stage a id s) = Ok names ->
  names = (new_dir id, new_dir id ++ "/citc-key")
  /\ exists stripped t,
      FS.modify work ["aws"; ".terraform"] None = Some stripped
      /\ final (stage a id s) = {| fs := t; cwd := up; tick := tick s |}
      /\ FS.lookup t (up ++ [new_dir id])%list = Some stripped.
Proof.
  intros Hcsp Hid Hcwd Hwork Hres.
  unfold stage in *. rewrite Hcsp in *. fold (new_dir id) in *.
  apply bind_ok in Hres as ([] & Hcd & Hres & Hf). rewrite Hf. clear Hf.
  rewrite (chdir_ok _ _ Hcd) in *. clear Hcd.
  rewrite Hcwd, resolve_up in *.
  apply bind_ok in Hres as ([] & Hmv & Hres & Hf). rewrite Hf. clear Hf.
  apply rename_ok in Hmv as (t1 & Hmv & Hs2). rewrite Hs2 in *. clear Hs2.
  cbn [fs cwd] in Hmv.
  rewrite (new_dir_resolves up id Hid) in Hmv.
  change (FS.resolve up "citc-terraform")
    with (up ++ ["citc-terraform"])%list in Hmv.
  pose proof (rename_moves _ _ _ _ _ Hwork Hmv) as Hmoved.
  apply bind_ok in Hres as ([] & Hrm & Hres & Hf). rewrite Hf. clear Hf.
  apply rmtree_ok in Hrm as (t2 & _ & Hrm & Hs3). rewrite Hs3 in *. clear Hs3.
  cbn [fs cwd set_fs] in Hrm.
  rewrite (cache_dir_resolves up id Hid) in Hrm.
  rewrite (FSFacts.modify_under _ _ _ _ work) in Hrm;
    [| destruct up; discriminate | discriminate | exact Hmoved].
  destruct (FS.modify work ["aws"; ".terraform"] None) as [stripped|];
    [|discriminate].
  injection Hres as <-. split; [reflexivity|].
  exists stripped, t2. split; [reflexivity|]. split; [reflexivity|].
  exact (FSFacts.lookup_modify_same _ _ _ _ Hrm).
Qed.

(** C3 (amended): when the handoff, for a cluster identifier that holds
    no slash, gets as far as the archive, the archive file is named after
    the fixed base alone, [citc-terraform.tar.gz], whatever the identifier
    is; it lies in the directory above the working directory and is
    passed on by its absolute path.  The identifier is in the name of the
    one directory the archive holds, [citc-terraform-] followed by the
    identifier; and that directory is the working tree as it was when the
    handoff began, with the provider's [.terraform] directory removed. *)
Theorem handoff_archive a id s up work zip :
  csp a = "aws" ->
  plain id = true ->
  cwd s = (up ++ ["citc-terraform"])%list ->
  FS.lookup (fs s) (cwd s) = Some work ->
  result (stage_and_archive a id s) = Ok zip ->
  FS.render (up ++ ["citc-terraform.tar.gz"])%list = Some zip
  /\ exists stripped,
      FS.modify work ["aws"; ".terraform"] None = Some stripped
      /\ FS.lookup stripped ["aws"; ".terraform"] = None
      /\ FS.lookup (fs (final (stage_and_archive a id s)))
           (up ++ ["citc-terraform.tar.gz"])%list
         = Some (FS.Archive [new_dir id] stripped).
Proof.
  intros Hcsp Hid Hcwd Hwork Hres.
  unfold stage_and_archive in *.
  apply bind_ok in Hres as (names & Hstage & Hmk & Hfin). rewrite Hfin.
  destruct (stage_ok a id s up work names Hcsp Hid Hcwd Hwork Hstage)
    as (-> & stripped & t & Hstrip & Hs3 & Hnew).
  rewrite Hs3 in *. cbn [fst] in *.
  destruct (make_archive_ok _ _ _ _ _ Hmk) as (Hzip & _).
  apply make_archive_node in Hmk as (tree & t3 & Htree & Hmade & Hs4).
  rewrite Hs4. cbn [fs cwd set_fs] in Htree, Hmade, Hzip |- *.
  rewrite resolve_here, (new_dir_resolves up id Hid), Hnew in Htree.
  injection Htree as <-.
  change (FS.resolve up ("citc-terraform" ++ ".tar.gz"))
    with (up ++ ["citc-terraform.tar.gz"])%list in Hmade, Hzip.
  rewrite (new_dir_resolves [] id Hid) in Hmade.
  split; [exact Hzip|]. exists stripped. split; [exact Hstrip|]. split.
  - exact (FSFacts.lookup_modify_same _ _ _ _ Hstrip).
  - exact (FSFacts.lookup_modify_same _ _ _ _ Hmade).
Qed.

Lemma handoff_archive_witness :
  let work :=
    FS.Dir [("aws", FS.Dir [(".terraform", FS.Dir [("providers", FS.File "x")]);
                            ("terraform.tfvars", FS.File "region")]);
            ("citc-key", FS.File "PRIVATE")] in
  let s := {| fs := FS.Dir [("home", FS.Dir [("citc-terraform", work)])];
              cwd := ["home"; "citc-terraform"]; tick := 4 |} in
  let a := Demo.arguments true in
  csp a = "aws"
  /\ plain "abc" = true
  /\ FS.lookup (fs s) (cwd s) = Some work
  /\ result (stage_and_archive a "abc" s) = Ok "/home/citc-terraform.tar.gz"
  /\ FS.lookup (fs (final (stage_and_archive a "abc" s)))
       ["home"; "citc-terraform.tar.gz"]
     = Some (FS.Archive ["citc-terraform-abc"]
               (FS.Dir [("aws", FS.Dir [("terraform.tfvars", FS.File "region")]);
                        ("citc-key", FS.File "PRIVATE")])).
Proof.
  intros work s a.
  assert (Hres : result (stage_and_archive a "abc" s)
                 = Ok "/home/citc-terraform.tar.gz")
    by (vm_compute; reflexivity).
  destruct (handoff_archive a "abc" s ["home"] work "/home/citc-terraform.tar.gz"
              eq_refl eq_refl eq_refl eq_refl Hres)
    as (_ & stripped & Hstrip & _ & Hfile).
  split; [reflexivity|]. split; [reflexivity|]. split; [reflexivity|].
  split; [exact Hres|].
  vm_compute in Hstrip. injection Hstrip as <-. exact Hfile.
Defined.

(** C3 (as stated) fails: in a run for the cluster [abc], started in
    [/home], the file handed to [scp] is [/home/citc-terraform.tar.gz]; the
    identifier is not part of the archive's name. *)
Lemma archive_name_without_cluster_id :
  let s := {| fs := FS.Dir [("home", FS.Dir [])]; cwd := ["home"]; tick := 0 |} in
  let t := events (main (Demo.world "linux" "terraform-master" "1.2.3.4" "abc" 0)
                     3 (Demo.request "aws" false) s) in
  last (commands t) []
  = scp_command "citc-terraform-abc/citc-key" "/home/citc-terraform.tar.gz"
      "1.2.3.4"
  /\ nth 7 (last (commands t) []) "" = "/home/citc-terraform.tar.gz"
  /\ PyStr.contains "abc" (nth 7 (last (commands t) []) "") = false.
Proof.
  vm_compute. repeat split; reflexivity.
Qed.

(** ** The run in two halves *)

Lemma bind_assoc {A B C} (m : M A) (f : A -> M B) (g : B -> M C) s :
  bind (bind m f) g s = bind m (fun a => bind (f a) g) s.
Proof.
  unfold bind. destruct (m s) as [[[a| | |] s1] t1]; try reflexivity.
  destruct (f a s1) as [[[b| | |] s2] t2]; try reflexivity.
  destruct (g b s2) as [[r s3] t3]. now rewrite app_assoc.
Qed.

Lemma bind_ext {A B} (m : M A) (f g : A -> M B) s :
  (forall a s', f a s' = g a s') -> bind m f s = bind m g s.
Proof.
  intros H. unfold bind. destruct (m s) as [[[a| | |] s1] t1]; try reflexivity.
  now rewrite H.
Qed.

Lemma bind_ret_l {A B} (a : A) (f : A -> M B) s : bind (ret a) f s = f a s.
Proof. unfold bind, ret. now destruct (f a s) as [[r s1] t1]. Qed.

Lemma main_split W fuel c s :
  main W fuel c s = bind (provision W c) (finish W fuel) s.
Proof.
  unfold main, provision.
  repeat (rewrite bind_assoc; apply bind_ext; intros).
  rewrite bind_ret_l. reflexivity.
Qed.

(** ** Which calls a program can make *)

Section EmitsOnly.

Variable P : event -> Prop.

Lemma emits_only_bind {A B} (m : M A) (f : A -> M B) :
  emits_only P m -> (forall a, emits_only P (f a)) -> emits_only P (bind m f).
Proof.
  intros Hm Hf s. rewrite events_bind. apply Forall_app. split; [apply Hm|].
  destruct (result (m s)); try constructor. apply Hf.
Qed.

Lemma emits_only_ret {A} (a : A) : emits_only P (ret a).
Proof. intros s. constructor. Qed.

Lemma emits_only_raise {A} e : emits_only P (@raise A e).
Proof. intros s. constructor. Qed.

Lemma emits_only_exit {A} c : emits_only P (@exit A c).
Proof. intros s. constructor. Qed.

Lemma emits_only_diverge {A} : emits_only P (@diverge A).
Proof. intros s. constructor. Qed.

Lemma emits_only_isfile p : emits_only P (isfile p).
Proof. intros s. constructor. Qed.

Lemma emits_only_sys_platform W : emits_only P (sys_platform W).
Proof. intros s. constructor. Qed.

Lemma emits_only_if {A} (c : bool) (m1 m2 : M A) :
  emits_only P m1 -> emits_only P m2 -> emits_only P (if c then m1 else m2).
Proof. now destruct c. Qed.

Lemma emits_only_when c m : emits_only P m -> emits_only P (when c m).
Proof. intros H. unfold when. apply emits_only_if; [exact H | apply emits_only_ret]. Qed.

Lemma emits_only_try {A} (m : M A) h :
  emits_only P m -> (forall rc out, emits_only P (h rc out)) ->
  emits_only P (try_except_called m h).
Proof.
  intros Hm Hh s. unfold try_except_called.
  specialize (Hm s). destruct (m s) as [[r s1] t1].
  destruct r as [a|e|c|]; try exact Hm.
  destruct e; try exact Hm.
  specialize (Hh returncode output s1).
  destruct (h returncode output s1) as [[r2 s2] t2].
  apply Forall_app. split; assumption.
Qed.

Lemma emits_only_one {A} (m : M A) e :
  (forall s, events (m s) = [e]) -> P e -> emits_only P m.
Proof. intros H He s. rewrite H. now constructor. Qed.

Lemma emits_only_bind_post {A B} (m : M A) (f : A -> M B) Q :
  hoare P m Q -> (forall a, Q a -> emits_only P (f a)) ->
  emits_only P (bind m f).
Proof.
  intros Hm Hf s. rewrite events_bind. apply Forall_app.
  destruct (Hm s) as [He Hq]. split; [exact He|].
  destruct (result (m s)) eqn:R; try constructor. apply Hf, Hq. reflexivity.
Qed.

Lemma hoare_bind {A B} (m : M A) (f : A -> M B) Q R :
  hoare P m Q -> (forall a, Q a -> hoare P (f a) R) -> hoare P (bind m f) R.
Proof.
  intros Hm Hf s. rewrite events_bind, result_bind.
  destruct (Hm s) as [He Hq]. split.
  - apply Forall_app. split; [exact He|].
    destruct (result (m s)) eqn:E; try constructor.
    apply (Hf a (Hq a eq_refl)).
  - intros b. destruct (result (m s)) eqn:E; try discriminate.
    apply (Hf a (Hq a eq_refl)).
Qed.

Lemma hoare_emits {A} (m : M A) : emits_only P m -> hoare P m (fun _ => True).
Proof. intros H s. split; [apply H | trivial]. Qed.

Lemma hoare_ret {A} (a : A) : hoare P (ret a) (fun r => r = a).
Proof.
  intros s. split; [constructor|]. intros r H. now injection H.
Qed.

Lemma hoare_post {A} (m : M A) (Q Q' : A -> Prop) :
  hoare P m Q -> (forall a, Q a -> Q' a) -> hoare P m Q'.
Proof.
  intros H HQ s. destruct (H s) as [He Hq]. split; [exact He|].
  intros a Ha. apply HQ, Hq, Ha.
Qed.

End EmitsOnly.

Ltac emits_call :=
  eapply emits_only_one;
  [ intros;
    first [ apply events_print | apply events_sleep | apply events_emit
          | apply events_call | apply events_check_call
          | apply events_check_output | apply events_urlretrieve
          | apply events_extractall | apply events_rmtree
          | apply events_rename | apply events_chdir
          | apply events_read_file | apply events_write_file
          | apply events_chmod | apply events_make_archive
          | apply events_remove ]
  | ].

Ltac emits_step :=
  first
    [ emits_call
    | apply emits_only_ret
    | apply emits_only_raise
    | apply emits_only_exit
    | apply emits_only_diverge
    | apply emits_only_isfile
    | apply emits_only_sys_platform
    | apply emits_only_when
    | apply emits_only_try; [|intros]
    | apply emits_only_if
    | apply emits_only_bind; [|intros] ].

Ltac emits := repeat emits_step; try reflexivity.

(** The tool fetcher returns the path of the binary it unpacked. *)
Lemma download_terraform_path P W version :
  (forall line, P (Print line)) -> (forall u, P (Urlretrieve u)) ->
  (forall f, P (ExtractAll f)) -> (forall p, P (Chmod p)) ->
  hoare P (download_terraform W version) (fun r => r = "./terraform").
Proof.
  intros P1 P2 P3 P4. unfold download_terraform, tf_platform.
  eapply hoare_bind; [apply hoare_emits; emits | intros p _].
  eapply hoare_bind; [apply hoare_emits; emits; apply P1 | intros _ _].
  eapply hoare_bind; [apply hoare_emits; emits; apply P2 | intros d _].
  eapply hoare_bind; [apply hoare_emits; emits; apply P3 | intros _ _].
  eapply hoare_bind; [apply hoare_emits; emits; apply P4 | intros _ _].
  apply hoare_ret.
Qed.

Lemma parse_args_checked P c :
  (forall m, P (Usage m)) ->
  hoare P (parse_args c)
    (fun a => csp a = "aws" /\ dry_run a = cli_dry_run c
              /\ terraform_repo a
                 = default "clusterinthecloud/terraform" (cli_terraform_repo c)
              /\ terraform_branch a = default "master" (cli_terraform_branch c)).
Proof.
  intros HP s. unfold parse_args, choices. cbn [existsb].
  destruct (String.eqb_spec (cli_csp c) "aws") as [E|N]; cbn [orb].
  - split; [constructor|]. intros a H. injection H as <-. cbn. auto.
  - split; [|discriminate]. rewrite events_bind, events_emit.
    cbn. constructor; [apply HP | constructor].
Qed.

Lemma provision_no_handoff W c :
  emits_only (fun e => handoff_call e = false) (provision W c).
Proof.
  unfold provision.
  eapply emits_only_bind_post;
    [apply parse_args_checked; reflexivity | intros a _].
  apply emits_only_bind; [emits | intros _].
  apply emits_only_bind;
    [unfold preflight, check_command; emits;
     destruct (PyStr.truthy (region a)), (PyStr.truthy (profile a));
     reflexivity
    | intros _].
  apply emits_only_bind; [unfold fetch_infra; emits | intros _].
  eapply emits_only_bind_post;
    [apply download_terraform_path; reflexivity | intros terraform ->].
  apply emits_only_bind; [unfold ensure_key, keygen_command; emits | intros _].
  apply emits_only_bind; [unfold init_validate, tf; emits | intros _].
  apply emits_only_bind;
    [unfold config_file, aws_config_file; emits | intros _].
  unfold create_cluster, read_output, output_command, tf. emits.
Qed.

(** ** Outputs of the cluster *)

Lemma check_call_ok W argv s out :
  spawn W (tick s) argv = Some (0%Z, out) ->
  check_call W argv s = (Ok tt, ran W argv s, [Exec argv]).
Proof.
  intros H. unfold check_call, bind, run_process. rewrite H. reflexivity.
Qed.

Lemma read_output_run_fails W terraform a name s rc out :
  spawn W (tick s) (output_command terraform a name) = Some (rc, out) ->
  rc <> 0%Z ->
  read_output W terraform a name s
  = (Raised (CalledProcessError rc out),
     ran W (output_command terraform a name) s,
     [Exec (output_command terraform a name)]).
Proof.
  intros H N. unfold read_output.
  now rewrite (bind_stop _ _ s _ _ _ (check_output_fails W _ s rc out H N)).
Qed.

Lemma read_output_run_ok W terraform a name s out :
  spawn W (tick s) (output_command terraform a name) = Some (0%Z, out) ->
  PyStr.utf8_valid out = true ->
  read_output W terraform a name s
  = (Ok (PyStr.strip_quote (PyStr.strip out)),
     ran W (output_command terraform a name) s,
     [Exec (output_command terraform a name)]).
Proof.
  intros H Hv. unfold read_output, check_output, decode, bind, run_process.
  rewrite H. cbn [fst snd Z.eqb ret]. rewrite Hv. reflexivity.
Qed.

Lemma read_output_run_undecodable W terraform a name s out :
  spawn W (tick s) (output_command terraform a name) = Some (0%Z, out) ->
  PyStr.utf8_valid out = false ->
  read_output W terraform a name s
  = (Raised (UnicodeDecodeError out),
     ran W (output_command terraform a name) s,
     [Exec (output_command terraform a name)]).
Proof.
  intros H Hv. unfold read_output, check_output, decode, bind, run_process.
  rewrite H. cbn [fst snd Z.eqb ret]. rewrite Hv. reflexivity.
Qed.

(** C1 (amended): what the run asks of the two extracted outputs is the
    exit status of the command that reads them and that what it printed
    decodes as UTF-8.  After an [apply] that exits zero, an output command
    that exits non-zero raises, an output that does not decode raises
    [UnicodeDecodeError], and a run that ends before the outputs are there
    ends with that failure and makes no handoff call.  An output command
    that exits zero with an output that decodes is accepted with whatever
    it printed, stripped: nothing checks that the address or the
    identifier is non-empty, and the handoff and the summary are run with
    them. *)
Theorem outputs_are_not_checked W fuel c s :
  (forall terraform a s' o0,
      dry_run a = false ->
      spawn W (tick s') (tf terraform a ["apply"; "-auto-approve"])
      = Some (0%Z, o0) ->
      let ip_command := output_command terraform a "ManagementPublicIP" in
      let id_command := output_command terraform a "cluster_id" in
      (forall rc out,
          spawn W (1 + tick s') ip_command = Some (rc, out) ->
          rc <> 0%Z ->
          result (create_cluster W terraform a s')
          = Raised (CalledProcessError rc out))
      /\ (forall o1,
             spawn W (1 + tick s') ip_command = Some (0%Z, o1) ->
             PyStr.utf8_valid o1 = false ->
             result (create_cluster W terraform a s')
             = Raised (UnicodeDecodeError o1))
      /\ (forall o1 rc out,
             spawn W (1 + tick s') ip_command = Some (0%Z, o1) ->
             PyStr.utf8_valid o1 = true ->
             spawn W (2 + tick s') id_command = Some (rc, out) ->
             rc <> 0%Z ->
             result (create_cluster W terraform a s')
             = Raised (CalledProcessError rc out))
      /\ (forall o1 o2,
             spawn W (1 + tick s') ip_command = Some (0%Z, o1) ->
             PyStr.utf8_valid o1 = true ->
             spawn W (2 + tick s') id_command = Some (0%Z, o2) ->
             PyStr.utf8_valid o2 = false ->
             result (create_cluster W terraform a s')
             = Raised (UnicodeDecodeError o2))
      /\ (forall o1 o2,
             spawn W (1 + tick s') ip_command = Some (0%Z, o1) ->
             PyStr.utf8_valid o1 = true ->
             spawn W (2 + tick s') id_command = Some (0%Z, o2) ->
             PyStr.utf8_valid o2 = true ->
             result (create_cluster W terraform a s')
             = Ok (PyStr.strip_quote (PyStr.strip o1),
                   PyStr.strip_quote (PyStr.strip o2))))
  /\ match result (provision W c s) with
     | Ok (a, (ip, cluster_id)) =>
         result (main W fuel c s)
         = result (finish W fuel (a, (ip, cluster_id)) (final (provision W c s)))
         /\ events (main W fuel c s)
            = (events (provision W c s)
                 ++ events (finish W fuel (a, (ip, cluster_id))
                              (final (provision W c s))))%list
     | _ =>
         result (main W fuel c s) <> Ok tt
         /\ events (main W fuel c s) = events (provision W c s)
         /\ Forall (fun e => handoff_call e = false) (events (main W fuel c s))
     end.
Proof.
  split.
  - intros terraform a s' o0 Hdry Happly ip_command id_command.
    unfold create_cluster. rewrite Hdry. cbn [negb].
    rewrite (bind_step _ _ s' tt _ _ (check_call_ok W _ s' o0 Happly)).
    cbn [result fst].
    set (s1 := ran W (tf terraform a ["apply"; "-auto-approve"]) s').
    set (s2 := ran W ip_command s1).
    split; [|split; [|split; [|split]]].
    + intros rc out H1 N.
      now rewrite (bind_stop _ _ s1 _ _ _
                     (read_output_run_fails W terraform a _ s1 rc out H1 N)).
    + intros o1 H1 V1.
      now rewrite (bind_stop _ _ s1 _ _ _
                     (read_output_run_undecodable W terraform a _ s1 o1 H1 V1)).
    + intros o1 rc out H1 V1 H2 N.
      rewrite (bind_step _ _ s1 _ _ _
                 (read_output_run_ok W terraform a _ s1 o1 H1 V1)).
      cbn [result fst]. fold ip_command. fold s2.
      now rewrite (bind_stop _ _ _ _ _ _
                     (read_output_run_fails W terraform a _ s2 rc out H2 N)).
    + intros o1 o2 H1 V1 H2 V2.
      rewrite (bind_step _ _ s1 _ _ _
                 (read_output_run_ok W terraform a _ s1 o1 H1 V1)).
      cbn [result fst]. fold ip_command. fold s2.
      now rewrite (bind_stop _ _ _ _ _ _
                     (read_output_run_undecodable W terraform a _ s2 o2 H2 V2)).
    + intros o1 o2 H1 V1 H2 V2.
      rewrite (bind_step _ _ s1 _ _ _
                 (read_output_run_ok W terraform a _ s1 o1 H1 V1)).
      cbn [result fst]. fold ip_command. fold s2.
      rewrite (bind_step _ _ _ _ _ _
                 (read_output_run_ok W terraform a _ s2 o2 H2 V2)).
      reflexivity.
  - rewrite main_split, bind_run.
    pose proof (provision_no_handoff W c s) as Hno.
    destruct (result (provision W c s)) as [[a [ip id]]| | |].
    + split; reflexivity.
    + repeat split; [discriminate | exact Hno].
    + repeat split; [discriminate | exact Hno].
    + repeat split; [discriminate | exact Hno].
Qed.

(** C1 (as stated) fails: with both outputs empty the run, started in
    [/home], is not stopped; it copies the archive to the address [citc@:.]
    and ends normally. *)
Lemma empty_outputs_reach_handoff :
  let W := Demo.world "linux" "terraform-master" "" "" 0 in
  let r := main W 3 (Demo.request "aws" false) Demo.home in
  result (provision W (Demo.request "aws" false) Demo.home)
  = Ok (Demo.arguments false, ("", ""))
  /\ result r = Ok tt
  /\ last (commands (events r)) []
     = scp_command "citc-terraform-/citc-key" "/home/citc-terraform.tar.gz" ""
  /\ existsb handoff_call (events r) = true.
Proof.
  vm_compute. repeat split; reflexivity.
Qed.

(** ** Dry run *)

Lemma same_command_eq a : forall b, same_command a b = true -> a = b.
Proof.
  induction a as [|x a IH]; intros [|y b] H; simpl in H;
    try discriminate; [reflexivity|].
  apply andb_prop in H as [Hx Hr].
  apply String.eqb_eq in Hx. subst. f_equal. now apply IH.
Qed.

Lemma dry_calls_commands t :
  Forall (fun e => dry_call e = true) t ->
  Forall (fun argv => In argv dry_run_commands) (commands t).
Proof.
  induction 1 as [|e t He _ IH]; [constructor|].
  unfold commands in *. simpl. destruct e; simpl; try exact IH.
  constructor; [|exact IH].
  unfold dry_call in He. apply existsb_exists in He as (x & Hin & Hx).
  apply same_command_eq in Hx. now subst.
Qed.

Lemma summary_run a kp ip s :
  summary a kp ip s = (Ok tt, s, summary_lines (csp a) kp ip).
Proof. reflexivity. Qed.

Lemma stage_names a id s names :
  result (stage a id s) = Ok names ->
  names = ("citc-terraform-" ++ id, ("citc-terraform-" ++ id) ++ "/citc-key").
Proof.
  unfold stage. intros H.
  apply bind_ok in H as (_ & _ & H & _).
  apply bind_ok in H as (_ & _ & H & _).
  apply bind_ok in H as (_ & _ & H & _).
  now injection H.
Qed.

Lemma dry_create_cluster W terraform a :
  dry_run a = true ->
  hoare (fun e => dry_call e = true) (create_cluster W terraform a)
    (fun outs => outs = ("1.1.1.1", "test-cluster")).
Proof.
  intros H. unfold create_cluster. rewrite H. cbn [negb].
  eapply hoare_bind; [apply hoare_emits; emits | intros _ _].
  apply hoare_ret.
Qed.

Lemma dry_provision W c :
  cli_dry_run c = true ->
  hoare (fun e => dry_call e = true) (provision W c)
    (fun x => csp (fst x) = "aws" /\ dry_run (fst x) = true
              /\ snd x = ("1.1.1.1", "test-cluster")).
Proof.
  intros Hdry. unfold provision.
  eapply hoare_bind; [apply parse_args_checked; reflexivity|].
  intros a (Hcsp & Ha & _). rewrite Hdry in Ha.
  eapply hoare_bind; [apply hoare_emits; emits | intros _ _].
  eapply hoare_bind;
    [apply hoare_emits; unfold preflight; rewrite Ha; emits | intros _ _].
  eapply hoare_bind;
    [apply hoare_emits; unfold fetch_infra; emits | intros _ _].
  eapply hoare_bind;
    [apply download_terraform_path; reflexivity | intros terraform ->].
  eapply hoare_bind;
    [apply hoare_emits; unfold ensure_key; emits | intros _ _].
  eapply hoare_bind;
    [apply hoare_emits; unfold init_validate, tf; rewrite Hcsp; emits
    | intros _ _].
  eapply hoare_bind;
    [apply hoare_emits; unfold config_file, aws_config_file; emits
    | intros _ _].
  eapply hoare_bind; [apply dry_create_cluster; exact Ha | intros outs ->].
  eapply hoare_post; [apply hoare_ret|].
  intros x ->. auto.
Qed.

Lemma dry_finish W fuel a outs :
  dry_run a = true ->
  emits_only (fun e => dry_call e = true) (finish W fuel (a, outs)).
Proof.
  intros Ha. unfold finish, handoff, stage, transfer, summary. cbn [fst snd].
  rewrite Ha. cbn [negb]. emits.
Qed.

(** Outside the retry loop every call ends. *)
Section Terminates.

Lemma terminates_bind {A B} (m : M A) (f : A -> M B) :
  terminates m -> (forall a, terminates (f a)) -> terminates (bind m f).
Proof.
  intros Hm Hf s. rewrite result_bind.
  specialize (Hm s). destruct (result (m s)); try discriminate.
  - apply Hf.
  - contradiction.
Qed.

Lemma terminates_bind_post {A B} P (m : M A) (f : A -> M B) Q :
  terminates m -> hoare P m Q -> (forall a, Q a -> terminates (f a)) ->
  terminates (bind m f).
Proof.
  intros Hm Hq Hf s. rewrite result_bind.
  specialize (Hm s). destruct (Hq s) as [_ Hpost].
  destruct (result (m s)); try discriminate.
  - apply Hf, Hpost. reflexivity.
  - contradiction.
Qed.

Lemma terminates_ret {A} (a : A) : terminates (ret a).
Proof. intros s. discriminate. Qed.

Lemma terminates_raise {A} e : terminates (@raise A e).
Proof. intros s. discriminate. Qed.

Lemma terminates_exit {A} c : terminates (@exit A c).
Proof. intros s. discriminate. Qed.

Lemma terminates_emit e : terminates (emit e).
Proof. intros s. discriminate. Qed.

Lemma terminates_if {A} (c : bool) (m1 m2 : M A) :
  terminates m1 -> terminates m2 -> terminates (if c then m1 else m2).
Proof. now destruct c. Qed.

Lemma terminates_try {A} (m : M A) h :
  terminates m -> (forall rc out, terminates (h rc out)) ->
  terminates (try_except_called m h).
Proof.
  intros Hm Hh s. unfold try_except_called.
  specialize (Hm s). destruct (m s) as [[r s1] t1].
  destruct r as [a|e|c|]; try exact Hm.
  destruct e; try exact Hm.
  specialize (Hh returncode output s1).
  destruct (h returncode output s1) as [[r2 s2] t2]. exact Hh.
Qed.

Lemma terminates_run_process W argv : terminates (run_process W argv).
Proof. intros s. unfold run_process. break_match; discriminate. Qed.

Lemma terminates_urlretrieve W url : terminates (urlretrieve W url).
Proof. intros s. unfold urlretrieve. break_match; discriminate. Qed.

Lemma terminates_extractall d : terminates (extractall d).
Proof. intros s. unfold extractall. repeat break_match; discriminate. Qed.

Lemma terminates_rmtree p b : terminates (rmtree p b).
Proof. intros s. unfold rmtree. repeat break_match; discriminate. Qed.

Lemma terminates_rename a b : terminates (rename a b).
Proof. intros s. unfold rename. repeat break_match; discriminate. Qed.

Lemma terminates_chdir p : terminates (chdir p).
Proof. intros s. unfold chdir. repeat break_match; discriminate. Qed.

Lemma terminates_isfile p : terminates (isfile p).
Proof. intros s. discriminate. Qed.

Lemma terminates_read_file p : terminates (read_file p).
Proof. intros s. unfold read_file. repeat break_match; discriminate. Qed.

Lemma terminates_write_file p t : terminates (write_file p t).
Proof. intros s. unfold write_file. repeat break_match; discriminate. Qed.

Lemma terminates_chmod p : terminates (chmod p).
Proof. intros s. unfold chmod. repeat break_match; discriminate. Qed.

Lemma terminates_make_archive b f r d : terminates (make_archive b f r d).
Proof. intros s. unfold make_archive. repeat break_match; discriminate. Qed.

Lemma terminates_remove p : terminates (remove p).
Proof. intros s. unfold remove. repeat break_match; discriminate. Qed.

End Terminates.

Ltac ends_step :=
  first
    [ apply terminates_ret | apply terminates_raise | apply terminates_exit
    | apply terminates_emit | apply terminates_run_process
    | apply terminates_urlretrieve | apply terminates_extractall
    | apply terminates_rmtree | apply terminates_rename
    | apply terminates_chdir | apply terminates_isfile
    | apply terminates_read_file | apply terminates_write_file
    | apply terminates_chmod | apply terminates_make_archive
    | apply terminates_remove
    | apply terminates_try; [|intros]
    | apply terminates_if
    | apply terminates_bind; [|intros] ].

Ltac ends := repeat ends_step.

Lemma provision_terminates W c : terminates (provision W c).
Proof.
  unfold provision, parse_args, preflight, fetch_infra, download_terraform,
    tf_platform, sys_platform, ensure_key, init_validate, config_file,
    aws_config_file, create_cluster, read_output, check_call, check_output,
    call, when, print, sleep.
  ends.
Qed.

Lemma dry_finish_terminates W fuel a outs :
  dry_run a = true -> terminates (finish W fuel (a, outs)).
Proof.
  intros Ha.
  unfold finish, handoff, stage, transfer, summary, print. cbn [fst snd].
  rewrite Ha. cbn [negb]. ends.
Qed.

(** C5: a run with the dry-run flag starts no process other than the key
    generation and the tool's [init] and [validate]: no credential probe,
    no [apply], no output extraction, no [scp].  When it ends normally,
    the log ends with the summary written with the placeholder address
    [1.1.1.1] and the key path of the placeholder identifier
    [test-cluster]; and the run always ends, since the retry loop is not
    entered. *)
Theorem dry_run_is_simulated W fuel c s :
  cli_dry_run c = true ->
  Forall (fun argv => In argv dry_run_commands)
    (commands (events (main W fuel c s)))
  /\ (result (main W fuel c s) = Ok tt ->
      exists before,
        events (main W fuel c s)
        = (before ++ summary_lines "aws" "citc-terraform-test-cluster/citc-key"
                       "1.1.1.1")%list)
  /\ result (main W fuel c s) <> Diverged.
Proof.
  intros Hdry. split; [|split].
  - apply dry_calls_commands. rewrite main_split.
    revert s. change (emits_only (fun e => dry_call e = true)
                        (bind (provision W c) (finish W fuel))).
    eapply emits_only_bind_post; [apply (dry_provision W c Hdry)|].
    intros [a outs] (_ & Ha & _). now apply dry_finish.
  - rewrite main_split. intros Hok.
    apply bind_ok in Hok as ([a outs] & Hprov & Hfin & _).
    destruct (dry_provision W c Hdry s) as [_ Hpost].
    destruct (Hpost _ Hprov) as (Hcsp & Ha & Houts).
    cbn [fst snd] in Hcsp, Ha, Houts. subst outs.
    rewrite events_bind, Hprov.
    unfold finish in Hfin |- *. cbn [fst snd] in Hfin |- *.
    apply bind_ok in Hfin as (kp & Hhand & _ & _).
    rewrite events_bind, Hhand, summary_run, Hcsp. cbn [events snd].
    unfold handoff in Hhand.
    apply bind_ok in Hhand as (names & Hst & Hrest & _).
    apply stage_names in Hst. subst names. cbn [fst snd] in Hrest.
    apply bind_ok in Hrest as (_ & _ & Hkp & _).
    injection Hkp as <-.
    eexists. rewrite app_assoc. reflexivity.
  - rewrite main_split. revert s.
    change (terminates (bind (provision W c) (finish W fuel))).
    eapply terminates_bind_post;
      [apply provision_terminates | apply (dry_provision W c Hdry) |].
    intros [a outs] (_ & Ha & _). now apply dry_finish_terminates.
Qed.

Lemma dry_run_is_simulated_witness :
  let W := Demo.world "linux" "terraform-master" "1.2.3.4" "abc" 0 in
  let c := Demo.request "aws" true in
  let s := Demo.start (FS.Dir []) in
  cli_dry_run c = true
  /\ result (main W 0 c s) = Ok tt
  /\ Forall (fun argv => In argv dry_run_commands)
       (commands (events (main W 0 c s)))
  /\ exists before,
      events (main W 0 c s)
      = (before ++ summary_lines "aws" "citc-terraform-test-cluster/citc-key"
                     "1.1.1.1")%list.
Proof.
  intros W c s.
  assert (Hok : result (main W 0 c s) = Ok tt) by (vm_compute; reflexivity).
  destruct (dry_run_is_simulated W 0 c s eq_refl) as (Hcmd & Hsum & _).
  split; [reflexivity|]. split; [exact Hok|]. split; [exact Hcmd|].
  exact (Hsum Hok).
Defined.

(** ** Fetching the infrastructure repository *)

Lemma string_length_app (a b : string) :
  String.length (a ++ b) = String.length a + String.length b.
Proof. induction a as [|x a IH]; simpl; [reflexivity | now rewrite IH]. Qed.

Lemma string_app_inv_tail (a b c : string) : a ++ c = b ++ c -> a = b.
Proof.
  revert b. induction a as [|x a IH]; intros [|y b] H.
  - reflexivity.
  - exfalso. apply (f_equal String.length) in H.
    rewrite !string_length_app in H. simpl in H. lia.
  - exfalso. apply (f_equal String.length) in H.
    rewrite !string_length_app in H. simpl in H. lia.
  - simpl in H. injection H as -> H. f_equal. now apply IH.
Qed.

Lemma lookup_modify_sibling_under cwd : forall n k q v n' k' q',
  FS.modify n (cwd ++ k :: q)%list v = Some n' -> k' <> k ->
  FS.lookup n' (cwd ++ k' :: q')%list = FS.lookup n (cwd ++ k' :: q')%list.
Proof.
  induction cwd as [|c cwd IH]; intros n k q v n' k' q' H N.
  - exact (FSFacts.lookup_modify_sibling n k q v n' k' q' H N).
  - change ((c :: cwd) ++ k :: q)%list with (c :: (cwd ++ k :: q))%list in H.
    change ((c :: cwd) ++ k' :: q')%list with (c :: (cwd ++ k' :: q'))%list.
    simpl in H. destruct n as [| |es]; try discriminate.
    destruct (cwd ++ k :: q)%list as [|x r] eqn:E.
    { destruct cwd; discriminate. }
    destruct (FS.get c es) as [ch|] eqn:G; [|discriminate].
    destruct (FS.modify ch (x :: r) v) as [ch'|] eqn:Hm; [|discriminate].
    injection H as <-. simpl. rewrite FSFacts.get_put_same, G.
    rewrite <- E in Hm. exact (IH ch k q v ch' k' q' Hm N).
Qed.

Lemma lookup_unpack_sibling cwd : forall n k q m n' k',
  FS.unpack n (cwd ++ k :: q)%list m = Some n' -> k' <> k ->
  FS.lookup n' (cwd ++ [k'])%list = FS.lookup n (cwd ++ [k'])%list.
Proof.
  induction cwd as [|c cwd IH]; intros n k q m n' k' H N.
  - simpl in H. destruct n as [| |es]; try discriminate.
    match type of H with
    | match ?u with _ => _ end = _ => destruct u as [c'|]; [|discriminate]
    end.
    injection H as <-. simpl. now rewrite FSFacts.get_put_other.
  - change ((c :: cwd) ++ k :: q)%list with (c :: (cwd ++ k :: q))%list in H.
    change ((c :: cwd) ++ [k'])%list with (c :: (cwd ++ [k']))%list.
    simpl in H. destruct n as [| |es]; try discriminate.
    match type of H with
    | match FS.unpack ?child _ _ with _ => _ end = _ =>
        destruct (FS.unpack child (cwd ++ k :: q)%list m) as [c'|] eqn:Hu;
          [|discriminate]
    end.
    injection H as <-. simpl. rewrite FSFacts.get_put_same.
    rewrite (IH _ k q m c' k' Hu N).
    destruct (FS.get c es) as [ch|]; [reflexivity|].
    destruct (cwd ++ k :: q)%list eqn:E; [destruct cwd; discriminate|].
    destruct cwd; reflexivity.
Qed.

Lemma lookup_unpack_all_sibling top k' cwd ms : forall n n',
  under_top top ms = true ->
  FS.unpack_all n cwd ms = Some n' -> k' <> top ->
  FS.lookup n' (cwd ++ [k'])%list = FS.lookup n (cwd ++ [k'])%list.
Proof.
  induction ms as [|[p m] ms IH]; intros n n' Hu H N; simpl in H.
  - now injection H as <-.
  - simpl in Hu. apply andb_prop in Hu as [Hp Hrest].
    destruct p as [|k q]; [discriminate|].
    apply String.eqb_eq in Hp. subst k.
    destruct (FS.unpack n (cwd ++ top :: q)%list m) as [n1|] eqn:E;
      [|discriminate].
    rewrite (IH n1 n' Hrest H N).
    exact (lookup_unpack_sibling cwd n top q m n1 k' E N).
Qed.

Lemma rename_missing src dst s :
  FS.lookup (fs s) (FS.resolve (cwd s) src) = None ->
  rename src dst s = (Raised (OSError src), s, [Rename src dst]).
Proof. intros H. unfold rename, FS.rename. now rewrite H. Qed.

Lemma rmtree_ignoring p s :
  result (rmtree p true s) = Ok tt
  /\ cwd (final (rmtree p true s)) = cwd s
  /\ (fs (final (rmtree p true s)) = fs s
      \/ FS.modify (fs s) (FS.resolve (cwd s) p) None
         = Some (fs (final (rmtree p true s)))).
Proof.
  unfold rmtree. destruct (FS.is_dir _); [|cbn; auto].
  destruct (FS.modify _ _ _) as [t|] eqn:E; cbn; auto.
Qed.

Lemma expected_dir_resolves cwd a :
  plain (terraform_branch a) = true ->
  FS.resolve cwd (expected_dir a) = (cwd ++ [expected_dir a])%list.
Proof. intros H. apply resolve_plain; try reflexivity. exact H. Qed.

Lemma parse_args_run c s a :
  result (parse_args c s) = Ok a -> parse_args c s = (Ok a, s, []).
Proof.
  unfold parse_args. destruct (existsb _ _); [|discriminate].
  intros H. injection H as <-. reflexivity.
Qed.

Lemma main_fails_with_fetch_infra W fuel c s0 a e :
  result (parse_args c s0) = Ok a ->
  result (preflight W a s0) = Ok tt ->
  result (fetch_infra W a (final (preflight W a s0))) = Raised e ->
  result (main W fuel c s0) = Raised e
  /\ events (main W fuel c s0)
     = (Print "Installing Cluster in the Cloud on AWS"
          :: events (preflight W a s0)
          ++ events (fetch_infra W a (final (preflight W a s0))))%list.
Proof.
  intros Hparse Hpre Hfetch. unfold main.
  rewrite (bind_step _ _ s0 a s0 [] (parse_args_run c s0 a Hparse)).
  rewrite (bind_step _ _ s0 tt s0 [Print "Installing Cluster in the Cloud on AWS"])
    by reflexivity.
  rewrite (bind_step _ _ s0 tt (final (preflight W a s0))
             (events (preflight W a s0)))
    by (rewrite (run_eta (preflight W a) s0) at 1; now rewrite Hpre).
  rewrite (bind_stop _ _ (final (preflight W a s0)) e
             (final (fetch_infra W a (final (preflight W a s0))))
             (events (fetch_infra W a (final (preflight W a s0)))))
    by (rewrite (run_eta (fetch_infra W a) _) at 1; now rewrite Hfetch).
  split; reflexivity.
Qed.

(** C10 (amended): line 57 renames the directory [terraform-] followed by
    the branch, whatever the repository is called.  For a repository
    whose name is not [terraform], with the archive unpacked under
    GitHub's top directory, name and branch, and with no entry of the
    expected name in the directory the run was started in, the rename
    raises, after the archive has been downloaded and unpacked and the old
    working directory removed; and a run whose preflight has passed ends
    with that error. *)
Theorem fetch_infra_expects_terraform W a s d ms t :
  fetch W (archive_url a) = Some d ->
  members d = Some ms ->
  under_top (github_top a) ms = true ->
  FS.unpack_all (fs s) (cwd s) ms = Some t ->
  plain (terraform_branch a) = true ->
  repo_name (terraform_repo a) <> "terraform" ->
  FS.lookup (fs s) (cwd s ++ [expected_dir a])%list = None ->
  result (fetch_infra W a s) = Raised (OSError (expected_dir a))
  /\ events (fetch_infra W a s)
     = [ Print "Downloading CitC Terraform configuration";
         Urlretrieve (archive_url a);
         ExtractAll (local_name d);
         Rmtree "citc-terraform";
         Rename (expected_dir a) "citc-terraform" ]
  /\ (forall fuel c s0,
         result (parse_args c s0) = Ok a ->
         result (preflight W a s0) = Ok tt ->
         final (preflight W a s0) = s ->
         result (main W fuel c s0) = Raised (OSError (expected_dir a))).
Proof.
  intros Hfetch Hms Htop Hunpack Hplain Hname Habsent.
  cut (result (fetch_infra W a s) = Raised (OSError (expected_dir a))
       /\ events (fetch_infra W a s)
          = [ Print "Downloading CitC Terraform configuration";
              Urlretrieve (archive_url a);
              ExtractAll (local_name d);
              Rmtree "citc-terraform";
              Rename (expected_dir a) "citc-terraform" ]).
  { intros [Hres Hev]. split; [exact Hres|]. split; [exact Hev|].
    intros fuel c s0 Hparse Hpre Hs. subst s.
    apply (main_fails_with_fetch_infra W fuel c s0 a _ Hparse Hpre Hres). }
  assert (Hne : expected_dir a <> github_top a).
  { unfold expected_dir, github_top. intros E.
    apply Hname. symmetry.
    apply (string_app_inv_tail _ _ ("-" ++ terraform_branch a)).
    now rewrite <- E. }
  assert (Hafter : FS.lookup t (cwd s ++ [expected_dir a])%list = None).
  { rewrite (lookup_unpack_all_sibling (github_top a) (expected_dir a)
               (cwd s) ms (fs s) t Htop Hunpack Hne).
    exact Habsent. }
  set (s1 := set_fs s t).
  assert (Hx : extractall d s = (Ok tt, s1, [ExtractAll (local_name d)])).
  { unfold extractall. now rewrite Hms, Hunpack. }
  destruct (rmtree_ignoring "citc-terraform" s1) as (Hrm & Hcwd & Hfs).
  set (s2 := final (rmtree "citc-terraform" true s1)) in *.
  assert (Hgone : FS.lookup (fs s2) (FS.resolve (cwd s2) (expected_dir a)) = None).
  { rewrite Hcwd, (expected_dir_resolves _ a Hplain). cbn [cwd s1 set_fs].
    destruct Hfs as [-> | Hmod]; [exact Hafter|].
    cbn [fs cwd s1 set_fs] in Hmod.
    change (FS.resolve (cwd s) "citc-terraform")
      with (cwd s ++ ["citc-terraform"])%list in Hmod.
    rewrite (lookup_modify_sibling_under (cwd s) t "citc-terraform" [] None
               (fs s2) (expected_dir a) [] Hmod); [exact Hafter|].
    discriminate. }
  assert (Hrun : rmtree "citc-terraform" true s1
                 = (Ok tt, s2, [Rmtree "citc-terraform"])).
  { rewrite (run_eta (rmtree "citc-terraform" true) s1), Hrm, events_rmtree.
    reflexivity. }
  unfold fetch_infra. fold (archive_url a). fold (expected_dir a).
  rewrite (bind_step _ _ s tt s [Print "Downloading CitC Terraform configuration"])
    by reflexivity.
  rewrite (bind_step _ _ s d s [Urlretrieve (archive_url a)])
    by (unfold urlretrieve; now rewrite Hfetch).
  rewrite (bind_step _ _ s tt s1 _ Hx).
  rewrite (bind_step _ _ s1 tt s2 _ Hrun).
  rewrite (bind_stop _ _ s2 _ _ _ (rename_missing _ _ s2 Hgone)).
  split; reflexivity.
Qed.

Lemma fetch_infra_expects_terraform_witness :
  let W := Demo.world "linux" "infra-master" "1.2.3.4" "abc" 0 in
  let a := Demo.from_repo "acme/infra" (Demo.arguments true) in
  let s := Demo.start (FS.Dir []) in
  fetch W (archive_url a) = Some (Demo.repo_archive "infra-master")
  /\ github_top a = "infra-master"
  /\ repo_name (terraform_repo a) <> "terraform"
  /\ FS.lookup (fs s) (cwd s ++ [expected_dir a])%list = None
  /\ result (fetch_infra W a s) = Raised (OSError "terraform-master")
  /\ urls (events (fetch_infra W a s)) = [archive_url a]
  /\ result (main W 0 (Demo.request_for "acme/infra" true) s)
     = Raised (OSError "terraform-master").
Proof.
  intros W a s.
  assert (Hname : repo_name (terraform_repo a) <> "terraform")
    by (vm_compute; discriminate).
  assert (Hunpack : FS.unpack_all (fs s) (cwd s)
                      [ (["infra-master"], FS.Dir []);
                        (["infra-master"; "aws"], FS.Dir []);
                        (["infra-master"; "aws"; "terraform.tfvars"],
                         FS.File Demo.tfvars) ]
                    = Some (FS.Dir [("infra-master",
                              FS.Dir [("aws",
                                FS.Dir [("terraform.tfvars",
                                         FS.File Demo.tfvars)])])]))
    by (vm_compute; reflexivity).
  destruct (fetch_infra_expects_terraform W a s
              (Demo.repo_archive "infra-master") _ _
              eq_refl eq_refl eq_refl Hunpack eq_refl Hname eq_refl)
    as (Hres & Hev & Hmain).
  split; [reflexivity|]. split; [reflexivity|]. split; [exact Hname|].
  split; [reflexivity|]. split; [exact Hres|].
  split; [rewrite Hev; reflexivity|].
  apply Hmain; reflexivity.
Defined.

(** C10 (as stated) fails: for the repository [acme/infra], started in a
    directory that already holds an entry [terraform-master], the rename
    does not raise; the run goes on in that old directory. *)
Lemma stale_directory_is_renamed :
  let W := Demo.world "linux" "infra-master" "1.2.3.4" "abc" 0 in
  let a := Demo.from_repo "acme/infra" (Demo.arguments true) in
  let s := Demo.start (FS.Dir [("terraform-master", FS.Dir [])]) in
  repo_name (terraform_repo a) = "infra"
  /\ result (fetch_infra W a s) = Ok tt
  /\ cwd (final (fetch_infra W a s)) = ["citc-terraform"]
  /\ fs (final (fetch_infra W a s))
     = FS.Dir [("infra-master",
                FS.Dir [("aws", FS.Dir [("terraform.tfvars",
                                         FS.File Demo.tfvars)])]);
               ("citc-terraform", FS.Dir [])].
Proof.
  vm_compute. repeat split; reflexivity.
Qed.

(** ** State Handoff: when the archive is built *)

Lemma handoff_unfolded W fuel a ip id s :
  handoff W fuel a ip id s
  = bind (stage a id)
      (fun names =>
         tf_zip <- make_archive "citc-terraform" "gztar" "." (fst names) ;;
         ((if negb (dry_run a) then upload W fuel (snd names) tf_zip ip
           else print ("... pretending to upload the config " ++ tf_zip
                         ++ " to the cluster ...")) ;;
          remove tf_zip) ;;
         ret (snd names)) s.
Proof.
  unfold handoff, transfer. apply bind_ext. intros names s'.
  now rewrite bind_assoc.
Qed.

Lemma modify_succeeds p : forall n k v,
  FS.is_dir (FS.lookup n p) = true ->
  exists n', FS.modify n (p ++ [k])%list v = Some n'
             /\ FS.is_dir (FS.lookup n' p) = true.
Proof.
  induction p as [|c p IH]; intros n k v H.
  - simpl in H. destruct n as [| |es]; try discriminate.
    simpl. eexists. split; reflexivity.
  - simpl in H. destruct n as [| |es]; try discriminate.
    destruct (FS.get c es) as [ch|] eqn:G; [|discriminate].
    destruct (IH ch k v H) as (ch' & Hm & Hd).
    exists (FS.Dir (FS.put c ch' es)). split.
    + change ((c :: p) ++ [k])%list with (c :: (p ++ [k]))%list.
      simpl. destruct (p ++ [k])%list eqn:E; [destruct p; discriminate|].
      now rewrite G, Hm.
    + simpl. now rewrite FSFacts.get_put_same.
Qed.

Lemma is_dir_parent n p k m :
  FS.lookup n (p ++ [k])%list = Some m -> FS.is_dir (FS.lookup n p) = true.
Proof.
  rewrite FSFacts.lookup_app.
  destruct (FS.lookup n p) as [[| |es]|]; simpl; try discriminate.
  reflexivity.
Qed.

Lemma zip_is_not_new_dir id : "citc-terraform.tar.gz" <> new_dir id.
Proof. unfold new_dir. simpl. discriminate. Qed.

(** The archive is built whenever the working tree is where the run left
    it, holds the provider's [.terraform] directory, and neither the new
    directory name nor a directory with the archive's name is in the
    way. *)
Lemma stage_and_archive_succeeds a id s up work zip :
  FS.render (up ++ ["citc-terraform.tar.gz"])%list = Some zip ->
  csp a = "aws" ->
  plain id = true ->
  cwd s = (up ++ ["citc-terraform"])%list ->
  FS.lookup (fs s) (cwd s) = Some work ->
  FS.lookup (fs s) (up ++ [new_dir id])%list = None ->
  FS.is_dir (FS.lookup work ["aws"; ".terraform"]) = true ->
  FS.is_dir (FS.lookup (fs s) (up ++ ["citc-terraform.tar.gz"])%list) = false ->
  result (stage_and_archive a id s) = Ok zip
  /\ events (stage_and_archive a id s)
     = [ Chdir ".."; Rename "citc-terraform" (new_dir id);
         Rmtree (path_join (path_join (new_dir id) "aws") ".terraform");
         archive_call (new_dir id) ].
Proof.
  intros Hfull Hcsp Hid Hcwd Hwork Hfree Hcache Hzip.
  rewrite Hcwd in Hwork.
  pose proof (is_dir_parent _ _ _ _ Hwork) as Hup.
  (* the rename *)
  destruct (modify_succeeds up (fs s) "citc-terraform" None Hup)
    as (r1 & Hr1 & Hup1).
  destruct (modify_succeeds up r1 (new_dir id) (Some work) Hup1)
    as (t1 & Ht1 & Hup2).
  pose proof (FSFacts.lookup_modify_same _ _ _ _ Ht1) as Hmoved.
  (* the removal of the cache *)
  assert (Haws : FS.is_dir (FS.lookup work ["aws"]) = true)
    by (apply (is_dir_parent work ["aws"] ".terraform"
                 match FS.lookup work ["aws"; ".terraform"] with
                 | Some m => m | None => work end);
        change (["aws"] ++ [".terraform"])%list with ["aws"; ".terraform"];
        destruct (FS.lookup work ["aws"; ".terraform"]);
        [reflexivity | discriminate]).
  destruct (modify_succeeds ["aws"] work ".terraform" None Haws)
    as (stripped & Hstrip & _).
  change (["aws"] ++ [".terraform"])%list with ["aws"; ".terraform"] in Hstrip.
  destruct (modify_succeeds up t1 (new_dir id) (Some stripped) Hup2)
    as (t2 & Ht2 & Hup3).
  pose proof (FSFacts.lookup_modify_same _ _ _ _ Ht2) as Hnew.
  (* the archive *)
  assert (Hz2 : FS.lookup t2 (up ++ ["citc-terraform.tar.gz"])%list
                = FS.lookup (fs s) (up ++ ["citc-terraform.tar.gz"])%list).
  { rewrite (lookup_modify_sibling_under up t1 _ [] _ t2 _ [] Ht2)
      by apply zip_is_not_new_dir.
    rewrite (lookup_modify_sibling_under up r1 _ [] _ t1 _ [] Ht1)
      by apply zip_is_not_new_dir.
    now rewrite (lookup_modify_sibling_under up (fs s) _ [] _ r1 _ [] Hr1)
      by discriminate. }
  destruct (modify_succeeds up t2 "citc-terraform.tar.gz"
              (Some (FS.Archive [new_dir id] stripped)) Hup3)
    as (t3 & Ht3 & _).
  (* the four calls *)
  set (s1 := {| fs := fs s; cwd := up; tick := tick s |}).
  assert (E1 : chdir ".." s = (Ok tt, s1, [Chdir ".."])).
  { unfold chdir. rewrite Hcwd, resolve_up, Hup. reflexivity. }
  assert (E2 : rename "citc-terraform" (new_dir id) s1
               = (Ok tt, set_fs s1 t1, [Rename "citc-terraform" (new_dir id)])).
  { unfold rename. cbn [fs cwd s1].
    rewrite (new_dir_resolves up id Hid).
    change (FS.resolve up "citc-terraform") with (up ++ ["citc-terraform"])%list.
    unfold FS.rename. rewrite Hwork, Hfree, Hr1, Ht1. reflexivity. }
  assert (E3 : rmtree (path_join (path_join (new_dir id) "aws") ".terraform")
                 false (set_fs s1 t1)
               = (Ok tt, set_fs s1 t2,
                  [Rmtree (path_join (path_join (new_dir id) "aws") ".terraform")])).
  { unfold rmtree. cbn [fs cwd s1 set_fs].
    rewrite (cache_dir_resolves up id Hid).
    rewrite FSFacts.lookup_app, Hmoved, Hcache.
    rewrite (FSFacts.modify_under _ _ _ _ work);
      [| destruct up; discriminate | discriminate | exact Hmoved].
    rewrite Hstrip, Ht2. reflexivity. }
  assert (E4 : make_archive "citc-terraform" "gztar" "." (new_dir id) (set_fs s1 t2)
               = (Ok zip, set_fs s1 t3,
                  [archive_call (new_dir id)])).
  { unfold make_archive. cbn [fs cwd s1 set_fs].
    change (String.eqb "gztar" "gztar") with true. cbn [negb].
    rewrite resolve_here, (new_dir_resolves up id Hid), Hnew.
    change (FS.resolve up ("citc-terraform" ++ ".tar.gz"))
      with (up ++ ["citc-terraform.tar.gz"])%list.
    rewrite Hfull, Hz2, Hzip, (new_dir_resolves [] id Hid).
    change ([] ++ [new_dir id])%list with [new_dir id].
    rewrite Ht3. reflexivity. }
  unfold stage_and_archive, stage. rewrite Hcsp. fold (new_dir id).
  rewrite bind_assoc, (bind_step _ _ s tt s1 _ E1).
  rewrite bind_assoc, (bind_step _ _ s1 tt (set_fs s1 t1) _ E2).
  rewrite bind_assoc, (bind_step _ _ (set_fs s1 t1) tt (set_fs s1 t2) _ E3).
  rewrite bind_ret_l. cbn [fst]. rewrite E4. split; reflexivity.
Qed.

(** ** Credential preflight: the quiet paths and the failed preflight *)

Lemma check_command_head a : hd "" (check_command a) = "aws".
Proof.
  unfold check_command.
  destruct (PyStr.truthy (profile a)), (PyStr.truthy (region a)); reflexivity.
Qed.

(** X1: the two outcomes of the probe that the handler does not see.  A
    probe that exits zero lets the run go on without printing anything.
    A probe that cannot be started raises [OSError], which the
    [except CalledProcessError] clause does not catch: it leaves the
    preflight as it is, with no diagnostic printed. *)
Theorem preflight_quiet_paths W a s :
  dry_run a = false ->
  (forall out,
      spawn W (tick s) (check_command a) = Some (0%Z, out) ->
      preflight W a s
      = (Ok tt, ran W (check_command a) s, [Exec (check_command a)]))
  /\ (spawn W (tick s) (check_command a) = None ->
      preflight W a s = (Raised (OSError "aws"), s, [Exec (check_command a)])).
Proof.
  intros Hdry. unfold preflight. rewrite Hdry. cbn [negb when].
  unfold try_except_called, check_output, run_process. split.
  - intros out H. unfold bind. rewrite H. reflexivity.
  - intros H. unfold bind. rewrite H, check_command_head. reflexivity.
Qed.

Lemma preflight_quiet_paths_witness :
  let W := {| platform := "linux";
              spawn := fun _ _ => None;
              effect := fun _ _ _ t => t;
              fetch := fun _ => None |} in
  let a := Demo.arguments false in
  let s := Demo.start (FS.Dir []) in
  dry_run a = false
  /\ spawn W (tick s) (check_command a) = None
  /\ preflight W a s
     = (Raised (OSError "aws"), s, [Exec ["aws"; "--dry-run"; "ec2"; "describe-images"]]).
Proof.
  intros W a s.
  destruct (preflight_quiet_paths W a s eq_refl) as [_ H].
  split; [reflexivity|]. split; [reflexivity|].
  exact (H eq_refl).
Defined.

Lemma preflight_log W a :
  emits_only (fun e => match e with
                       | Exec argv => argv = check_command a
                       | Print _ => True
                       | _ => False
                       end) (preflight W a).
Proof. unfold preflight. emits; exact I. Qed.

Lemma urls_of_preflight W a s : urls (events (preflight W a s)) = [].
Proof.
  pose proof (preflight_log W a s) as H. unfold urls.
  induction H as [|e t He _ IH]; [reflexivity|].
  simpl. rewrite IH. destruct e; try contradiction; reflexivity.
Qed.

Lemma commands_of_preflight W a s :
  Forall (fun argv => argv = check_command a)
    (commands (events (preflight W a s))).
Proof.
  pose proof (preflight_log W a s) as H. unfold commands.
  induction H as [|e t He _ IH]; [constructor|].
  simpl. destruct e; try contradiction; try exact IH.
  constructor; [exact He | exact IH].
Qed.

(** X2: a preflight that does not end normally ends the run the same way,
    right there: the log holds the banner and what the preflight logged,
    no URL has been fetched and no process other than the probe has been
    started. *)
Theorem failed_preflight_stops_run W fuel c s a :
  result (parse_args c s) = Ok a ->
  result (preflight W a s) <> Ok tt ->
  (forall e, result (preflight W a s) = Raised e ->
             result (main W fuel c s) = Raised e)
  /\ (forall code, result (preflight W a s) = Exited code ->
                   result (main W fuel c s) = Exited code)
  /\ events (main W fuel c s)
     = Print "Installing Cluster in the Cloud on AWS"
         :: events (preflight W a s)
  /\ urls (events (main W fuel c s)) = []
  /\ Forall (fun argv => argv = check_command a)
       (commands (events (main W fuel c s))).
Proof.
  intros Hparse Hfail.
  assert (Hrun : main W fuel c s
                 = (match result (preflight W a s) with
                    | Ok _ => Diverged
                    | Raised e => Raised e
                    | Exited code => Exited code
                    | Diverged => Diverged
                    end,
                    final (preflight W a s),
                    Print "Installing Cluster in the Cloud on AWS"
                      :: events (preflight W a s))).
  { unfold main.
    rewrite (bind_step _ _ s a s [] (parse_args_run c s a Hparse)).
    rewrite (bind_step _ _ s tt s [Print "Installing Cluster in the Cloud on AWS"])
      by reflexivity.
    rewrite (bind_run (preflight W a)).
    destruct (result (preflight W a s)) as [[]| | |] eqn:E;
      [contradiction | reflexivity ..]. }
  rewrite Hrun. cbn [result events fst snd].
  split; [intros e ->; reflexivity|].
  split; [intros code ->; reflexivity|].
  split; [reflexivity|].
  split.
  - change (urls (Print "Installing Cluster in the Cloud on AWS"
                    :: events (preflight W a s)))
      with (urls (events (preflight W a s))).
    apply urls_of_preflight.
  - change (commands (Print "Installing Cluster in the Cloud on AWS"
                        :: events (preflight W a s)))
      with (commands (events (preflight W a s))).
    apply commands_of_preflight.
Qed.

Lemma failed_preflight_stops_run_witness :
  let W := {| platform := "linux";
              spawn := fun _ _ => Some (254%Z, "An error occurred (AuthFailure)");
              effect := fun _ _ _ t => t;
              fetch := fun _ => None |} in
  let c := Demo.request "aws" false in
  let s := Demo.start (FS.Dir []) in
  result (parse_args c s) = Ok (Demo.arguments false)
  /\ result (preflight W (Demo.arguments false) s) = Exited 1
  /\ result (main W 1 c s) = Exited 1
  /\ urls (events (main W 1 c s)) = [].
Proof.
  intros W c s.
  assert (N : result (preflight W (Demo.arguments false) s) <> Ok tt)
    by (vm_compute; discriminate).
  destruct (failed_preflight_stops_run W 1 c s (Demo.arguments false)
              eq_refl N) as (_ & Hexit & _ & Hurls & _).
  split; [reflexivity|]. split; [vm_compute; reflexivity|].
  split; [apply Hexit; vm_compute; reflexivity | exact Hurls].
Defined.
(** ** Tool Fetcher: after the platform is known *)

Lemma urlretrieve_ok W url s d :
  result (urlretrieve W url s) = Ok d ->
  fetch W url = Some d /\ final (urlretrieve W url s) = s.
Proof.
  unfold urlretrieve. destruct (fetch W url) as [d'|]; [|discriminate].
  intros H. injection H as <-. auto.
Qed.

Lemma extractall_ok d s :
  result (extractall d s) = Ok tt ->
  exists ms t,
    members d = Some ms
    /\ FS.unpack_all (fs s) (cwd s) ms = Some t
    /\ final (extractall d s) = set_fs s t.
Proof.
  unfold extractall. destruct (members d) as [ms|]; [|discriminate].
  destruct (FS.unpack_all (fs s) (cwd s) ms) as [t|] eqn:E; [|discriminate].
  intros _. exists ms, t. auto.
Qed.



(** ** Fetching the infrastructure repository: the fresh working tree *)

Lemma rename_inv root src dst t :
  FS.rename root src dst = Some t ->
  exists n r1,
    FS.lookup root src = Some n
    /\ FS.modify root src None = Some r1
    /\ FS.modify r1 dst (Some n) = Some t.
Proof.
  unfold FS.rename. destruct (FS.lookup root src) as [n|]; [|discriminate].
  match goal with |- context [if ?c then _ else _] => destruct c end;
    [|discriminate].
  destruct (FS.modify root src None) as [r1|]; [|discriminate].
  intros H. exists n, r1. auto.
Qed.

Lemma chdir_is_dir p s :
  result (chdir p s) = Ok tt ->
  FS.is_dir (FS.lookup (fs s) (FS.resolve (cwd s) p)) = true.
Proof. unfold chdir. destruct (FS.is_dir _); [reflexivity | discriminate]. Qed.

(** X4: when fetching the infrastructure repository ends normally, the
    run is in [citc-terraform], and that directory is exactly the tree the
    archive unpacked under [terraform-] followed by the branch: whatever
    [citc-terraform] held before is gone, and so is the unpacked
    directory under its old name. *)
Theorem fetch_infra_fresh_tree W a s :
  plain (terraform_branch a) = true ->
  result (fetch_infra W a s) = Ok tt ->
  exists d ms t tree,
    fetch W (archive_url a) = Some d
    /\ members d = Some ms
    /\ FS.unpack_all (fs s) (cwd s) ms = Some t
    /\ FS.lookup t (cwd s ++ [expected_dir a])%list = Some tree
    /\ FS.is_dir (Some tree) = true
    /\ cwd (final (fetch_infra W a s)) = (cwd s ++ ["citc-terraform"])%list
    /\ FS.lookup (fs (final (fetch_infra W a s)))
         (cwd s ++ ["citc-terraform"])%list = Some tree
    /\ FS.lookup (fs (final (fetch_infra W a s)))
         (cwd s ++ [expected_dir a])%list = None.
Proof.
  intros Hplain Hres. unfold fetch_infra in *.
  fold (archive_url a) in *. fold (expected_dir a) in *.
  apply bind_ok in Hres as ([] & _ & Hres & Hf). rewrite Hf. clear Hf.
  cbn [print emit final fst snd] in *.
  apply bind_ok in Hres as (d & Hget & Hres & Hf). rewrite Hf. clear Hf.
  apply urlretrieve_ok in Hget as (Hfetch & Hs). rewrite Hs in *. clear Hs.
  apply bind_ok in Hres as ([] & Hx & Hres & Hf). rewrite Hf. clear Hf.
  apply extractall_ok in Hx as (ms & t & Hms & Hun & Hs). rewrite Hs in *. clear Hs.
  apply bind_ok in Hres as ([] & _ & Hres & Hf). rewrite Hf. clear Hf.
  destruct (rmtree_ignoring "citc-terraform" (set_fs s t)) as (_ & Hcwd & Hfs).
  set (s2 := final (rmtree "citc-terraform" true (set_fs s t))) in *.
  cbn [cwd set_fs] in Hcwd.
  apply bind_ok in Hres as ([] & Hmv & Hcd & Hf). rewrite Hf. clear Hf.
  apply rename_ok in Hmv as (t3 & Hmv & Hs3). rewrite Hs3 in *. clear Hs3.
  rewrite Hcwd, (expected_dir_resolves _ a Hplain) in Hmv.
  change (FS.resolve (cwd s) "citc-terraform")
    with (cwd s ++ ["citc-terraform"])%list in Hmv.
  pose proof (chdir_is_dir _ _ Hcd) as Hdir.
  rewrite (chdir_ok _ _ Hcd). cbn [fs cwd set_fs] in Hdir |- *.
  rewrite Hcwd in Hdir |- *.
  change (FS.resolve (cwd s) "citc-terraform")
    with (cwd s ++ ["citc-terraform"])%list in Hdir |- *.
  destruct (rename_inv _ _ _ _ Hmv) as (tree & r1 & Hsrc & Hr1 & Ht3).
  pose proof (FSFacts.lookup_modify_same _ _ _ _ Ht3) as Hnew.
  assert (Hsrc0 : FS.lookup t (cwd s ++ [expected_dir a])%list = Some tree).
  { destruct Hfs as [E | Hmod];
      [cbn [fs set_fs] in E; now rewrite E in Hsrc|].
    cbn [fs cwd set_fs] in Hmod.
    change (FS.resolve (cwd s) "citc-terraform")
      with (cwd s ++ ["citc-terraform"])%list in Hmod.
    rewrite <- (lookup_modify_sibling_under (cwd s) t "citc-terraform" [] None
                  (fs s2) (expected_dir a) [] Hmod); [exact Hsrc|].
    discriminate. }
  exists d, ms, t, tree.
  split; [exact Hfetch|]. split; [exact Hms|]. split; [exact Hun|].
  split; [exact Hsrc0|].
  split; [now rewrite Hnew in Hdir|].
  split; [reflexivity|]. split; [exact Hnew|].
  rewrite (lookup_modify_sibling_under (cwd s) r1 "citc-terraform" []
             (Some tree) t3 (expected_dir a) [] Ht3) by discriminate.
  exact (FSFacts.lookup_modify_same _ _ _ _ Hr1).
Qed.

Lemma fetch_infra_fresh_tree_witness :
  let W := Demo.world "linux" "terraform-master" "1.2.3.4" "abc" 0 in
  let a := Demo.arguments true in
  let s := Demo.start (FS.Dir [("citc-terraform", FS.Dir [("old", FS.File "x")])]) in
  plain (terraform_branch a) = true
  /\ result (fetch_infra W a s) = Ok tt
  /\ FS.lookup (fs (final (fetch_infra W a s))) ["citc-terraform"; "old"] = None
  /\ exists tree,
      FS.lookup (fs (final (fetch_infra W a s))) ["citc-terraform"] = Some tree
      /\ FS.lookup (fs (final (fetch_infra W a s))) ["terraform-master"] = None.
Proof.
  intros W a s.
  assert (Hok : result (fetch_infra W a s) = Ok tt) by (vm_compute; reflexivity).
  destruct (fetch_infra_fresh_tree W a s eq_refl Hok)
    as (d & ms & t & tree & _ & _ & _ & _ & _ & _ & Hnew & Hold).
  split; [reflexivity|]. split; [exact Hok|].
  split; [vm_compute; reflexivity|].
  exists tree. split; [exact Hnew | exact Hold].
Defined.
(** ** Config Renderer: the file as a whole *)

Lemma aws_config_file_run config a s data pub_key :
  FS.lookup (fs s) (FS.resolve (cwd s) "citc-key.pub") = Some (FS.File data) ->
  PyStr.read_text data = Some pub_key ->
  aws_config_file config a s
  = (Ok (substituted config pub_key
           ++ optional_assignment "region" (region a)
           ++ optional_assignment "availability_zone" (availability_zone a)
           ++ optional_assignment "profile" (profile a)),
     s, [ReadFile "citc-key.pub"]).
Proof.
  intros Hpub Hdec. unfold aws_config_file, bind, read_file.
  rewrite Hpub, Hdec. simpl.
  rewrite !truthy_assignment. fold (substituted config pub_key).
  now rewrite !string_app_assoc.
Qed.











Lemma replace_absent old new : forall s,
  PyStr.contains old s = false -> PyStr.replace old new s = s.
Proof.
  unfold PyStr.replace. induction s as [|c rest IH]; [reflexivity|].
  intros H. cbn [PyStr.contains] in H.
  destruct (prefix old (String c rest)) eqn:P; [discriminate|].
  cbn [PyStr.replace_from]. rewrite P. now rewrite (IH H).
Qed.

(** X7: a template that holds neither the default key path nor the
    heredoc marker is passed through as it is: when the public key file
    can be read as text the renderer raises nothing, the key it has read
    appears nowhere in the result, and only the optional assignments are
    appended. *)
Theorem template_without_markers_passes config a s key pub_key :
  PyStr.contains "~/.ssh/aws-key" config = false ->
  PyStr.contains "admin_public_keys = <<EOF" config = false ->
  FS.lookup (fs s) (FS.resolve (cwd s) "citc-key.pub") = Some (FS.File key) ->
  PyStr.read_text key = Some pub_key ->
  substituted config pub_key = config
  /\ result (aws_config_file config a s)
     = Ok (config
             ++ optional_assignment "region" (region a)
             ++ optional_assignment "availability_zone" (availability_zone a)
             ++ optional_assignment "profile" (profile a)).
Proof.
  intros Hkey Hmark Hpub Hdec.
  assert (E : substituted config pub_key = config).
  { unfold substituted. rewrite (replace_absent _ _ config Hkey).
    now apply replace_absent. }
  split; [exact E|].
  now rewrite (aws_config_file_run config a s key pub_key Hpub Hdec), E.
Qed.

Lemma template_without_markers_passes_witness :
  let a := Demo.located (Some "eu-west-1") None None (Demo.arguments true) in
  PyStr.contains "~/.ssh/aws-key" "cluster = 1" = false
  /\ PyStr.read_text ("ssh-ed25519 AAAA" ++ nl) = Some ("ssh-ed25519 AAAA" ++ nl)
  /\ result (aws_config_file "cluster = 1" a Demo.with_key)
     = Ok ("cluster = 1" ++ nl ++ "region = " ++ dq ++ "eu-west-1" ++ dq).
Proof.
  intros a.
  destruct (template_without_markers_passes "cluster = 1" a Demo.with_key
              ("ssh-ed25519 AAAA" ++ nl) ("ssh-ed25519 AAAA" ++ nl)
              eq_refl eq_refl eq_refl eq_refl) as [_ H].
  split; [reflexivity|]. split; [reflexivity | exact H].
Defined.
(** ** Output extraction: what stripping guarantees *)

Lemma lstrip_head drop s c r :
  PyStr.lstrip_by drop s = String c r -> drop c = false.
Proof.
  induction s as [|x s IH]; simpl; [discriminate|].
  destruct (drop x) eqn:D; [exact IH|].
  intros H. injection H as <- _. exact D.
Qed.

Lemma rstrip_keeps_head drop c r :
  PyStr.rstrip_by drop (String c r) = EmptyString
  \/ exists r', PyStr.rstrip_by drop (String c r) = String c r'.
Proof.
  simpl. destruct (PyStr.rstrip_by drop r) as [|y k].
  - destruct (drop c); [left | right; eexists]; reflexivity.
  - right. eexists. reflexivity.
Qed.

Lemma rstrip_last drop s c :
  last_char (PyStr.rstrip_by drop s) = Some c -> drop c = false.
Proof.
  induction s as [|x s IH]; simpl; [discriminate|].
  destruct (PyStr.rstrip_by drop s) as [|y k] eqn:E.
  - destruct (drop x) eqn:D; simpl; [discriminate|].
    intros H. injection H as <-. exact D.
  - intros H. apply IH.
    change (last_char (String x (String y k))) with (last_char (String y k)) in H.
    exact H.
Qed.

Lemma strip_by_ends drop s :
  (forall c r, PyStr.strip_by drop s = String c r -> drop c = false)
  /\ (forall c, last_char (PyStr.strip_by drop s) = Some c -> drop c = false).
Proof.
  unfold PyStr.strip_by. split; [|intros c; apply rstrip_last].
  intros c r H.
  destruct (PyStr.lstrip_by drop s) as [|x k] eqn:L; [discriminate|].
  destruct (rstrip_keeps_head drop x k) as [E | [r' E]]; rewrite E in H;
    [discriminate|].
  injection H as <- _. exact (lstrip_head drop s x k L).
Qed.

(** X8: an extracted output never begins or ends with a double quote,
    whatever the tool printed: the value the run goes on with is empty or
    has another character at both ends. *)
Theorem read_output_has_no_outer_quotes W terraform a name s v :
  result (read_output W terraform a name s) = Ok v ->
  PyStr.startswith dq v = false /\ last_char v <> Some PyStr.dquote.
Proof.
  unfold read_output. intros H.
  apply bind_ok in H as (data & _ & H & _).
  apply bind_ok in H as (out & _ & H & _). injection H as <-.
  unfold PyStr.strip_quote.
  destruct (strip_by_ends (Ascii.eqb PyStr.dquote) (PyStr.strip out))
    as [Hhead Hlast].
  split.
  - destruct (PyStr.strip_by (Ascii.eqb PyStr.dquote) (PyStr.strip out))
      as [|c r] eqn:E; [reflexivity|].
    specialize (Hhead c r eq_refl).
    unfold PyStr.startswith, dq. cbn [prefix].
    destruct (ascii_dec PyStr.dquote c) as [<-|N].
    + now rewrite Ascii.eqb_refl in Hhead.
    + reflexivity.
  - intros E. specialize (Hlast _ E). now rewrite Ascii.eqb_refl in Hlast.
Qed.

Lemma read_output_has_no_outer_quotes_witness :
  let W := Demo.world "linux" "terraform-master"
             (dq ++ dq ++ " 10.0.0.7 " ++ dq ++ nl) "abc" 0 in
  let a := Demo.arguments false in
  let s := Demo.start (FS.Dir []) in
  result (read_output W "./terraform" a "ManagementPublicIP" s) = Ok " 10.0.0.7 "
  /\ PyStr.startswith dq " 10.0.0.7 " = false.
Proof.
  intros W a s.
  assert (H : result (read_output W "./terraform" a "ManagementPublicIP" s)
              = Ok " 10.0.0.7 ") by (vm_compute; reflexivity).
  split; [exact H|].
  exact (proj1 (read_output_has_no_outer_quotes W "./terraform" a
                  "ManagementPublicIP" s " 10.0.0.7 " H)).
Defined.
(** ** State Handoff: how staging fails, and what the transfer leaves *)

Lemma chdir_up s up name :
  cwd s = (up ++ [name])%list ->
  FS.is_dir (FS.lookup (fs s) up) = true ->
  chdir ".." s
  = (Ok tt, {| fs := fs s; cwd := up; tick := tick s |}, [Chdir ".."]).
Proof.
  intros Hcwd Hup. unfold chdir. now rewrite Hcwd, resolve_up, Hup.
Qed.

(** X9: staging refuses a target that is in the way.  When a directory
    with the new name already exists and is not empty, as after an
    earlier run for the same cluster identifier, [os.rename] raises;
    the run has only moved up one directory, and neither the rename nor
    the removal of [.terraform] nor the archive has happened. *)
Theorem stage_refuses_existing_target a id s up work e es :
  plain id = true ->
  cwd s = (up ++ ["citc-terraform"])%list ->
  FS.lookup (fs s) (cwd s) = Some (FS.Dir work) ->
  FS.lookup (fs s) (up ++ [new_dir id])%list = Some (FS.Dir (e :: es)) ->
  stage a id s
  = (Raised (OSError "citc-terraform"),
     {| fs := fs s; cwd := up; tick := tick s |},
     [Chdir ".."; Rename "citc-terraform" (new_dir id)]).
Proof.
  intros Hid Hcwd Hwork Hold.
  rewrite Hcwd in Hwork.
  pose proof (is_dir_parent _ _ _ _ Hwork) as Hup.
  unfold stage. fold (new_dir id).
  rewrite (bind_step _ _ s tt _ _ (chdir_up s up _ Hcwd Hup)).
  rewrite (bind_stop _ _ _ (OSError "citc-terraform")
             {| fs := fs s; cwd := up; tick := tick s |}
             [Rename "citc-terraform" (new_dir id)]); [reflexivity|].
  unfold rename. cbn [fs cwd].
  rewrite (new_dir_resolves up id Hid).
  change (FS.resolve up "citc-terraform") with (up ++ ["citc-terraform"])%list.
  unfold FS.rename. rewrite Hwork, Hold. reflexivity.
Qed.

Lemma stage_refuses_existing_target_witness :
  let a := Demo.arguments true in
  let s := {| fs := FS.Dir [("citc-terraform", FS.Dir [("aws", FS.Dir [])]);
                            ("citc-terraform-test-cluster",
                             FS.Dir [("citc-key", FS.File "PRIVATE")])];
              cwd := ["citc-terraform"]; tick := 3 |} in
  plain "test-cluster" = true
  /\ result (stage a "test-cluster" s) = Raised (OSError "citc-terraform")
  /\ fs (final (stage a "test-cluster" s)) = fs s.
Proof.
  intros a s.
  pose proof (stage_refuses_existing_target a "test-cluster" s []
                [("aws", FS.Dir [])] ("citc-key", FS.File "PRIVATE") []
                eq_refl eq_refl eq_refl eq_refl) as H.
  split; [reflexivity|]. rewrite H. split; reflexivity.
Defined.

Lemma citc_terraform_is_not_new_dir id : "citc-terraform" <> new_dir id.
Proof. unfold new_dir. simpl. discriminate. Qed.

(** X10: the removal of [.terraform] is not forgiving.  When the working
    tree has no directory [aws/.terraform], [shutil.rmtree] raises, and it
    does so after the rename: the tree is already under its new name and
    the old name is gone. *)
Theorem stage_fails_after_rename a id s up work :
  csp a = "aws" ->
  plain id = true ->
  cwd s = (up ++ ["citc-terraform"])%list ->
  FS.lookup (fs s) (cwd s) = Some work ->
  FS.lookup (fs s) (up ++ [new_dir id])%list = None ->
  FS.is_dir (FS.lookup work ["aws"; ".terraform"]) = false ->
  result (stage a id s)
  = Raised (OSError (path_join (path_join (new_dir id) "aws") ".terraform"))
  /\ events (stage a id s)
     = [ Chdir ".."; Rename "citc-terraform" (new_dir id);
         Rmtree (path_join (path_join (new_dir id) "aws") ".terraform") ]
  /\ FS.lookup (fs (final (stage a id s))) (up ++ [new_dir id])%list = Some work
  /\ FS.lookup (fs (final (stage a id s))) (up ++ ["citc-terraform"])%list = None.
Proof.
  intros Hcsp Hid Hcwd Hwork Hfree Hcache.
  rewrite Hcwd in Hwork.
  pose proof (is_dir_parent _ _ _ _ Hwork) as Hup.
  destruct (modify_succeeds up (fs s) "citc-terraform" None Hup)
    as (r1 & Hr1 & Hup1).
  destruct (modify_succeeds up r1 (new_dir id) (Some work) Hup1)
    as (t1 & Ht1 & _).
  pose proof (FSFacts.lookup_modify_same _ _ _ _ Ht1) as Hmoved.
  set (s1 := {| fs := fs s; cwd := up; tick := tick s |}).
  assert (E2 : rename "citc-terraform" (new_dir id) s1
               = (Ok tt, set_fs s1 t1, [Rename "citc-terraform" (new_dir id)])).
  { unfold rename. cbn [fs cwd s1].
    rewrite (new_dir_resolves up id Hid).
    change (FS.resolve up "citc-terraform") with (up ++ ["citc-terraform"])%list.
    unfold FS.rename. rewrite Hwork, Hfree, Hr1, Ht1. reflexivity. }
  assert (E3 : rmtree (path_join (path_join (new_dir id) "aws") ".terraform")
                 false (set_fs s1 t1)
               = (Raised (OSError (path_join (path_join (new_dir id) "aws")
                                     ".terraform")),
                  set_fs s1 t1,
                  [Rmtree (path_join (path_join (new_dir id) "aws") ".terraform")])).
  { unfold rmtree. cbn [fs cwd s1 set_fs].
    rewrite (cache_dir_resolves up id Hid).
    now rewrite FSFacts.lookup_app, Hmoved, Hcache. }
  assert (Hrun : stage a id s
                 = (Raised (OSError (path_join (path_join (new_dir id) "aws")
                                       ".terraform")),
                    set_fs s1 t1,
                    [ Chdir ".."; Rename "citc-terraform" (new_dir id);
                      Rmtree (path_join (path_join (new_dir id) "aws")
                                ".terraform") ])).
  { unfold stage. rewrite Hcsp. fold (new_dir id).
    rewrite (bind_step _ _ s tt _ _ (chdir_up s up _ Hcwd Hup)). fold s1.
    rewrite (bind_step _ _ s1 tt _ _ E2).
    now rewrite (bind_stop _ _ _ _ _ _ E3). }
  rewrite Hrun. cbn [result final events fst snd fs set_fs].
  split; [reflexivity|]. split; [reflexivity|]. split; [exact Hmoved|].
  rewrite (lookup_modify_sibling_under up r1 (new_dir id) [] (Some work) t1
             "citc-terraform" [] Ht1) by apply citc_terraform_is_not_new_dir.
  exact (FSFacts.lookup_modify_same _ _ _ _ Hr1).
Qed.

Lemma stage_fails_after_rename_witness :
  let a := Demo.arguments true in
  let work := FS.Dir [("aws", FS.Dir [("terraform.tfvars", FS.File "x")])] in
  let s := {| fs := FS.Dir [("citc-terraform", work)];
              cwd := ["citc-terraform"]; tick := 3 |} in
  FS.is_dir (FS.lookup work ["aws"; ".terraform"]) = false
  /\ result (stage a "abc" s)
     = Raised (OSError "citc-terraform-abc/aws/.terraform")
  /\ FS.lookup (fs (final (stage a "abc" s))) ["citc-terraform-abc"] = Some work
  /\ FS.lookup (fs (final (stage a "abc" s))) ["citc-terraform"] = None.
Proof.
  intros a work s.
  destruct (stage_fails_after_rename a "abc" s [] work
              eq_refl eq_refl eq_refl eq_refl eq_refl eq_refl)
    as (Hres & _ & Hnew & Hold).
  split; [reflexivity|]. split; [exact Hres|]. split; [exact Hnew | exact Hold].
Defined.

Lemma upload_keeps_cwd W kp zip ip : forall fuel s,
  cwd (final (upload W fuel kp zip ip s)) = cwd s.
Proof.
  induction fuel as [|fuel IH]; intros s; [reflexivity|].
  destruct (spawn W (tick s) (scp_command kp zip ip)) as [[rc out]|] eqn:Hs.
  - destruct (Z.eqb_spec rc 0) as [->|Hrc].
    + now rewrite (upload_step_ok W kp zip ip fuel s out Hs).
    + rewrite (upload_step_fail W kp zip ip fuel s rc out Hs Hrc).
      cbn [final fst snd]. now rewrite IH.
  - cbn [upload]. rewrite final_bind.
    unfold call, run_process. rewrite result_bind, final_bind.
    cbn [result final fst snd]. rewrite Hs. reflexivity.
Qed.

Lemma remove_ok p s :
  result (remove p s) = Ok tt ->
  FS.lookup (fs (final (remove p s))) (FS.resolve (cwd s) p) = None
  /\ cwd (final (remove p s)) = cwd s.
Proof.
  unfold remove. destruct (FS.is_file _); [|discriminate].
  destruct (FS.modify _ _ _) as [t|] eqn:E; [|discriminate].
  intros _. split; [|reflexivity].
  exact (FSFacts.lookup_modify_same _ _ _ _ E).
Qed.

(** X11: a transfer that ends normally leaves no archive behind: the file
    [citc-terraform.tar.gz] it built in the current directory is gone
    again, in a dry run as after a real upload, and the current directory
    is the one it started in. *)
Theorem transfer_removes_archive W fuel a dir kp ip s :
  result (transfer W fuel a dir kp ip s) = Ok tt ->
  FS.lookup (fs (final (transfer W fuel a dir kp ip s)))
    (FS.resolve (cwd s) "citc-terraform.tar.gz") = None
  /\ cwd (final (transfer W fuel a dir kp ip s)) = cwd s.
Proof.
  unfold transfer. intros H.
  apply bind_ok in H as (zip & Hmk & H & Hf). rewrite Hf. clear Hf.
  destruct (make_archive_ok _ _ _ _ _ Hmk) as (Hzip & _ & _ & Hcwd).
  set (s1 := final (make_archive "citc-terraform" "gztar" "." dir s)) in *.
  apply bind_ok in H as ([] & Hup & Hrm & Hf). rewrite Hf. clear Hf.
  assert (Hc2 : cwd (final ((if negb (dry_run a)
                             then upload W fuel kp zip ip
                             else print ("... pretending to upload the config "
                                           ++ zip ++ " to the cluster ...")) s1))
                = cwd s).
  { destruct (negb (dry_run a)); [now rewrite upload_keeps_cwd | exact Hcwd]. }
  destruct (remove_ok _ _ Hrm) as (Hgone & Hc3).
  rewrite Hc2 in Hc3. rewrite (resolve_render _ _ _ Hzip) in Hgone.
  split; assumption.
Qed.

Lemma transfer_removes_archive_witness :
  let W := Demo.world "linux" "terraform-master" "1.2.3.4" "abc" 1 in
  let s := {| fs := FS.Dir [("citc-terraform-abc", FS.Dir [])];
              cwd := []; tick := 7 |} in
  let r := transfer W 4 (Demo.arguments false) "citc-terraform-abc"
             "citc-terraform-abc/citc-key" "1.2.3.4" s in
  result r = Ok tt
  /\ FS.lookup (fs (final r)) ["citc-terraform.tar.gz"] = None.
Proof.
  intros W s r.
  assert (H : result r = Ok tt) by (vm_compute; reflexivity).
  split; [exact H|].
  exact (proj1 (transfer_removes_archive W 4 (Demo.arguments false)
                  "citc-terraform-abc" "citc-terraform-abc/citc-key"
                  "1.2.3.4" s H)).
Defined.
(** ** The order of the provisioning steps *)

Lemma main_split_apply W fuel c s :
  main W fuel c s = bind (before_apply W c) (after_validate W fuel) s.
Proof.
  unfold main, before_apply.
  repeat (rewrite bind_assoc; apply bind_ext; intros).
  rewrite bind_ret_l. reflexivity.
Qed.

Lemma bind_ok_events {A B} (m : M A) (f : A -> M B) s b :
  result (bind m f s) = Ok b ->
  exists a,
    result (m s) = Ok a
    /\ result (f a (final (m s))) = Ok b
    /\ events (bind m f s)
       = (events (m s) ++ events (f a (final (m s))))%list.
Proof.
  rewrite result_bind, events_bind.
  destruct (result (m s)) as [a| | |]; try discriminate.
  intros H. exists a. auto.
Qed.

Lemma check_call_inv W argv s :
  result (check_call W argv s) = Ok tt ->
  exists out, spawn W (tick s) argv = Some (0%Z, out).
Proof.
  unfold check_call, run_process. rewrite result_bind. cbn [result fst].
  destruct (spawn W (tick s) argv) as [[rc out]|]; [|discriminate].
  cbn [result final fst snd]. destruct (Z.eqb_spec rc 0) as [->|]; [|discriminate].
  intros _. now exists out.
Qed.

Lemma init_validate_ok W a s :
  csp a = "aws" ->
  result (init_validate W "./terraform" a s) = Ok tt ->
  events (init_validate W "./terraform" a s) = [Exec init_argv; Exec validate_argv]
  /\ (exists t out, spawn W t init_argv = Some (0%Z, out))
  /\ (exists t out, spawn W t validate_argv = Some (0%Z, out)).
Proof.
  intros Hcsp H. unfold init_validate, tf in *. rewrite Hcsp in *.
  change ["./terraform"; "-chdir=" ++ "aws"; "init"] with init_argv in *.
  change ["./terraform"; "-chdir=" ++ "aws"; "validate"] with validate_argv in *.
  apply bind_ok_events in H as ([] & H1 & H2 & Hev).
  rewrite Hev, !events_check_call.
  split; [reflexivity|]. split.
  - destruct (check_call_inv _ _ _ H1) as (out & Hs). eauto.
  - destruct (check_call_inv _ _ _ H2) as (out & Hs). eauto.
Qed.

Lemma config_file_ok_log a s :
  result (config_file "aws" a s) = Ok tt ->
  exists text,
    events (config_file "aws" a s)
    = [ ReadFile "aws/terraform.tfvars"; ReadFile "citc-key.pub";
        WriteFile "aws/terraform.tfvars" text ].
Proof.
  unfold config_file.
  change (path_join "aws" "terraform.tfvars") with "aws/terraform.tfvars".
  change (String.eqb "aws" "aws") with true. cbv iota.
  intros H.
  apply bind_ok_events in H as (config & _ & H & Hev). rewrite Hev. clear Hev.
  apply bind_ok_events in H as (text & Haws & H & Hev). rewrite Hev. clear Hev.
  unfold aws_config_file in Haws |- *.
  apply bind_ok_events in Haws as (pub & _ & _ & Hev). rewrite Hev. clear Hev.
  rewrite !events_read_file, events_write_file. cbn [events snd ret app].
  eexists. reflexivity.
Qed.

Lemma not_apply_check_command a : Exec (check_command a) <> Exec apply_argv.
Proof.
  unfold check_command.
  destruct (PyStr.truthy (profile a)), (PyStr.truthy (region a)); discriminate.
Qed.

Lemma before_apply_spec W c :
  hoare (fun e => e <> Exec apply_argv) (before_apply W c)
    (fun x => csp (fst x) = "aws" /\ dry_run (fst x) = cli_dry_run c
              /\ snd x = "./terraform").
Proof.
  unfold before_apply.
  eapply hoare_bind; [apply parse_args_checked; discriminate|].
  intros a (Hcsp & Ha & _).
  eapply hoare_bind; [apply hoare_emits; emits; discriminate | intros _ _].
  eapply hoare_bind;
    [apply hoare_emits; unfold preflight; emits;
     try discriminate; apply not_apply_check_command
    | intros _ _].
  eapply hoare_bind;
    [apply hoare_emits; unfold fetch_infra; emits; discriminate | intros _ _].
  eapply hoare_bind;
    [apply download_terraform_path; discriminate | intros terraform ->].
  eapply hoare_bind;
    [apply hoare_emits; unfold ensure_key; emits; discriminate | intros _ _].
  eapply hoare_bind;
    [apply hoare_emits; unfold init_validate, tf; rewrite Hcsp; emits;
     discriminate
    | intros _ _].
  eapply hoare_bind;
    [apply hoare_emits; unfold config_file, aws_config_file; emits;
     discriminate
    | intros _ _].
  eapply hoare_post; [apply hoare_ret|].
  intros x ->. auto.
Qed.

Lemma before_apply_log W c s a terraform :
  result (before_apply W c s) = Ok (a, terraform) ->
  csp a = "aws" ->
  terraform = "./terraform" ->
  (exists pre text,
      events (before_apply W c s)
      = (pre ++ [ Exec init_argv; Exec validate_argv;
                  ReadFile "aws/terraform.tfvars"; ReadFile "citc-key.pub";
                  WriteFile "aws/terraform.tfvars" text ])%list)
  /\ (exists t out, spawn W t init_argv = Some (0%Z, out))
  /\ (exists t out, spawn W t validate_argv = Some (0%Z, out)).
Proof.
  unfold before_apply. intros H Hcsp ->.
  apply bind_ok_events in H as (a0 & _ & H & E1).
  apply bind_ok_events in H as ([] & _ & H & E2).
  apply bind_ok_events in H as ([] & _ & H & E3).
  apply bind_ok_events in H as ([] & _ & H & E4).
  apply bind_ok_events in H as (tf0 & _ & H & E5).
  apply bind_ok_events in H as ([] & _ & H & E6).
  apply bind_ok_events in H as ([] & Hiv & H & E7).
  apply bind_ok_events in H as ([] & Hcfg & H & E8).
  injection H as Ea Et. subst a0 tf0.
  try rewrite Hcsp in Hcfg. try rewrite Hcsp in E1. try rewrite Hcsp in E2.
  try rewrite Hcsp in E3. try rewrite Hcsp in E4. try rewrite Hcsp in E5.
  try rewrite Hcsp in E6. try rewrite Hcsp in E7. try rewrite Hcsp in E8.
  destruct (init_validate_ok W a _ Hcsp Hiv) as (Eiv & Hinit & Hval).
  destruct (config_file_ok_log a _ Hcfg) as (text & Ecfg).
  rewrite Ecfg in E8. rewrite Eiv in E7.
  rewrite E1, E2, E3, E4, E5, E6, E7, E8. cbn [events snd ret].
  split; [|split; assumption].
  eexists. exists text. rewrite app_nil_r.
  rewrite !app_assoc. rewrite <- (app_assoc _ [Exec init_argv; Exec validate_argv]).
  reflexivity.
Qed.

Lemma dry_after_validate W fuel a :
  dry_run a = true ->
  emits_only (fun e => e <> Exec apply_argv)
    (after_validate W fuel (a, "./terraform")).
Proof.
  intros Ha. unfold after_validate, create_cluster, handoff, stage, transfer,
    summary. cbn [fst snd]. rewrite Ha. cbn [negb]. emits; discriminate.
Qed.

Lemma wet_after_validate W fuel a s :
  csp a = "aws" ->
  dry_run a = false ->
  exists post,
    events (after_validate W fuel (a, "./terraform") s) = Exec apply_argv :: post.
Proof.
  intros Hcsp Ha. unfold after_validate, create_cluster. cbn [fst snd].
  rewrite Ha. cbn [negb]. unfold tf. rewrite Hcsp.
  change ["./terraform"; "-chdir=" ++ "aws"; "apply"; "-auto-approve"]
    with apply_argv.
  rewrite !events_bind, events_check_call. cbn [app]. eexists. reflexivity.
Qed.

(** X12: [terraform apply] is never the first thing the tool is asked to
    do.  Whenever the log of a run holds the apply command, everything
    before it is there too: [init] and [validate] were started and both
    exited zero, the variable file was written, and apply was not started
    before that. *)
Theorem apply_only_after_validate W fuel c s :
  In (Exec apply_argv) (events (main W fuel c s)) ->
  exists pre post text,
    events (main W fuel c s) = (pre ++ Exec apply_argv :: post)%list
    /\ ~ In (Exec apply_argv) pre
    /\ In (Exec init_argv) pre
    /\ In (Exec validate_argv) pre
    /\ In (WriteFile "aws/terraform.tfvars" text) pre
    /\ (exists t out, spawn W t init_argv = Some (0%Z, out))
    /\ (exists t out, spawn W t validate_argv = Some (0%Z, out)).
Proof.
  rewrite main_split_apply, events_bind.
  destruct (before_apply_spec W c s) as [Hpre Hpost].
  assert (Hno : ~ In (Exec apply_argv) (events (before_apply W c s))).
  { intros Hin. rewrite Forall_forall in Hpre. now apply (Hpre _ Hin). }
  destruct (result (before_apply W c s)) as [[a terraform]| | |] eqn:R.
  - destruct (Hpost _ eq_refl) as (Hcsp & _ & Htf). cbn [fst snd] in Hcsp, Htf.
    subst terraform.
    destruct (before_apply_log W c s a _ R Hcsp eq_refl)
      as ((pre & text & Elog) & Hinit & Hval).
    intros Hin. apply in_app_or in Hin as [Hin|Hin]; [contradiction|].
    destruct (dry_run a) eqn:Ha.
    + exfalso. pose proof (dry_after_validate W fuel a Ha
                             (final (before_apply W c s))) as Hdry.
      rewrite Forall_forall in Hdry. now apply (Hdry _ Hin).
    + destruct (wet_after_validate W fuel a (final (before_apply W c s)) Hcsp Ha)
        as (post & Epost).
      exists (events (before_apply W c s)), post, text.
      rewrite Epost. split; [reflexivity|]. split; [exact Hno|].
      rewrite Elog.
      split; [apply in_or_app; right; simpl; auto|].
      split; [apply in_or_app; right; simpl; auto|].
      split; [apply in_or_app; right; simpl; auto 6|].
      split; assumption.
  - rewrite app_nil_r. intros Hin. contradiction.
  - rewrite app_nil_r. intros Hin. contradiction.
  - rewrite app_nil_r. intros Hin. contradiction.
Qed.

Lemma apply_only_after_validate_witness :
  let W := Demo.world "linux" "terraform-master" "1.2.3.4" "abc" 0 in
  let c := Demo.request "aws" false in
  let s := Demo.start (FS.Dir []) in
  In (Exec apply_argv) (events (main W 2 c s))
  /\ exists pre post,
      events (main W 2 c s) = (pre ++ Exec apply_argv :: post)%list
      /\ In (Exec validate_argv) pre.
Proof.
  intros W c s.
  assert (Hin : In (Exec apply_argv) (events (main W 2 c s))).
  { vm_compute. do 18 right. left. reflexivity. }
  split; [exact Hin|].
  destruct (apply_only_after_validate W 2 c s Hin)
    as (pre & post & text & E & _ & _ & Hv & _).
  exists pre, post. split; assumption.
Defined.

(** ** How a run can exit *)

Ltac break_inner :=
  match goal with
  | |- context [match ?x with _ => _ end] =>
      lazymatch x with
      | context [match _ with _ => _ end] => fail
      | context [if _ then _ else _] => fail
      | _ => destruct x eqn:?
      end
  | |- context [if ?x then _ else _] =>
      lazymatch x with
      | context [match _ with _ => _ end] => fail
      | context [if _ then _ else _] => fail
      | _ => destruct x eqn:?
      end
  end.

Ltac no_exit_call :=
  cbv zeta; repeat (break_inner; cbn [fst snd]); cbn [fst snd]; discriminate.

Section NeverExits.

Lemma never_exits_bind {A B} (m : M A) (f : A -> M B) :
  never_exits m -> (forall a, never_exits (f a)) -> never_exits (bind m f).
Proof.
  intros Hm Hf s code. rewrite result_bind. specialize (Hm s).
  destruct (result (m s)) as [a|e|c|]; try discriminate.
  - apply Hf.
  - now elim (Hm c).
Qed.

Lemma never_exits_ret {A} (a : A) : never_exits (ret a).
Proof. intros s code. discriminate. Qed.

Lemma never_exits_raise {A} e : never_exits (@raise A e).
Proof. intros s code. discriminate. Qed.

Lemma never_exits_emit e : never_exits (emit e).
Proof. intros s code. discriminate. Qed.

Lemma never_exits_diverge {A} : never_exits (@diverge A).
Proof. intros s code. discriminate. Qed.

Lemma never_exits_isfile p : never_exits (isfile p).
Proof. intros s code. discriminate. Qed.

Lemma never_exits_if {A} (c : bool) (m1 m2 : M A) :
  never_exits m1 -> never_exits m2 -> never_exits (if c then m1 else m2).
Proof. now destruct c. Qed.

Lemma never_exits_run_process W argv : never_exits (run_process W argv).
Proof. intros s code. unfold run_process, result. no_exit_call. Qed.

Lemma never_exits_urlretrieve W url : never_exits (urlretrieve W url).
Proof. intros s code. unfold urlretrieve, result. no_exit_call. Qed.

Lemma never_exits_extractall d : never_exits (extractall d).
Proof. intros s code. unfold extractall, result. no_exit_call. Qed.

Lemma never_exits_rmtree p b : never_exits (rmtree p b).
Proof. intros s code. unfold rmtree, result. no_exit_call. Qed.

Lemma never_exits_rename a b : never_exits (rename a b).
Proof. intros s code. unfold rename, result. no_exit_call. Qed.

Lemma never_exits_chdir p : never_exits (chdir p).
Proof. intros s code. unfold chdir, result. no_exit_call. Qed.

Lemma never_exits_read_file p : never_exits (read_file p).
Proof. intros s code. unfold read_file, result. no_exit_call. Qed.

Lemma never_exits_write_file p t : never_exits (write_file p t).
Proof. intros s code. unfold write_file, result. no_exit_call. Qed.

Lemma never_exits_chmod p : never_exits (chmod p).
Proof. intros s code. unfold chmod, result. no_exit_call. Qed.

Lemma never_exits_make_archive b f r d : never_exits (make_archive b f r d).
Proof. intros s code. unfold make_archive, result. no_exit_call. Qed.

Lemma never_exits_remove p : never_exits (remove p).
Proof. intros s code. unfold remove, result. no_exit_call. Qed.

End NeverExits.

Ltac no_exit_step :=
  first
    [ apply never_exits_ret | apply never_exits_raise | apply never_exits_emit
    | apply never_exits_diverge | apply never_exits_isfile
    | apply never_exits_run_process | apply never_exits_urlretrieve
    | apply never_exits_extractall | apply never_exits_rmtree
    | apply never_exits_rename | apply never_exits_chdir
    | apply never_exits_read_file | apply never_exits_write_file
    | apply never_exits_chmod | apply never_exits_make_archive
    | apply never_exits_remove
    | apply never_exits_if
    | apply never_exits_bind; [|intros] ].

Ltac no_exit := repeat no_exit_step.

Lemma never_exits_upload W kp zip ip fuel :
  never_exits (upload W fuel kp zip ip).
Proof.
  induction fuel as [|fuel IH]; cbn [upload]; [apply never_exits_diverge|].
  unfold call, print, sleep. no_exit. exact IH.
Qed.

Lemma never_exits_after_preflight W fuel a :
  never_exits (after_preflight W fuel a).
Proof.
  unfold after_preflight.
  apply never_exits_bind; [unfold fetch_infra, print; no_exit | intros _].
  apply never_exits_bind;
    [unfold download_terraform, tf_platform, sys_platform, print; no_exit
    | intros terraform].
  apply never_exits_bind;
    [unfold ensure_key, when, check_call; no_exit | intros _].
  apply never_exits_bind; [unfold init_validate, check_call; no_exit | intros _].
  apply never_exits_bind;
    [unfold config_file, aws_config_file; no_exit | intros _].
  apply never_exits_bind;
    [unfold create_cluster, read_output, check_call, check_output, decode, print;
     no_exit
    | intros outputs].
  apply never_exits_bind; [|intros kp; unfold summary, print; no_exit].
  unfold handoff, stage, transfer, print. no_exit. apply never_exits_upload.
Qed.

(** What the handler of the preflight makes of a failed probe. *)
Lemma preflight_failed_probe W a s rc out :
  dry_run a = false ->
  spawn W (tick s) (check_command a) = Some (rc, out) ->
  rc <> 0%Z ->
  result (preflight W a s)
  = if PyStr.utf8_valid out
    then if PyStr.contains "DryRunOperation" out then Ok tt else Exited 1
    else Raised (UnicodeDecodeError out).
Proof.
  intros Hdry Hspawn Hrc. unfold preflight. rewrite Hdry. cbn [negb when].
  unfold try_except_called.
  rewrite (bind_stop _ _ s _ _ _ (check_output_fails W _ s rc out Hspawn Hrc)).
  unfold when, decode.
  destruct (PyStr.utf8_valid out); [|reflexivity].
  unfold bind, ret, print, emit, exit.
  destruct (PyStr.contains "RequestExpired" out);
    destruct (PyStr.contains "DryRunOperation" out); reflexivity.
Qed.

Lemma preflight_exit W a s code :
  result (preflight W a s) = Exited code ->
  code = 1%Z
  /\ dry_run a = false
  /\ exists rc out,
      spawn W (tick s) (check_command a) = Some (rc, out)
      /\ rc <> 0%Z
      /\ PyStr.utf8_valid out = true
      /\ PyStr.contains "DryRunOperation" out = false.
Proof.
  destruct (dry_run a) eqn:Hdry.
  { unfold preflight. rewrite Hdry. discriminate. }
  destruct (spawn W (tick s) (check_command a)) as [[rc out]|] eqn:Hs.
  - destruct (Z.eqb_spec rc 0) as [->|Hrc].
    + unfold preflight. rewrite Hdry. cbn [negb when].
      unfold try_except_called.
      rewrite (bind_step _ _ s out (ran W (check_command a) s)
                 [Exec (check_command a)]).
      * discriminate.
      * unfold check_output, bind, run_process. rewrite Hs. reflexivity.
    + rewrite (preflight_failed_probe W a s rc out Hdry Hs Hrc).
      destruct (PyStr.utf8_valid out) eqn:Hv; [|discriminate].
      destruct (PyStr.contains "DryRunOperation" out) eqn:Hm; [discriminate|].
      intros H. injection H as <-. split; [reflexivity|].
      split; [reflexivity|]. exists rc, out. auto.
  - unfold preflight. rewrite Hdry. cbn [negb when].
    unfold try_except_called.
    rewrite (bind_stop _ _ s (OSError (hd "" (check_command a))) s
               [Exec (check_command a)]).
    + discriminate.
    + unfold check_output, bind, run_process. rewrite Hs. reflexivity.
Qed.

(** X13: once the command line has been parsed, a run is ended by a call
    of [exit] in one way only: with status 1, in the credential preflight
    of a run that is not a dry run, after a probe that exited non-zero
    with an output that decodes and does not hold the dry-run marker.
    Nothing after the preflight calls [exit]. *)
Theorem exit_after_parsing W fuel c s a code :
  result (parse_args c s) = Ok a ->
  result (main W fuel c s) = Exited code ->
  code = 1%Z
  /\ dry_run a = false
  /\ exists rc out,
      spawn W (tick s) (check_command a) = Some (rc, out)
      /\ rc <> 0%Z
      /\ PyStr.utf8_valid out = true
      /\ PyStr.contains "DryRunOperation" out = false.
Proof.
  intros Hp H.
  change (main W fuel c s)
    with (bind (parse_args c)
            (fun a => print "Installing Cluster in the Cloud on AWS" ;;
                      preflight W a ;; after_preflight W fuel a) s) in H.
  rewrite (bind_step _ _ s a s [] (parse_args_run c s a Hp)) in H.
  cbn [result fst] in H.
  rewrite result_bind in H. cbn [print emit result final fst snd] in H.
  rewrite result_bind in H.
  destruct (result (preflight W a s)) as [[]|e|code0|] eqn:Hpre;
    try discriminate.
  - now apply never_exits_after_preflight in H.
  - injection H as ->. exact (preflight_exit W a s code Hpre).
Qed.

Lemma exit_after_parsing_witness :
  let W := {| platform := "linux";
              spawn := fun _ _ => Some (254%Z, "An error occurred (AuthFailure)");
              effect := fun _ _ _ t => t;
              fetch := fun _ => None |} in
  let c := Demo.request "aws" false in
  let s := Demo.start (FS.Dir []) in
  result (parse_args c s) = Ok (Demo.arguments false)
  /\ result (main W 3 c s) = Exited 1
  /\ exists rc out,
      spawn W (tick s) (check_command (Demo.arguments false)) = Some (rc, out)
      /\ rc <> 0%Z
      /\ PyStr.utf8_valid out = true
      /\ PyStr.contains "DryRunOperation" out = false.
Proof.
  intros W c s.
  assert (H : result (main W 3 c s) = Exited 1) by (vm_compute; reflexivity).
  split; [reflexivity|]. split; [exact H|].
  exact (proj2 (proj2 (exit_after_parsing W 3 c s (Demo.arguments false) 1%Z
                         eq_refl H))).
Defined.

(** ** The working directory of the run *)

Section KeepsCwd.

Lemma keeps_cwd_bind {A B} (m : M A) (f : A -> M B) :
  keeps_cwd m -> (forall a, keeps_cwd (f a)) -> keeps_cwd (bind m f).
Proof.
  intros Hm Hf s. rewrite final_bind.
  destruct (result (m s)); try apply Hm.
  rewrite Hf. apply Hm.
Qed.

Lemma keeps_cwd_ret {A} (a : A) : keeps_cwd (ret a).
Proof. intros s. reflexivity. Qed.

Lemma keeps_cwd_raise {A} e : keeps_cwd (@raise A e).
Proof. intros s. reflexivity. Qed.

Lemma keeps_cwd_exit {A} code : keeps_cwd (@exit A code).
Proof. intros s. reflexivity. Qed.

Lemma keeps_cwd_emit e : keeps_cwd (emit e).
Proof. intros s. reflexivity. Qed.

Lemma keeps_cwd_diverge {A} : keeps_cwd (@diverge A).
Proof. intros s. reflexivity. Qed.

Lemma keeps_cwd_isfile p : keeps_cwd (isfile p).
Proof. intros s. reflexivity. Qed.

Lemma keeps_cwd_if {A} (c : bool) (m1 m2 : M A) :
  keeps_cwd m1 -> keeps_cwd m2 -> keeps_cwd (if c then m1 else m2).
Proof. now destruct c. Qed.

Lemma keeps_cwd_try {A} (m : M A) h :
  keeps_cwd m -> (forall rc out, keeps_cwd (h rc out)) ->
  keeps_cwd (try_except_called m h).
Proof.
  intros Hm Hh s. unfold try_except_called.
  specialize (Hm s). destruct (m s) as [[r s1] t1].
  destruct r as [a|e|code|]; try exact Hm.
  destruct e; try exact Hm.
  specialize (Hh returncode output s1).
  destruct (h returncode output s1) as [[r2 s2] t2].
  cbn [final fst snd] in *. congruence.
Qed.

Ltac keeps_prim :=
  cbv zeta; repeat (break_inner; cbn [fst snd]); reflexivity.

Lemma keeps_cwd_run_process W argv : keeps_cwd (run_process W argv).
Proof. intros s. unfold run_process, final. keeps_prim. Qed.

Lemma keeps_cwd_urlretrieve W url : keeps_cwd (urlretrieve W url).
Proof. intros s. unfold urlretrieve, final. keeps_prim. Qed.

Lemma keeps_cwd_extractall d : keeps_cwd (extractall d).
Proof. intros s. unfold extractall, final. keeps_prim. Qed.

Lemma keeps_cwd_rmtree p b : keeps_cwd (rmtree p b).
Proof. intros s. unfold rmtree, final. keeps_prim. Qed.

Lemma keeps_cwd_rename a b : keeps_cwd (rename a b).
Proof. intros s. unfold rename, final. keeps_prim. Qed.

Lemma keeps_cwd_read_file p : keeps_cwd (read_file p).
Proof. intros s. unfold read_file, final. keeps_prim. Qed.

Lemma keeps_cwd_write_file p t : keeps_cwd (write_file p t).
Proof. intros s. unfold write_file, final. keeps_prim. Qed.

Lemma keeps_cwd_chmod p : keeps_cwd (chmod p).
Proof. intros s. unfold chmod, final. keeps_prim. Qed.

Lemma keeps_cwd_make_archive b f r d : keeps_cwd (make_archive b f r d).
Proof. intros s. unfold make_archive, final. keeps_prim. Qed.

Lemma keeps_cwd_remove p : keeps_cwd (remove p).
Proof. intros s. unfold remove, final. keeps_prim. Qed.

End KeepsCwd.

Ltac keeps_step :=
  first
    [ apply keeps_cwd_ret | apply keeps_cwd_raise | apply keeps_cwd_exit
    | apply keeps_cwd_emit | apply keeps_cwd_diverge | apply keeps_cwd_isfile
    | apply keeps_cwd_run_process | apply keeps_cwd_urlretrieve
    | apply keeps_cwd_extractall | apply keeps_cwd_rmtree
    | apply keeps_cwd_rename | apply keeps_cwd_read_file
    | apply keeps_cwd_write_file | apply keeps_cwd_chmod
    | apply keeps_cwd_make_archive | apply keeps_cwd_remove
    | apply keeps_cwd_try; [|intros]
    | apply keeps_cwd_if
    | apply keeps_cwd_bind; [|intros] ].

Ltac keeps := repeat keeps_step.

Lemma keeps_cwd_upload W kp zip ip fuel : keeps_cwd (upload W fuel kp zip ip).
Proof.
  induction fuel as [|fuel IH]; cbn [upload]; [apply keeps_cwd_diverge|].
  unfold call, print, sleep. keeps. exact IH.
Qed.

Lemma keeps_cwd_parse_args c : keeps_cwd (parse_args c).
Proof. unfold parse_args. keeps. Qed.

Lemma keeps_cwd_download_terraform W version :
  keeps_cwd (download_terraform W version).
Proof.
  unfold download_terraform, tf_platform, sys_platform, print. keeps.
Qed.

Lemma keeps_cwd_ensure_key W : keeps_cwd (ensure_key W).
Proof. unfold ensure_key, when, check_call. keeps. Qed.

Lemma keeps_cwd_init_validate W terraform a :
  keeps_cwd (init_validate W terraform a).
Proof. unfold init_validate, check_call. keeps. Qed.

Lemma keeps_cwd_config_file provider a : keeps_cwd (config_file provider a).
Proof. unfold config_file, aws_config_file. keeps. Qed.

Lemma keeps_cwd_create_cluster W terraform a :
  keeps_cwd (create_cluster W terraform a).
Proof.
  unfold create_cluster, read_output, check_call, check_output, print. keeps.
Qed.

Lemma keeps_cwd_transfer W fuel a dir kp ip :
  keeps_cwd (transfer W fuel a dir kp ip).
Proof. unfold transfer, print. keeps. apply keeps_cwd_upload. Qed.

Lemma keeps_cwd_summary a kp ip : keeps_cwd (summary a kp ip).
Proof. intros s. now rewrite summary_run. Qed.

Lemma moves_cwd_bind {A B} g h (m : M A) (f : A -> M B) :
  moves_cwd g m -> (forall a, moves_cwd h (f a)) ->
  moves_cwd (fun d => h (g d)) (bind m f).
Proof.
  intros Hm Hf s b H.
  apply bind_ok in H as (a & Ha & Hb & ->).
  rewrite (Hf a _ b Hb). f_equal. exact (Hm s a Ha).
Qed.

Lemma keeps_cwd_moves {A} (m : M A) : keeps_cwd m -> moves_cwd (fun d => d) m.
Proof. intros H s a _. apply H. Qed.

Lemma moves_cwd_chdir p : moves_cwd (fun d => FS.resolve d p) (chdir p).
Proof. intros s [] H. now rewrite (chdir_ok p s H). Qed.

Lemma moves_cwd_fetch_infra W a :
  moves_cwd (fun d => FS.resolve d "citc-terraform") (fetch_infra W a).
Proof.
  unfold fetch_infra.
  apply (moves_cwd_bind (fun d => d) (fun d => FS.resolve d "citc-terraform"));
    [apply keeps_cwd_moves; unfold print; keeps | intros _].
  apply (moves_cwd_bind (fun d => d) (fun d => FS.resolve d "citc-terraform"));
    [apply keeps_cwd_moves; keeps | intros d].
  apply (moves_cwd_bind (fun d => d) (fun d => FS.resolve d "citc-terraform"));
    [apply keeps_cwd_moves; keeps | intros _].
  apply (moves_cwd_bind (fun d => d) (fun d => FS.resolve d "citc-terraform"));
    [apply keeps_cwd_moves; keeps | intros _].
  apply (moves_cwd_bind (fun d => d) (fun d => FS.resolve d "citc-terraform"));
    [apply keeps_cwd_moves; keeps | intros _].
  apply moves_cwd_chdir.
Qed.

Lemma moves_cwd_stage a id :
  moves_cwd (fun d => FS.resolve d "..") (stage a id).
Proof.
  unfold stage.
  apply (moves_cwd_bind (fun d => FS.resolve d "..") (fun d => d));
    [apply moves_cwd_chdir | intros _].
  apply keeps_cwd_moves. keeps.
Qed.

Lemma moves_cwd_handoff W fuel a ip id :
  moves_cwd (fun d => FS.resolve d "..") (handoff W fuel a ip id).
Proof.
  unfold handoff.
  apply (moves_cwd_bind (fun d => FS.resolve d "..") (fun d => d));
    [apply moves_cwd_stage | intros names].
  apply keeps_cwd_moves.
  apply keeps_cwd_bind; [apply keeps_cwd_transfer | intros _; apply keeps_cwd_ret].
Qed.

Lemma moves_cwd_main W fuel c :
  moves_cwd (fun d => FS.resolve (FS.resolve d "citc-terraform") "..")
    (main W fuel c).
Proof.
  unfold main.
  set (into := fun d => FS.resolve d "citc-terraform").
  set (up := fun d => FS.resolve d "..").
  apply (moves_cwd_bind (fun d => d) (fun d => up (into d)));
    [apply keeps_cwd_moves, keeps_cwd_parse_args | intros a].
  apply (moves_cwd_bind (fun d => d) (fun d => up (into d)));
    [apply keeps_cwd_moves, keeps_cwd_emit | intros _].
  apply (moves_cwd_bind (fun d => d) (fun d => up (into d)));
    [apply keeps_cwd_moves; unfold preflight, when, check_output, print; keeps
    | intros _].
  apply (moves_cwd_bind into up); [apply moves_cwd_fetch_infra | intros _].
  apply (moves_cwd_bind (fun d => d) up);
    [apply keeps_cwd_moves, keeps_cwd_download_terraform | intros terraform].
  apply (moves_cwd_bind (fun d => d) up);
    [apply keeps_cwd_moves, keeps_cwd_ensure_key | intros _].
  apply (moves_cwd_bind (fun d => d) up);
    [apply keeps_cwd_moves, keeps_cwd_init_validate | intros _].
  apply (moves_cwd_bind (fun d => d) up);
    [apply keeps_cwd_moves, keeps_cwd_config_file | intros _].
  apply (moves_cwd_bind (fun d => d) up);
    [apply keeps_cwd_moves, keeps_cwd_create_cluster | intros outputs].
  apply (moves_cwd_bind up (fun d => d));
    [apply moves_cwd_handoff | intros kp].
  apply keeps_cwd_moves, keeps_cwd_summary.
Qed.

(** X17: a run that ends normally ends in the directory it was started
    in: it enters [citc-terraform] after the download and leaves it again
    before the handoff, and nothing else changes the working directory.
    The relative key path the summary prints is therefore relative to the
    directory the script was started from. *)
Theorem run_ends_where_it_started W fuel c s :
  result (main W fuel c s) = Ok tt ->
  cwd (final (main W fuel c s)) = cwd s.
Proof.
  intros H. rewrite (moves_cwd_main W fuel c s tt H).
  rewrite (resolve_plain (cwd s) "citc-terraform"); try reflexivity.
  apply resolve_up.
Qed.

Lemma run_ends_where_it_started_witness :
  let W := Demo.world "linux" "terraform-master" "10.0.0.7" "fast-owl" 1 in
  let c := Demo.request "aws" false in
  let s := {| fs := FS.Dir [("home", FS.Dir [])]; cwd := ["home"]; tick := 0 |} in
  result (main W 3 c s) = Ok tt
  /\ cwd (final (main W 3 c s)) = ["home"].
Proof.
  intros W c s.
  assert (H : result (main W 3 c s) = Ok tt) by (vm_compute; reflexivity).
  split; [exact H|].
  exact (run_ends_where_it_started W 3 c s H).
Defined.

(** ** The log of a run that creates a cluster *)

Lemma read_output_inv W terraform a name s v :
  result (read_output W terraform a name s) = Ok v ->
  exists out,
    spawn W (tick s) (output_command terraform a name) = Some (0%Z, out)
    /\ PyStr.utf8_valid out = true.
Proof.
  unfold read_output, check_output, decode, run_process. rewrite !result_bind.
  cbn [result fst].
  destruct (spawn W (tick s) _) as [[rc out]|]; [|discriminate].
  cbn [result final fst snd].
  destruct (Z.eqb_spec rc 0) as [->|]; [|discriminate].
  cbn [ret result final fst snd].
  destruct (PyStr.utf8_valid out) eqn:Hv; [|discriminate].
  intros _. now exists out.
Qed.

Lemma create_cluster_ok W a s outs :
  csp a = "aws" ->
  dry_run a = false ->
  result (create_cluster W "./terraform" a s) = Ok outs ->
  exists o1 o2,
    spawn W (S (tick s)) (output_argv "ManagementPublicIP") = Some (0%Z, o1)
    /\ PyStr.utf8_valid o1 = true
    /\ spawn W (S (S (tick s))) (output_argv "cluster_id") = Some (0%Z, o2)
    /\ PyStr.utf8_valid o2 = true
    /\ outs = (PyStr.strip_quote (PyStr.strip o1),
               PyStr.strip_quote (PyStr.strip o2))
    /\ events (create_cluster W "./terraform" a s)
       = [ Exec apply_argv; Exec (output_argv "ManagementPublicIP");
           Exec (output_argv "cluster_id") ].
Proof.
  intros Hcsp Ha. unfold create_cluster. rewrite Ha. cbn [negb].
  assert (Eo : forall name, output_command "./terraform" a name = output_argv name)
    by (intros name; unfold output_command, tf; now rewrite Hcsp).
  assert (Ea : tf "./terraform" a ["apply"; "-auto-approve"] = apply_argv)
    by (unfold tf; now rewrite Hcsp).
  rewrite Ea. intros H.
  pose proof H as H0.
  apply bind_ok in H0 as ([] & H1 & _).
  destruct (check_call_inv _ _ _ H1) as (o0 & Hs0).
  rewrite (bind_step _ _ s tt _ _ (check_call_ok W _ s o0 Hs0)) in H |- *.
  cbn [result events fst snd] in H |- *.
  set (s1 := ran W apply_argv s) in *.
  pose proof H as H0.
  apply bind_ok in H0 as (ip & H2 & _).
  destruct (read_output_inv _ _ _ _ _ _ H2) as (o1 & Hs1 & Hv1).
  rewrite (bind_step _ _ s1 _ _ _
             (read_output_run_ok W "./terraform" a _ s1 o1 Hs1 Hv1)) in H |- *.
  cbn [result events fst snd] in H |- *.
  set (s2 := ran W (output_command "./terraform" a "ManagementPublicIP") s1) in *.
  pose proof H as H0.
  apply bind_ok in H0 as (id & H3 & _).
  destruct (read_output_inv _ _ _ _ _ _ H3) as (o2 & Hs2 & Hv2).
  rewrite (bind_step _ _ s2 _ _ _
             (read_output_run_ok W "./terraform" a _ s2 o2 Hs2 Hv2)) in H |- *.
  cbn [result events fst snd ret app] in H |- *.
  injection H as <-.
  rewrite !Eo in *.
  exists o1, o2. repeat split; assumption || reflexivity.
Qed.

Lemma upload_ok W kp zip ip : forall fuel s,
  result (upload W fuel kp zip ip s) = Ok tt ->
  exists k,
    k < fuel
    /\ events (upload W fuel kp zip ip s)
       = (cycles k (scp_command kp zip ip) ++ [Exec (scp_command kp zip ip)])%list.
Proof.
  induction fuel as [|fuel IH]; intros s H; [discriminate|].
  destruct (spawn W (tick s) (scp_command kp zip ip)) as [[rc out]|] eqn:Hs.
  - destruct (Z.eqb_spec rc 0) as [->|Hrc].
    + rewrite (upload_step_ok W kp zip ip fuel s out Hs).
      exists 0. split; [lia | reflexivity].
    + rewrite (upload_step_fail W kp zip ip fuel s rc out Hs Hrc) in H |- *.
      cbn [result events fst snd] in H |- *.
      destruct (IH _ H) as (k & Hk & Hev).
      exists (S k). split; [lia|].
      rewrite Hev. cbn [cycles]. now rewrite <- app_assoc.
  - exfalso. revert H. cbn [upload]. unfold call.
    rewrite !result_bind. unfold run_process, result. rewrite Hs.
    discriminate.
Qed.

Lemma stage_log a id s names :
  csp a = "aws" ->
  result (stage a id s) = Ok names ->
  events (stage a id s) = staging id.
Proof.
  intros Hcsp H. unfold stage in *. rewrite Hcsp in *.
  apply bind_ok_events in H as ([] & _ & H & ->).
  apply bind_ok_events in H as ([] & _ & H & ->).
  apply bind_ok_events in H as ([] & _ & H & ->).
  rewrite events_chdir, events_rename, events_rmtree. reflexivity.
Qed.

Lemma handoff_log W fuel a ip id s kp :
  csp a = "aws" ->
  dry_run a = false ->
  result (handoff W fuel a ip id s) = Ok kp ->
  kp = new_dir id ++ "/citc-key"
  /\ exists k zip,
      k < fuel
      /\ FS.render (FS.resolve (FS.resolve (cwd s) "..") "citc-terraform.tar.gz")
         = Some zip
      /\ events (handoff W fuel a ip id s)
         = (staging id
              ++ archive_call (new_dir id)
              :: cycles k (scp_command kp zip ip)
              ++ [Exec (scp_command kp zip ip); Remove zip])%list.
Proof.
  intros Hcsp Ha. rewrite handoff_unfolded. rewrite Ha. cbn [negb]. intros H.
  apply bind_ok_events in H as (names & Hst & H & ->).
  rewrite (stage_log a id s names Hcsp Hst).
  pose proof (moves_cwd_stage a id s names Hst) as Hcwd. cbv beta in Hcwd.
  apply stage_names in Hst. subst names. cbn [fst snd] in H |- *.
  apply bind_ok_events in H as (zip & Hz & H & ->).
  destruct (make_archive_ok _ _ _ _ _ Hz) as (Hzip & -> & _).
  rewrite Hcwd in Hzip.
  apply bind_ok_events in H as ([] & H & Hk & ->).
  injection Hk as <-.
  apply bind_ok_events in H as ([] & Hu & _ & ->).
  destruct (upload_ok _ _ _ _ _ _ Hu) as (k & Hk & ->).
  rewrite events_remove. split; [reflexivity|].
  exists k, zip. split; [exact Hk|]. split; [exact Hzip|].
  unfold archive_call, new_dir. cbn [events ret snd].
  rewrite app_nil_r, <- !app_assoc. reflexivity.
Qed.

Lemma moves_cwd_before_apply W c :
  moves_cwd (fun d => FS.resolve d "citc-terraform") (before_apply W c).
Proof.
  unfold before_apply.
  set (into := fun d => FS.resolve d "citc-terraform").
  apply (moves_cwd_bind (fun d => d) into);
    [apply keeps_cwd_moves, keeps_cwd_parse_args | intros a].
  apply (moves_cwd_bind (fun d => d) into);
    [apply keeps_cwd_moves, keeps_cwd_emit | intros _].
  apply (moves_cwd_bind (fun d => d) into);
    [apply keeps_cwd_moves; unfold preflight, when, check_output, decode, print;
     keeps
    | intros _].
  apply (moves_cwd_bind into (fun d => d));
    [apply moves_cwd_fetch_infra | intros _].
  apply keeps_cwd_moves.
  apply keeps_cwd_bind; [apply keeps_cwd_download_terraform | intros terraform].
  apply keeps_cwd_bind; [apply keeps_cwd_ensure_key | intros _].
  apply keeps_cwd_bind; [apply keeps_cwd_init_validate | intros _].
  apply keeps_cwd_bind; [apply keeps_cwd_config_file | intros _].
  apply keeps_cwd_ret.
Qed.

(** X16: the log of a run that creates a cluster and ends normally, when
    the tool prints identifiers that hold no slash.  After [apply] the two
    outputs are read, each by a command that exits zero with an output
    that decodes; the address and the identifier are what these commands
    printed, stripped.  The working directory is renamed after the
    identifier, the archive is built, and [scp] is run with the key of the
    renamed directory, the absolute path of the archive in the directory
    the run was started in, and that address, until it exits zero, after
    fewer failed attempts than the model has fuel; then the archive is
    removed by the same path and the summary names the same key path and
    the same address. *)
Theorem created_cluster_log W fuel c s :
  cli_dry_run c = false ->
  (forall t o,
      spawn W t (output_argv "cluster_id") = Some (0%Z, o) ->
      plain (PyStr.strip_quote (PyStr.strip o)) = true) ->
  result (main W fuel c s) = Ok tt ->
  exists before t o1 o2 k zip,
    let ip := PyStr.strip_quote (PyStr.strip o1) in
    let id := PyStr.strip_quote (PyStr.strip o2) in
    let kp := new_dir id ++ "/citc-key" in
    let scp := scp_command kp zip ip in
    spawn W t (output_argv "ManagementPublicIP") = Some (0%Z, o1)
    /\ PyStr.utf8_valid o1 = true
    /\ spawn W (S t) (output_argv "cluster_id") = Some (0%Z, o2)
    /\ PyStr.utf8_valid o2 = true
    /\ plain id = true
    /\ FS.render (cwd s ++ ["citc-terraform.tar.gz"])%list = Some zip
    /\ k < fuel
    /\ events (main W fuel c s)
       = (before
            ++ [ Exec apply_argv; Exec (output_argv "ManagementPublicIP");
                 Exec (output_argv "cluster_id") ]
            ++ staging id
            ++ archive_call (new_dir id) :: cycles k scp
            ++ [Exec scp; Remove zip]
            ++ summary_lines "aws" kp ip)%list.
Proof.
  intros Hdry Hplain H. rewrite main_split_apply in H |- *.
  apply bind_ok_events in H as ([a terraform] & Hb & H & ->).
  destruct (before_apply_spec W c s) as [_ Hpost].
  destruct (Hpost _ Hb) as (Hcsp & Ha & Htf).
  cbn [fst snd] in Hcsp, Ha, Htf. subst terraform. rewrite Hdry in Ha.
  pose proof (moves_cwd_before_apply W c s _ Hb) as Hcwd1. cbv beta in Hcwd1.
  set (s1 := final (before_apply W c s)) in *.
  unfold after_validate in H |- *. cbn [fst snd] in H |- *.
  apply bind_ok_events in H as (outs & Hc & H & ->).
  destruct (create_cluster_ok W a s1 outs Hcsp Ha Hc)
    as (o1 & o2 & Hs1 & Hv1 & Hs2 & Hv2 & -> & ->).
  pose proof (keeps_cwd_create_cluster W "./terraform" a s1) as Hcwd2.
  cbn [fst snd] in H |- *.
  apply bind_ok_events in H as (kp & Hh & _ & ->).
  destruct (handoff_log W fuel a _ _ _ kp Hcsp Ha Hh)
    as (-> & k & zip & Hk & Hzip & ->).
  rewrite Hcwd2, Hcwd1 in Hzip.
  rewrite (resolve_plain (cwd s) "citc-terraform") in Hzip by reflexivity.
  rewrite resolve_up in Hzip.
  change (FS.resolve (cwd s) "citc-terraform.tar.gz")
    with (cwd s ++ ["citc-terraform.tar.gz"])%list in Hzip.
  rewrite summary_run, Hcsp. cbn [events snd].
  exists (events (before_apply W c s)), (S (tick s1)), o1, o2, k, zip.
  cbn zeta. split; [exact Hs1|]. split; [exact Hv1|]. split; [exact Hs2|].
  split; [exact Hv2|]. split; [exact (Hplain _ _ Hs2)|].
  split; [exact Hzip|]. split; [exact Hk|].
  rewrite <- ?app_assoc. cbn [app]. rewrite <- ?app_assoc. cbn [app].
  reflexivity.
Qed.

Lemma created_cluster_log_witness :
  let W := Demo.world "linux" "terraform-master" "10.0.0.7" "fast-owl" 1 in
  let c := Demo.request "aws" false in
  let s := Demo.home in
  cli_dry_run c = false
  /\ result (main W 3 c s) = Ok tt
  /\ exists before t o1 o2 k zip,
      let ip := PyStr.strip_quote (PyStr.strip o1) in
      let id := PyStr.strip_quote (PyStr.strip o2) in
      let kp := new_dir id ++ "/citc-key" in
      let scp := scp_command kp zip ip in
      spawn W t (output_argv "ManagementPublicIP") = Some (0%Z, o1)
      /\ PyStr.utf8_valid o1 = true
      /\ spawn W (S t) (output_argv "cluster_id") = Some (0%Z, o2)
      /\ PyStr.utf8_valid o2 = true
      /\ plain id = true
      /\ FS.render (cwd s ++ ["citc-terraform.tar.gz"])%list = Some zip
      /\ k < 3
      /\ events (main W 3 c s)
         = (before
              ++ [ Exec apply_argv; Exec (output_argv "ManagementPublicIP");
                   Exec (output_argv "cluster_id") ]
              ++ staging id
              ++ archive_call (new_dir id) :: cycles k scp
              ++ [Exec scp; Remove zip]
              ++ summary_lines "aws" kp ip)%list.
Proof.
  intros W c s.
  assert (H : result (main W 3 c s) = Ok tt) by (vm_compute; reflexivity).
  assert (Hid : forall t o,
             spawn W t (output_argv "cluster_id") = Some (0%Z, o) ->
             plain (PyStr.strip_quote (PyStr.strip o)) = true).
  { intros t o Ho. vm_compute in Ho. injection Ho as <-.
    vm_compute. reflexivity. }
  split; [reflexivity|]. split; [exact H|].
  exact (created_cluster_log W 3 c s eq_refl Hid H).
Defined.

(** ** What a run downloads *)

Lemma urls_app t1 t2 : urls (t1 ++ t2)%list = (urls t1 ++ urls t2)%list.
Proof. apply flat_map_app. Qed.

Lemma urls_bind {A B} (m : M A) (f : A -> M B) s :
  urls (events (bind m f s))
  = (urls (events (m s))
       ++ match result (m s) with
          | Ok a => urls (events (f a (final (m s))))
          | _ => []
          end)%list.
Proof.
  rewrite events_bind, urls_app. now destruct (result (m s)).
Qed.

Lemma no_download_urls {A} (m : M A) s :
  emits_only (fun e => is_download e = false) m -> urls (events (m s)) = [].
Proof.
  intros H. specialize (H s). unfold urls.
  induction H as [|e t He _ IH]; [reflexivity|].
  cbn [flat_map]. rewrite IH. now destruct e.
Qed.

Lemma no_download_upload W kp zip ip fuel :
  emits_only (fun e => is_download e = false) (upload W fuel kp zip ip).
Proof.
  induction fuel as [|fuel IH]; cbn [upload]; [apply emits_only_diverge|].
  apply emits_only_bind; [emits | intros rc].
  apply emits_only_if; [|apply emits_only_ret].
  apply emits_only_bind; [emits | intros _].
  apply emits_only_bind; [emits | intros _]. exact IH.
Qed.

Lemma no_download_after_tool W fuel a terraform :
  emits_only (fun e => is_download e = false)
    (ensure_key W ;;
     init_validate W terraform a ;;
     config_file (csp a) a ;;
     outputs <- create_cluster W terraform a ;;
     key_path <- handoff W fuel a (fst outputs) (snd outputs) ;;
     summary a key_path (fst outputs)).
Proof.
  apply emits_only_bind; [unfold ensure_key; emits | intros _].
  apply emits_only_bind; [unfold init_validate; emits | intros _].
  apply emits_only_bind; [unfold config_file, aws_config_file; emits | intros _].
  apply emits_only_bind;
    [unfold create_cluster, read_output; emits | intros outputs].
  apply emits_only_bind; [|intros kp; unfold summary; emits].
  unfold handoff, stage, transfer.
  apply emits_only_bind; [emits | intros names].
  apply emits_only_bind; [|intros _; emits].
  apply emits_only_bind; [emits | intros zip].
  apply emits_only_bind; [|intros _; emits].
  apply emits_only_if; [apply no_download_upload | emits].
Qed.

Lemma fetch_infra_urls W a s :
  urls (events (fetch_infra W a s)) = [archive_url a].
Proof.
  unfold fetch_infra. rewrite urls_bind. cbn [print emit events result final fst snd urls flat_map app].
  rewrite urls_bind, events_urlretrieve.
  fold (archive_url a). cbn [urls flat_map app].
  destruct (result (urlretrieve W (archive_url a) s)); try reflexivity.
  rewrite no_download_urls; [reflexivity | emits].
Qed.

Lemma download_terraform_urls W version s :
  match supported_archive (platform W) with
  | Some p => urls (events (download_terraform W version s)) = [tf_url version p]
  | None => urls (events (download_terraform W version s)) = []
               /\ forall r, result (download_terraform W version s) <> Ok r
  end.
Proof.
  unfold supported_archive, download_terraform, tf_platform, sys_platform.
  rewrite bind_assoc, bind_ret_l.
  assert (K : forall p,
             urls (events ((print "Downloading Terraform binary" ;;
                            tf_zip <- urlretrieve W (tf_url version p) ;;
                            extractall tf_zip ;;
                            chmod "terraform" ;;
                            ret "./terraform") s))
             = [tf_url version p]).
  { intros p. rewrite urls_bind.
    cbn [print emit events result final fst snd urls flat_map app].
    rewrite urls_bind, events_urlretrieve. cbn [urls flat_map app].
    destruct (result (urlretrieve W (tf_url version p) s)); try reflexivity.
    rewrite no_download_urls; [reflexivity | emits]. }
  destruct (PyStr.startswith "linux" (platform W)).
  - rewrite bind_ret_l. apply K.
  - destruct (String.eqb (platform W) "darwin").
    + rewrite bind_ret_l. apply K.
    + destruct (String.eqb (platform W) "win32");
        (split; [reflexivity | intros r; discriminate]).
Qed.

Lemma main_downloads W fuel c s :
  let t := urls (events (main W fuel c s)) in
  (t = [] /\ result (main W fuel c s) <> Ok tt)
  \/ (t = [repo_url c] /\ result (main W fuel c s) <> Ok tt)
  \/ (exists p,
         supported_archive (platform W) = Some p
         /\ t = [repo_url c; tf_url "1.0.3" p]).
Proof.
  cbn zeta. unfold main. rewrite urls_bind, result_bind.
  destruct (parse_args_checked (fun e => is_download e = false) c
              (fun _ => eq_refl) s) as [Hlog Hpost].
  assert (Hno : urls (events (parse_args c s)) = []).
  { unfold urls. induction Hlog as [|e t He _ IH]; [reflexivity|].
    cbn [flat_map]. rewrite IH. now destruct e. }
  rewrite Hno. cbn [app].
  destruct (result (parse_args c s)) as [a| | |] eqn:Hp;
    try (left; split; [reflexivity | discriminate]).
  destruct (Hpost a eq_refl) as (_ & _ & Hrepo & Hbranch).
  assert (Hurl : archive_url a = repo_url c)
    by (unfold archive_url, repo_url; now rewrite Hrepo, Hbranch).
  set (s0 := final (parse_args c s)).
  rewrite urls_bind, result_bind.
  cbn [print emit events result final fst snd urls flat_map app].
  rewrite urls_bind, result_bind.
  rewrite (no_download_urls (preflight W a) s0) by (unfold preflight; emits).
  cbn [app].
  destruct (result (preflight W a s0)) as [[]| | |];
    try (left; split; [reflexivity | discriminate]).
  set (s1 := final (preflight W a s0)).
  rewrite urls_bind, result_bind, fetch_infra_urls, Hurl.
  destruct (result (fetch_infra W a s1)) as [[]| | |];
    try (right; left; split; [reflexivity | discriminate]).
  set (s2 := final (fetch_infra W a s1)).
  rewrite urls_bind, result_bind.
  pose proof (download_terraform_urls W "1.0.3" s2) as Hd.
  destruct (supported_archive (platform W)) as [p|].
  - right. right. exists p. split; [reflexivity|].
    rewrite Hd.
    destruct (result (download_terraform W "1.0.3" s2)) as [terraform| | |];
      try reflexivity.
    now rewrite (no_download_urls _ _ (no_download_after_tool W fuel a terraform)).
  - destruct Hd as [Hd Hr]. right. left. rewrite Hd.
    destruct (result (download_terraform W "1.0.3" s2)) as [terraform| | |];
      try (split; [reflexivity | discriminate]).
    now destruct (Hr terraform).
Qed.

(** X18: what a run downloads.  Whatever the command line and however the
    run ends, it asks for at most two addresses, in this order: the archive
    of the chosen branch of the infrastructure repository on GitHub, and
    the release 1.0.3 of Terraform for the host platform.  A run that ends
    normally, dry or not, has asked for both. *)
Theorem downloads_of_a_run W fuel c s :
  let t := urls (events (main W fuel c s)) in
  (t = []
   \/ t = [repo_url c]
   \/ exists p,
        supported_archive (platform W) = Some p
        /\ t = [repo_url c; tf_url "1.0.3" p])
  /\ (result (main W fuel c s) = Ok tt ->
      exists p,
        supported_archive (platform W) = Some p
        /\ t = [repo_url c; tf_url "1.0.3" p]).
Proof.
  cbn zeta.
  destruct (main_downloads W fuel c s) as [[H N] | [[H N] | H]]; split; auto.
  - intros K. contradiction.
  - intros K. contradiction.
Qed.


Lemma downloads_of_a_run_witness :
  let W := Demo.world "linux" "terraform-master" "10.0.0.7" "fast-owl" 1 in
  let c := Demo.request "aws" true in
  let s := Demo.start (FS.Dir []) in
  result (main W 3 c s) = Ok tt
  /\ exists p,
      supported_archive (platform W) = Some p
      /\ urls (events (main W 3 c s)) = [repo_url c; tf_url "1.0.3" p].
Proof.
  intros W c s.
  assert (H : result (main W 3 c s) = Ok tt) by (vm_compute; reflexivity).
  split; [exact H|].
  exact (proj2 (downloads_of_a_run W 3 c s) H).
Defined.
